(** * Storm-surge run configuration (atlantic/sandy/setrun.py) and plot
      specification (mangkhut/setplot.py): a shallow embedding

    The two scripts assemble configuration objects by attribute assignment
    and list appends, around a handful of calls into the Clawpack framework.

    - A Python object is modelled by its attribute dictionary
      ([obj := gmap string value]); the [ClawRunData] aggregate is the
      dictionary of its sub-configuration objects.  A local name such as
      [clawdata = rundata.clawdata] is an alias, so assignments through it
      are assignments into the aggregate.
    - A finite Python float is modelled by the rational it denotes ([Q]);
      [np.infty] has a constructor of its own.  The arithmetic behind the
      integer fields the script derives (the cell counts and the number of
      output times) is binary64 arithmetic: every operation rounds its exact
      result to the nearest binary64 number.  [int(x)] is truncation toward
      zero.  The float literals of the scripts and the products of
      [days2seconds] on them are binary64 numbers, so they are written as
      the rationals they denote.
    - Statements run in a state-and-exception monad over a [World] that holds
      the aggregate, the file system, the log of network requests, standard
      output and the log of serialisations.  A raised exception keeps the
      effects performed before it, as in Python.
    - Framework entry points whose code is not part of the scripts
      (the [ClawRunData] constructor, [get_remote_file], gzip, the ATCF
      reader, the readers of the data files) are fields of the [Clawpack]
      and [Readers] interfaces. *)

From Stdlib Require Import ZArith QArith Qround Qabs Qpower Lqa String Ascii List Lia
  DecimalString.
From stdpp Require Import base gmap strings list.

Local Open Scope string_scope.
Local Open Scope Z_scope.

(** ** Python values and objects *)

#[warnings="-register-all"]
Inductive value : Type :=
| VNone
| VBool (b : bool)
| VInt (z : Z)
| VFloat (q : Q)
| VInfty (negative : bool)
| VStr (s : string)
| VList (l : list value).

Abbreviation obj := (gmap string value).
Abbreviation aggregate := (gmap string (gmap string value)).

Inductive exn : Type :=
| AssertionError (msg : string)
| AttributeError (msg : string)
| IndexError (msg : string)
| TypeError (msg : string)
| KeyError (msg : string)
| OSError (msg : string)
| ValueError (msg : string)
| OverflowError (msg : string)
| ZeroDivisionError (msg : string).

(** Modelled from the spec: the error taxonomy of section 7, class (a)
    "ConfigurationError - wrong target package name, missing expected
    sub-configuration attribute".  The script itself raises the Python
    exceptions [AssertionError] and [AttributeError] for these two cases. *)
Definition is_ConfigurationError (e : exn) : bool :=
  match e with
  | AssertionError _ | AttributeError _ => true
  | _ => false
  end.

(** ** The world and the statement monad *)

Record World : Type := mkWorld {
  rundata : aggregate;          (* the ClawRunData object; empty before construction *)
  files : gmap string string;   (* path |-> content *)
  fetched : list string;        (* URLs requested over the network, oldest first *)
  stdout : list string;         (* lines printed, oldest first *)
  written : list aggregate      (* aggregates serialised by rundata.write(), oldest first *)
}.

Definition set_rundata (r : aggregate) (w : World) : World :=
  mkWorld r (files w) (fetched w) (stdout w) (written w).
Definition set_files (f : gmap string string) (w : World) : World :=
  mkWorld (rundata w) f (fetched w) (stdout w) (written w).
Definition add_fetched (urls : list string) (w : World) : World :=
  mkWorld (rundata w) (files w) (fetched w ++ urls) (stdout w) (written w).
Definition add_stdout (line : string) (w : World) : World :=
  mkWorld (rundata w) (files w) (fetched w) (stdout w ++ [line]) (written w).
Definition add_written (r : aggregate) (w : World) : World :=
  mkWorld (rundata w) (files w) (fetched w) (stdout w) (written w ++ [r]).

Definition M (A : Type) : Type := World -> (exn + A) * World.

Definition ret {A} (a : A) : M A := fun w => (inr a, w).
Definition raise {A} (e : exn) : M A := fun w => (inl e, w).
Definition bind {A B} (m : M A) (k : A -> M B) : M B :=
  fun w => match m w with
           | (inr a, w') => k a w'
           | (inl e, w') => (inl e, w')
           end.

Declare Scope py_scope.
Delimit Scope py_scope with py.
Notation "x <- m ;; k" := (bind m (fun x => k))
  (at level 100, m at next level, right associativity) : py_scope.
Notation "m ;; k" := (bind m (fun _ => k))
  (at level 100, right associativity) : py_scope.
Local Open Scope py_scope.

Definition lift {A} (r : exn + A) : M A := fun w => (r, w).
Definition gets {A} (f : World -> A) : M A := fun w => (inr (f w), w).
Definition modify (f : World -> World) : M unit := fun w => (inr tt, f w).

(** [print(line)] *)
Definition print (line : string) : M unit := modify (add_stdout line).

(** [assert cond, msg] *)
Definition assert (cond : bool) (msg : string) : M unit :=
  if cond then ret tt else raise (AssertionError msg).

(** *** Attribute access on the aggregate *)

(** [rundata.o] *)
Definition getobj (o : string) : M obj :=
  fun w => match rundata w !! o with
           | Some ob => (inr ob, w)
           | None => (inl (AttributeError o), w)
           end.

(** [rundata.o.a] *)
Definition getattr (o a : string) : M value :=
  ob <- getobj o ;;
  match ob !! a with
  | Some v => ret v
  | None => raise (AttributeError a)
  end.

(** [rundata.o.a = v] *)
Definition setattr (o a : string) (v : value) : M unit :=
  ob <- getobj o ;;
  modify (fun w => set_rundata (<[o := <[a := v]> ob]> (rundata w)) w).

Definition as_list (v : value) : M (list value) :=
  match v with
  | VList l => ret l
  | _ => raise (TypeError "object is not a list")
  end.

(** [rundata.o.a[i]] *)
Definition getitem (o a : string) (i : nat) : M value :=
  v <- getattr o a ;;
  l <- as_list v ;;
  match l !! i with
  | Some x => ret x
  | None => raise (IndexError "list index out of range")
  end.

(** [rundata.o.a[i] = x]: Python raises [IndexError] out of range. *)
Definition setitem (o a : string) (i : nat) (x : value) : M unit :=
  v <- getattr o a ;;
  l <- as_list v ;;
  if decide (i < length l)%nat
  then setattr o a (VList (<[i := x]> l))
  else raise (IndexError "list assignment index out of range").

(** [rundata.o.a.append(x)] *)
Definition append (o a : string) (x : value) : M unit :=
  v <- getattr o a ;;
  l <- as_list v ;;
  setattr o a (VList (l ++ [x])).

(** *** Numbers *)

(** Python's [int] is unbounded.  Its [float] is IEEE 754 binary64: 53
    significant bits, a least exponent of -1074, magnitudes below 2^1024,
    two infinities and NaN.  A finite float is modelled by the rational it
    denotes (the sign of a zero, which no operation below observes, is not
    kept).  An operation on floats computes the exact result and rounds it
    to the nearest binary64 number, ties to the even significand. *)
Inductive binary64 : Type :=
| Finite (q : Q)
| Infinite (negative : bool)
| NaN.

Inductive number : Type :=
| NInt (z : Z)
| NFloat (x : binary64).

(** The integer nearest to [q]; of two equally near, the even one. *)
Definition round_half_even (q : Q) : Z :=
  let f := Qfloor q in
  match (q - inject_Z f ?= 1 # 2)%Q with
  | Lt => f
  | Gt => f + 1
  | Eq => if Z.even f then f else f + 1
  end.

(** [floor (log2 |q|)] for [q] other than zero. *)
Definition binade (q : Q) : Z :=
  let e := Z.log2 (Z.abs (Qnum q)) - Z.log2 (Z.pos (Qden q)) in
  if Qle_bool (2 ^ e) (Qabs q) then e else e - 1.

(** The spacing of the binary64 numbers around [q]. *)
Definition ulp (q : Q) : Q := (2 ^ Z.max (binade q - 52) (-1074))%Q.

(** Rounding to binary64; [None] is overflow. *)
Definition round64 (q : Q) : option Q :=
  if Qeq_bool q 0 then Some 0%Q
  else let r := (inject_Z (round_half_even (q / ulp q)) * ulp q)%Q in
       if Qle_bool (2 ^ 1024) (Qabs r) then None else Some (Qred r).

Definition negative (q : Q) : bool := Z.ltb (Qnum q) 0.

Definition fl (q : Q) : binary64 :=
  match round64 q with
  | Some r => Finite r
  | None => Infinite (negative q)
  end.

Definition float_sub (x y : binary64) : binary64 :=
  match x, y with
  | NaN, _ | _, NaN => NaN
  | Finite a, Finite b => fl (a - b)
  | Finite _, Infinite s => Infinite (negb s)
  | Infinite s, Finite _ => Infinite s
  | Infinite s, Infinite s' => if Bool.eqb s s' then NaN else Infinite s
  end.

Definition float_mul (x y : binary64) : binary64 :=
  match x, y with
  | NaN, _ | _, NaN => NaN
  | Finite a, Finite b => fl (a * b)
  | Finite a, Infinite s | Infinite s, Finite a =>
      if Qeq_bool a 0 then NaN else Infinite (xorb s (negative a))
  | Infinite s, Infinite s' => Infinite (xorb s s')
  end.

(** Python raises on a zero divisor where IEEE 754 returns an infinity. *)
Definition float_div (x y : binary64) : exn + binary64 :=
  match x, y with
  | _, Finite b =>
      if Qeq_bool b 0 then inl (ZeroDivisionError "float division by zero")
      else inr match x with
               | Finite a => fl (a / b)
               | Infinite s => Infinite (xorb s (negative b))
               | NaN => NaN
               end
  | NaN, _ | _, NaN => inr NaN
  | Finite _, Infinite _ => inr (Finite 0)
  | Infinite _, Infinite _ => inr NaN
  end.

(** The conversion of an operand of mixed arithmetic. *)
Definition to_float (x : number) : exn + binary64 :=
  match x with
  | NFloat f => inr f
  | NInt z => match round64 (inject_Z z) with
              | Some r => inr (Finite r)
              | None => inl (OverflowError "int too large to convert to float")
              end
  end.

Definition mixed (op : binary64 -> binary64 -> exn + binary64) (x y : number)
  : exn + number :=
  match to_float x with
  | inl e => inl e
  | inr a => match to_float y with
             | inl e => inl e
             | inr b => match op a b with
                        | inl e => inl e
                        | inr c => inr (NFloat c)
                        end
             end
  end.

(** [x - y], [x * y] and [x / y] on numbers. *)
Definition num_sub (x y : number) : exn + number :=
  match x, y with
  | NInt a, NInt b => inr (NInt (a - b))
  | _, _ => mixed (fun a b => inr (float_sub a b)) x y
  end.

Definition num_mul (x y : number) : exn + number :=
  match x, y with
  | NInt a, NInt b => inr (NInt (a * b))
  | _, _ => mixed (fun a b => inr (float_mul a b)) x y
  end.

Definition num_truediv (x y : number) : exn + number :=
  match x, y with
  | NInt a, NInt b =>
      if Z.eqb b 0 then inl (ZeroDivisionError "division by zero")
      else match round64 (inject_Z a / inject_Z b) with
           | Some r => inr (NFloat (Finite r))
           | None => inl (OverflowError
                            "integer division result too large for a float")
           end
  | _, _ => mixed float_div x y
  end.

(** A Python number; anything else is a [TypeError] under arithmetic. *)
Definition as_number (v : value) : exn + number :=
  match v with
  | VBool b => inr (NInt (if b then 1 else 0))
  | VInt z => inr (NInt z)
  | VFloat q => inr (NFloat (Finite q))
  | VInfty s => inr (NFloat (Infinite s))
  | _ => inl (TypeError "unsupported operand type(s)")
  end.

(** [x - y] on values. *)
Definition py_sub (x y : value) : exn + number :=
  match as_number x, as_number y with
  | inr a, inr b => num_sub a b
  | inl e, _ | _, inl e => inl e
  end.

(** [int(x)] on a float: truncation toward zero. *)
Definition py_int (x : Q) : Z := Z.quot (Qnum x) (Z.pos (Qden x)).

(** [int(x)] on a number. *)
Definition num_int (x : number) : exn + Z :=
  match x with
  | NInt z => inr z
  | NFloat (Finite q) => inr (py_int q)
  | NFloat (Infinite _) =>
      inl (OverflowError "cannot convert float infinity to integer")
  | NFloat NaN => inl (ValueError "cannot convert float NaN to integer")
  end.

(** [q] is a binary64 number: rounding leaves it as it is. *)
Definition is_binary64 (q : Q) : Prop := round64 q = Some (Qred q).

(** [==] against an integer literal. *)
Definition eq_int (v : value) (n : Z) : bool :=
  match v with
  | VInt z => Z.eqb z n
  | VFloat q => Qeq_bool q (inject_Z n)
  | VBool b => Z.eqb (if b then 1 else 0) n
  | _ => false
  end.

(** ** setrun.py *)

(** [def days2seconds(days): return days * 60.0**2 * 24.0] *)
Definition days2seconds (days : Q) : Q := (days * 60.0 ^ 2 * 24.0)%Q.

Definition degree_factor : Z := 4.

(** [int(upper - lower) * degree_factor], the right-hand side of lines 94-95 *)
Definition num_cells_rhs (lower upper : value) : exn + Z :=
  match py_sub upper lower with
  | inl e => inl e
  | inr d => match num_int d with
             | inl e => inl e
             | inr n => inr (n * degree_factor)
             end
  end.

(** Lines 93-95:
    [clawdata.num_cells[i] = int(clawdata.upper[i] - clawdata.lower[i]) * degree_factor] *)
Definition set_num_cells_axis (i : nat) : M unit :=
  u <- getitem "clawdata" "upper" i ;;
  l <- getitem "clawdata" "lower" i ;;
  n <- lift (num_cells_rhs l u) ;;
  setitem "clawdata" "num_cells" i (VInt n).

Definition set_num_cells : M unit :=
  set_num_cells_axis 0 ;;
  set_num_cells_axis 1.

(** [int((tfinal - t0) * recurrence / (60**2 * 24))], lines 147-148 *)
Definition num_output_times_rhs (t0 tfinal : value) (recurrence : Z)
  : exn + Z :=
  match py_sub tfinal t0 with
  | inl e => inl e
  | inr d =>
      match num_mul d (NInt recurrence) with
      | inl e => inl e
      | inr p => match num_truediv p (NInt (60 ^ 2 * 24)) with
                 | inl e => inl e
                 | inr q => num_int q
                 end
      end
  end.

(** Lines 139-161: the [output_style] cascade. *)
Definition set_output_times : M unit :=
  style <- getattr "clawdata" "output_style" ;;
  if eq_int style 1 then
    setattr "clawdata" "tfinal" (VFloat (days2seconds 1.0)) ;;
    let recurrence := 24 in
    tfinal <- getattr "clawdata" "tfinal" ;;
    t0 <- getattr "clawdata" "t0" ;;
    n <- lift (num_output_times_rhs t0 tfinal recurrence) ;;
    setattr "clawdata" "num_output_times" (VInt n) ;;
    setattr "clawdata" "output_t0" (VBool true)
  else if eq_int style 2 then
    setattr "clawdata" "output_times" (VList [VFloat 0.5; VFloat 1.0])
  else if eq_int style 3 then
    setattr "clawdata" "output_step_interval" (VInt 1) ;;
    setattr "clawdata" "total_steps" (VInt 1) ;;
    setattr "clawdata" "output_t0" (VBool true)
  else ret tt.

(** Lines 272-287: the [checkpt_style] cascade. *)
Definition set_checkpoint : M unit :=
  style <- getattr "clawdata" "checkpt_style" ;;
  if eq_int style 0 then ret tt
  else if eq_int style 1 then ret tt
  else if eq_int style 2 then
    setattr "clawdata" "checkpt_times" (VList [VFloat 0.1; VFloat 0.15])
  else if eq_int style 3 then
    setattr "clawdata" "checkpt_interval" (VInt 5)
  else ret tt.

(** Lines 64-287: [clawdata = rundata.clawdata] and its assignments. *)
Definition set_clawdata (num_dim : Z) : M unit :=
  getobj "clawdata" ;;
  setattr "clawdata" "num_dim" (VInt num_dim) ;;
  setitem "clawdata" "lower" 0 (VFloat (-88.0)) ;;
  setitem "clawdata" "upper" 0 (VFloat (-55.0)) ;;
  setitem "clawdata" "lower" 1 (VFloat 15.0) ;;
  setitem "clawdata" "upper" 1 (VFloat 45.0) ;;
  set_num_cells ;;
  setattr "clawdata" "num_eqn" (VInt 3) ;;
  setattr "clawdata" "num_aux" (VInt (3 + 1 + 3)) ;;
  setattr "clawdata" "capa_index" (VInt 2) ;;
  setattr "clawdata" "t0" (VFloat (days2seconds (-2.0))) ;;
  setattr "clawdata" "restart" (VBool false) ;;
  setattr "clawdata" "restart_file" (VStr "fort.chk00043") ;;
  setattr "clawdata" "output_style" (VInt 1) ;;
  set_output_times ;;
  setattr "clawdata" "output_format" (VStr "ascii") ;;
  setattr "clawdata" "output_q_components" (VStr "all") ;;
  setattr "clawdata" "output_aux_components" (VStr "all") ;;
  setattr "clawdata" "output_aux_onlyonce" (VBool false) ;;
  setattr "clawdata" "verbosity" (VInt 4) ;;
  setattr "clawdata" "dt_variable" (VBool true) ;;
  setattr "clawdata" "dt_initial" (VFloat 0.016) ;;
  setattr "clawdata" "dt_max" (VFloat 1e99) ;;
  setattr "clawdata" "cfl_desired" (VFloat 0.75) ;;
  setattr "clawdata" "cfl_max" (VFloat 1.0) ;;
  setattr "clawdata" "steps_max" (VInt (2 ^ 16)) ;;
  setattr "clawdata" "order" (VInt 1) ;;
  setattr "clawdata" "dimensional_split" (VStr "unsplit") ;;
  setattr "clawdata" "transverse_waves" (VInt 2) ;;
  setattr "clawdata" "num_waves" (VInt 3) ;;
  setattr "clawdata" "limiter" (VList [VStr "mc"; VStr "mc"; VStr "mc"]) ;;
  setattr "clawdata" "use_fwaves" (VBool true) ;;
  setattr "clawdata" "source_split" (VStr "godunov") ;;
  setattr "clawdata" "num_ghost" (VInt 2) ;;
  setitem "clawdata" "bc_lower" 0 (VStr "extrap") ;;
  setitem "clawdata" "bc_upper" 0 (VStr "extrap") ;;
  setitem "clawdata" "bc_lower" 1 (VStr "extrap") ;;
  setitem "clawdata" "bc_upper" 1 (VStr "extrap") ;;
  setattr "clawdata" "checkpt_style" (VInt 0) ;;
  set_checkpoint.

(** Lines 293-348: [amrdata = rundata.amrdata] and its assignments. *)
Definition set_amrdata : M unit :=
  getobj "amrdata" ;;
  setattr "amrdata" "amr_levels_max" (VInt 6) ;;
  setattr "amrdata" "refinement_ratios_x" (VList [VInt 2; VInt 2; VInt 2; VInt 6; VInt 8]) ;;
  setattr "amrdata" "refinement_ratios_y" (VList [VInt 2; VInt 2; VInt 2; VInt 6; VInt 8]) ;;
  setattr "amrdata" "refinement_ratios_t" (VList [VInt 2; VInt 2; VInt 2; VInt 6; VInt 8]) ;;
  setattr "amrdata" "aux_type"
    (VList [VStr "center"; VStr "capacity"; VStr "yleft"; VStr "center"; VStr "center";
            VStr "center"; VStr "center"; VStr "center"; VStr "center"]) ;;
  setattr "amrdata" "flag_richardson" (VBool false) ;;
  setattr "amrdata" "flag2refine" (VBool true) ;;
  setattr "amrdata" "regrid_interval" (VInt 4) ;;
  setattr "amrdata" "regrid_buffer_width" (VInt 2) ;;
  setattr "amrdata" "clustering_cutoff" (VFloat 0.700000) ;;
  setattr "amrdata" "verbosity_regrid" (VInt 0) ;;
  setattr "amrdata" "dprint" (VBool false) ;;
  setattr "amrdata" "eprint" (VBool false) ;;
  setattr "amrdata" "edebug" (VBool false) ;;
  setattr "amrdata" "gprint" (VBool false) ;;
  setattr "amrdata" "nprint" (VBool false) ;;
  setattr "amrdata" "pprint" (VBool false) ;;
  setattr "amrdata" "rprint" (VBool false) ;;
  setattr "amrdata" "sprint" (VBool false) ;;
  setattr "amrdata" "tprint" (VBool false) ;;
  setattr "amrdata" "uprint" (VBool false).

(** Lines 353-357: [regions = rundata.regiondata.regions] and two appends of
    [[minlevel, maxlevel, t1, t2, x1, x2, y1, y2]]. *)
Definition set_regions : M unit :=
  getattr "regiondata" "regions" ;;
  append "regiondata" "regions"
    (VList [VInt 1; VInt 6; VFloat (days2seconds (-0.45)); VFloat (days2seconds 0.10);
            VFloat (-74.1); VFloat (-73.7); VFloat 40.55; VFloat 48.5]) ;;
  append "regiondata" "regions"
    (VList [VInt 1; VInt 5; VFloat (days2seconds 0.10); VFloat (days2seconds 1);
            VFloat (-74.2); VFloat (-73.7); VFloat 40.55; VFloat 48.5]).

(** [rundata.gaugedata.gauges.append([gaugeno, x, y, clawdata.t0, clawdata.tfinal])] *)
Definition append_gauge (gaugeno : Z) (x y : Q) : M unit :=
  t0 <- getattr "clawdata" "t0" ;;
  tfinal <- getattr "clawdata" "tfinal" ;;
  append "gaugedata" "gauges" (VList [VInt gaugeno; VFloat x; VFloat y; t0; tfinal]).

(** Lines 363-369: the battery, Kings Point and Bergen Point gauges. *)
Definition set_gauges : M unit :=
  append_gauge 1 (-74.013) 40.7 ;;
  append_gauge 2 (-73.77) 40.81 ;;
  append_gauge 3 (-74.14166) 40.6367.

(** *** Paths and strings *)

(** [os.path.join(a, b)] on POSIX paths. *)
Definition os_path_join (a b : string) : string :=
  if String.prefix "/" b then b
  else match String.length a with
       | O => b
       | S n => if String.eqb (String.substring n 1 a) "/" then a ++ b
                else a ++ "/" ++ b
       end.

Definition ascii_lower (c : ascii) : ascii :=
  let n := nat_of_ascii c in
  if ((65 <=? n)%nat && (n <=? 90)%nat)%bool then ascii_of_nat (n + 32) else c.

(** [s.lower()] on ASCII text. *)
Fixpoint str_lower (s : string) : string :=
  match s with
  | EmptyString => EmptyString
  | String c s' => String (ascii_lower c) (str_lower s')
  end.

Definition as_str (v : value) : M string :=
  match v with
  | VStr s => ret s
  | _ => raise (TypeError "expected str")
  end.

(** *** Files *)

(** Opening a file for reading: the content, or [OSError] when it is absent. *)
Definition read_file (path : string) : M string :=
  fun w => match files w !! path with
           | Some c => (inr c, w)
           | None => (inl (OSError path), w)
           end.

(** [open(path, 'w')] followed by a write of [content]. *)
Definition write_file (path content : string) : M unit :=
  modify (fun w => set_files (<[path := content]> (files w)) w).

(** [try: m  except: h] with a bare [except]. *)
Definition try_except {A} (m : M A) (h : M A) : M A :=
  fun w => match m w with
           | (inr a, w') => (inr a, w')
           | (inl _, w') => h w'
           end.

(** *** Storm tracks *)

(** Timestamps are seconds on one clock (a [datetime] is the number of
    seconds since 1970-01-01 00:00 of the proleptic Gregorian calendar). *)
Definition days_from_civil (y m d : Z) : Z :=
  let y' := if m <=? 2 then y - 1 else y in
  let era := y' / 400 in
  let yoe := y' - era * 400 in
  let doy := (153 * (m + (if 2 <? m then -3 else 9)) + 2) / 5 + d - 1 in
  let doe := yoe * 365 + yoe / 4 - yoe / 100 + doy in
  era * 146097 + doe - 719468.

(** [datetime.datetime(y, m, d, hh, mm)] *)
Definition datetime (y m d hh mm : Z) : Z :=
  days_from_civil y m d * 86400 + hh * 3600 + mm * 60.

Record StormRecord : Type := mkStormRecord {
  t : Z;
  eye_location : Q * Q;
  max_wind_speed : Q;
  max_wind_radius : Q;
  central_pressure : Q;
  storm_radius : Q
}.

Record Storm : Type := mkStorm {
  track : list StormRecord;
  time_offset : option Z
}.

Definition shift (delta : Z) (r : StormRecord) : StormRecord :=
  mkStormRecord (t r + delta) (eye_location r) (max_wind_speed r)
                (max_wind_radius r) (central_pressure r) (storm_radius r).

(** Modelled from the spec: the effect of the storm's [time_offset] when the
    track is written in the solver's format ([Storm.write], whose code is
    not part of the scripts).  "The time-offset correction is a pure shift,
    not a resample - all records shift uniformly; no interpolation." *)
Definition apply_time_offset (delta : Z) (trk : list StormRecord) : list StormRecord :=
  map (shift delta) trk.

(** ** The framework as seen from the scripts *)

Class Clawpack : Type := {
  (** [clawutil.data.ClawRunData(pkg, num_dim)] *)
  ClawRunData : string -> Z -> aggregate;
  (** [os.getcwd()] and [os.path.expandvars] *)
  getcwd : string;
  expandvars : string -> string;
  (** [clawutil.data.get_remote_file(url, output_dir=dir)] on a file system:
      the file system it leaves and the URLs it requested, also when it
      raises (a download that fails may already have created its local
      file and has asked the network). *)
  get_remote_file : string -> string -> gmap string string ->
                    exn * (gmap string string * list string)
                    + gmap string string * list string;
  (** [gzip.open(...).read().decode('ascii')] on the content of an archive *)
  gunzip_ascii : string -> exn + string;
  (** [Storm(path, file_format="ATCF")] on the content of the file *)
  read_atcf : string -> exn + list StormRecord;
  (** the text of a track in the solver's storm format *)
  geoclaw_format : list StormRecord -> string
}.

Section Setrun.
Context {clawpack : Clawpack}.

(** Lines 490-492: the remote fetch, run against the world's file system. *)
Definition fetch_remote (url dir : string) : M unit :=
  fun w => match get_remote_file url dir (files w) with
           | inr (fs, urls) => (inr tt, add_fetched urls (set_files fs w))
           | inl (e, (fs, urls)) => (inl e, add_fetched urls (set_files fs w))
           end.

(** Lines 496-498: [gzip.open] opens the archive, [open(.., 'w')] truncates
    the target, then the decoded text is written. *)
Definition unzip (atcf_path : string) : M unit :=
  archive <- read_file (atcf_path ++ "." ++ "gz") ;;
  write_file atcf_path "" ;;
  text <- lift (gunzip_ascii archive) ;;
  write_file atcf_path text.

(** Lines 490-498: fetch and decompress the best-track file. *)
Definition fetch_best_track : M string :=
  fetch_remote "http://ftp.nhc.noaa.gov/atcf/archive/2012/bal182012.dat.gz"
               getcwd ;;
  let atcf_path := os_path_join getcwd "bal182012.dat" in
  unzip atcf_path ;;
  ret atcf_path.

(** [Storm(path=path, file_format="ATCF")] *)
Definition Storm_init (path : string) : M Storm :=
  content <- read_file path ;;
  trk <- lift (read_atcf content) ;;
  ret (mkStorm trk None).

(** [storm.write(path, file_format='geoclaw')]: times are written relative
    to [time_offset]. *)
Definition Storm_write (storm : Storm) (path : string) : M unit :=
  let trk := match time_offset storm with
             | Some off => apply_time_offset (- off) (track storm)
             | None => track storm
             end in
  write_file path (geoclaw_format trk).

(** Lines 471-506: surge data and the storm file. *)
Definition set_surge_data : M unit :=
  getobj "surge_data" ;;
  setattr "surge_data" "wind_forcing" (VBool true) ;;
  setattr "surge_data" "drag_law" (VInt 1) ;;
  setattr "surge_data" "pressure_forcing" (VBool true) ;;
  setattr "surge_data" "display_landfall_time" (VBool true) ;;
  setattr "surge_data" "wind_refine" (VList [VFloat 20.0; VFloat 40.0; VFloat 60.0]) ;;
  setattr "surge_data" "R_refine" (VList [VFloat 60.0e3; VFloat 40e3; VFloat 20e3]) ;;
  setattr "surge_data" "storm_specification_type" (VStr "holland80") ;;
  setattr "surge_data" "storm_file"
          (VStr (expandvars (os_path_join getcwd "sandy.storm"))) ;;
  atcf_path <- fetch_best_track ;;
  sandy <- Storm_init atcf_path ;;
  let sandy := mkStorm (track sandy) (Some (datetime 2012 10 30 0 0)) in
  storm_file <- getattr "surge_data" "storm_file" ;;
  storm_file <- as_str storm_file ;;
  Storm_write sandy storm_file.

(** Lines 511-521: variable friction. *)
Definition set_friction_data : M unit :=
  getobj "friction_data" ;;
  setattr "friction_data" "variable_friction" (VBool true) ;;
  lower <- getattr "clawdata" "lower" ;;
  upper <- getattr "clawdata" "upper" ;;
  append "friction_data" "friction_regions"
         (VList [lower; upper;
                 VList [VInfty false; VFloat 0.0; VInfty true];
                 VList [VFloat 0.050; VFloat 0.025]]).

Definition append_topofile (topotype minlevel maxlevel : Z) (t1 t2 : Q) (fname : string)
  : M unit :=
  append "topo_data" "topofiles"
         (VList [VInt topotype; VInt minlevel; VInt maxlevel;
                 VFloat (days2seconds t1); VFloat (days2seconds t2); VStr fname]).

(** Lines 423-437: topography files. *)
Definition set_topo_data : M unit :=
  getobj "topo_data" ;;
  setattr "topo_data" "topofiles" (VList []) ;;
  let topo_path := "../bathy" in
  append_topofile 3 1 3 (-2) 1 (os_path_join topo_path "atlantic_1min.tt3") ;;
  append_topofile 3 1 3 (-2) 1 (os_path_join topo_path "newyork_3s.tt3") ;;
  append_topofile 4 1 6 (-0.45) 0.46 (os_path_join topo_path "nc41x00_74x00.nc") ;;
  append_topofile 4 1 6 (-0.45) 0.46 (os_path_join topo_path "nc40x75_74x00.nc") ;;
  append_topofile 4 1 6 (-0.45) 0.46 (os_path_join topo_path "nc40x50_74x00.nc") ;;
  append_topofile 4 1 6 (-0.45) 0.46 (os_path_join topo_path "nc40x75_73x75.nc").

(** Lines 391-395: the guarded access to [rundata.geo_data]. *)
Definition get_geo_data : M obj :=
  try_except (getobj "geo_data")
             (print "*** Error, this rundata has no geodata attribute" ;;
              raise (AttributeError "Missing geodata attribute")).

(** [def setgeo(rundata)]: the aggregate is the one held by the world. *)
Definition setgeo : M unit :=
  get_geo_data ;;
  setattr "geo_data" "gravity" (VFloat 9.81) ;;
  setattr "geo_data" "coordinate_system" (VInt 2) ;;
  setattr "geo_data" "earth_radius" (VFloat 6367.5e3) ;;
  setattr "geo_data" "rho" (VFloat 1025.0) ;;
  setattr "geo_data" "rho_air" (VFloat 1.15) ;;
  setattr "geo_data" "ambient_pressure" (VFloat 101.3e3) ;;
  setattr "geo_data" "coriolis_forcing" (VBool true) ;;
  setattr "geo_data" "friction_forcing" (VBool true) ;;
  setattr "geo_data" "friction_depth" (VFloat 1e10) ;;
  setattr "geo_data" "sea_level" (VFloat 0.33) ;;
  setattr "geo_data" "dry_tolerance" (VFloat 1.0e-2) ;;
  getobj "refinement_data" ;;
  setattr "refinement_data" "wave_tolerance" (VFloat 1.0) ;;
  setattr "refinement_data" "speed_tolerance"
          (VList [VFloat 1.0; VFloat 2.0; VFloat 3.0; VFloat 4.0]) ;;
  setattr "refinement_data" "deep_depth" (VFloat 300.0) ;;
  setattr "refinement_data" "max_level_deep" (VInt 4) ;;
  setattr "refinement_data" "variable_dt_refinement_ratios" (VBool true) ;;
  set_topo_data ;;
  setattr "qinit_data" "qinit_type" (VInt 0) ;;
  setattr "qinit_data" "qinitfiles" (VList []) ;;
  setattr "fixed_grid_data" "fixedgrids" (VList []) ;;
  set_surge_data ;;
  set_friction_data.

(** Lines 52-369: the aggregate is constructed and the standard Clawpack,
    AMR, region and gauge parameters are assigned. *)
Definition set_clawpack_parameters (claw_pkg : string) (num_dim : Z) : M unit :=
  modify (set_rundata (ClawRunData claw_pkg num_dim)) ;;
  set_clawdata num_dim ;;
  set_amrdata ;;
  set_regions ;;
  set_gauges.

(** [def setrun(claw_pkg='geoclaw')] *)
Definition setrun (claw_pkg : string) : M aggregate :=
  assert (String.eqb (str_lower claw_pkg) "geoclaw") "Expected claw_pkg = 'geoclaw'" ;;
  let num_dim := 2 in
  set_clawpack_parameters claw_pkg num_dim ;;
  setgeo ;;
  gets rundata.

(** [rundata.write()] *)
Definition rundata_write : M unit :=
  modify (fun w => add_written (rundata w) w).

(** The [__main__] block; [argv] is [sys.argv]. *)
Definition main (argv : list string) : M unit :=
  (if decide (length argv = 2%nat)
   then match argv !! 1%nat with
        | Some a => setrun a
        | None => raise (IndexError "list index out of range")
        end
   else setrun "geoclaw") ;;
  rundata_write.

(** The best-track archive as [get_remote_file] names it locally, which is
    also the file opened on line 496. *)
Definition best_track_url : string :=
  "http://ftp.nhc.noaa.gov/atcf/archive/2012/bal182012.dat.gz".
Definition best_track_archive : string :=
  os_path_join getcwd "bal182012.dat" ++ "." ++ "gz".

(** Modelled from the spec: the contract of [clawutil.data.get_remote_file],
    whose code is not part of the scripts ("idempotent - skip if already
    present locally"): with the local file present it requests nothing over
    the network and leaves the file system as it is. *)
Definition skips_when_present : Prop :=
  forall fs, is_Some (fs !! best_track_archive) ->
             get_remote_file best_track_url getcwd fs = inr (fs, []).

End Setrun.

(** ** setplot.py *)

(** The plot specification is built without touching the world; a failing
    read or a missing attribute ends it with the exception. *)

#[export] Instance exn_ret : MRet (sum exn) := fun _ a => inr a.
#[export] Instance exn_bind : MBind (sum exn) := fun _ _ k m =>
  match m with
  | inr a => k a
  | inl e => inl e
  end.

(** Python truth value, and [x and y]. *)
Definition truthy (v : value) : bool :=
  match v with
  | VNone => false
  | VBool b => b
  | VInt z => negb (Z.eqb z 0)
  | VFloat q => negb (Qeq_bool q 0)
  | VInfty _ => true
  | VStr s => negb (String.eqb s "")
  | VList l => match l with [] => false | _ => true end
  end.

Definition py_and (x y : value) : value := if truthy x then y else x.

(** [str(n)] on an integer *)
Definition str_of_int (z : Z) : string :=
  DecimalString.NilZero.string_of_int (Z.to_int z).

(** The closures handed to the plotting library as [afteraxes] hooks. *)
Inductive callback : Type :=
| surge_afteraxes
| gauge_afteraxes
| gauge_location_afteraxes.

Record ClawPlotItem : Type := mkItem {
  item_name : option string;                 (* key in [plotitem_dict] *)
  plot_type : option string;
  bounds : option (list value);
  amr_patchedges_show : option (list Z);
  colorbar_ticks : option (list Z);
  colorbar_tick_labels : option (list string)
}.

Record ClawPlotAxes : Type := mkAxes {
  title : option string;
  xlimits : option (value * value);
  ylimits : option (value * value);
  afteraxes : option callback;
  scaled : option bool;
  plotitems : list ClawPlotItem             (* [plotitem_dict], in creation order *)
}.

Record ClawPlotFigure : Type := mkFigure {
  fig_name : string;
  figno : option Z;
  fig_type : option string;
  kwargs : list (string * (value * value));
  show : option value;
  clf_each_gauge : option bool;
  plotaxes_list : list ClawPlotAxes
}.

Record ClawPlotData : Type := mkPlotData {
  outdir : string;
  figures : list ClawPlotFigure;             (* in creation order *)
  attrs : obj                                (* format, printfigs, html, ... *)
}.

(** [region_dict]: the value of one entry of [regions]. *)
Record RegionDict : Type := mkRegion {
  region_xlimits : value * value;
  region_ylimits : value * value;
  region_figsize : value * value
}.

(** Attribute assignments on items, axes and figures. *)
Definition set_amr_patchedges_show (x : list Z) (it : ClawPlotItem) : ClawPlotItem :=
  mkItem (item_name it) (plot_type it) (bounds it) (Some x)
         (colorbar_ticks it) (colorbar_tick_labels it).
Definition set_colorbar_ticks (x : list Z) (it : ClawPlotItem) : ClawPlotItem :=
  mkItem (item_name it) (plot_type it) (bounds it) (amr_patchedges_show it)
         (Some x) (colorbar_tick_labels it).
Definition set_colorbar_tick_labels (x : list string) (it : ClawPlotItem) : ClawPlotItem :=
  mkItem (item_name it) (plot_type it) (bounds it) (amr_patchedges_show it)
         (colorbar_ticks it) (Some x).

Definition set_title (x : string) (ax : ClawPlotAxes) : ClawPlotAxes :=
  mkAxes (Some x) (xlimits ax) (ylimits ax) (afteraxes ax) (scaled ax) (plotitems ax).
Definition set_xlimits (x : value * value) (ax : ClawPlotAxes) : ClawPlotAxes :=
  mkAxes (title ax) (Some x) (ylimits ax) (afteraxes ax) (scaled ax) (plotitems ax).
Definition set_ylimits (x : value * value) (ax : ClawPlotAxes) : ClawPlotAxes :=
  mkAxes (title ax) (xlimits ax) (Some x) (afteraxes ax) (scaled ax) (plotitems ax).
Definition set_afteraxes (x : callback) (ax : ClawPlotAxes) : ClawPlotAxes :=
  mkAxes (title ax) (xlimits ax) (ylimits ax) (Some x) (scaled ax) (plotitems ax).
Definition set_scaled (x : bool) (ax : ClawPlotAxes) : ClawPlotAxes :=
  mkAxes (title ax) (xlimits ax) (ylimits ax) (afteraxes ax) (Some x) (plotitems ax).
Definition set_plotitems (x : list ClawPlotItem) (ax : ClawPlotAxes) : ClawPlotAxes :=
  mkAxes (title ax) (xlimits ax) (ylimits ax) (afteraxes ax) (scaled ax) x.

Definition set_kwargs (x : list (string * (value * value))) (f : ClawPlotFigure)
  : ClawPlotFigure :=
  mkFigure (fig_name f) (figno f) (fig_type f) x (show f) (clf_each_gauge f)
           (plotaxes_list f).
Definition set_show (x : value) (f : ClawPlotFigure) : ClawPlotFigure :=
  mkFigure (fig_name f) (figno f) (fig_type f) (kwargs f) (Some x) (clf_each_gauge f)
           (plotaxes_list f).
Definition set_clf_each_gauge (x : bool) (f : ClawPlotFigure) : ClawPlotFigure :=
  mkFigure (fig_name f) (figno f) (fig_type f) (kwargs f) (show f) (Some x)
           (plotaxes_list f).
Definition add_axes (ax : ClawPlotAxes) (f : ClawPlotFigure) : ClawPlotFigure :=
  mkFigure (fig_name f) (figno f) (fig_type f) (kwargs f) (show f) (clf_each_gauge f)
           (plotaxes_list f ++ [ax]).

(** [plotdata.new_plotfigure(name=.., figno=.., type=..)]: a figure with
    nothing assigned yet; [None] stands for "left to the library". *)
Definition new_plotfigure (name : string) (fno : option Z) (type : option string)
  : ClawPlotFigure :=
  mkFigure name fno type [] None None [].

(** [plotfigure.new_plotaxes()] *)
Definition new_plotaxes : ClawPlotAxes := mkAxes None None None None None [].

(** [plotaxes.new_plotitem(name=.., plot_type=..)] *)
Definition new_plotitem (name : option string) (type : option string)
           (ax : ClawPlotAxes) : ClawPlotAxes :=
  set_plotitems (plotitems ax ++ [mkItem name type None None None None]) ax.

(** [surgeplot.add_surface_elevation(plotaxes, bounds=b)] and its siblings
    register an item under a fixed key ('surface', 'speed', 'pressure',
    'wind', 'land'); the script reads those keys back on lines 114-115 and
    130-131. *)
Definition add_item (key : string) (b : option (list value)) (ax : ClawPlotAxes)
  : ClawPlotAxes :=
  set_plotitems (plotitems ax ++ [mkItem (Some key) None b None None None]) ax.
Definition add_surface_elevation (b : list value) := add_item "surface" (Some b).
Definition add_speed (b : list value) := add_item "speed" (Some b).
Definition add_pressure (b : list value) := add_item "pressure" (Some b).
Definition add_wind (b : list value) := add_item "wind" (Some b).
Definition add_land := add_item "land" None.

Definition has_key (key : string) (it : ClawPlotItem) : bool :=
  match item_name it with
  | Some k => String.eqb k key
  | None => false
  end.

(** [plotaxes.plotitem_dict[key].<attribute> = ...]; [KeyError] when the key
    is absent. *)
Definition update_item (key : string) (f : ClawPlotItem -> ClawPlotItem)
           (ax : ClawPlotAxes) : exn + ClawPlotAxes :=
  if existsb (has_key key) (plotitems ax)
  then inr (set_plotitems
              (map (fun it => if has_key key it then f it else it) (plotitems ax)) ax)
  else inl (KeyError key).

(** [add_custom_colorbar_ticks_to_axes(axes, item_name, ticks, tick_labels)] *)
Definition add_custom_colorbar_ticks_to_axes (axes : ClawPlotAxes) (name : string)
           (ticks : list Z) (tick_labels : list string) : exn + ClawPlotAxes :=
  axes ← update_item name (set_colorbar_ticks ticks) axes;
  update_item name (set_colorbar_tick_labels tick_labels) axes.

Definition surface_ticks : list Z := [-5; -4; -3; -2; -1; 0; 1; 2; 3; 4; 5].
Definition surface_labels : list string := map str_of_int surface_ticks.
Definition speed_limits : list value := [VFloat 0.0; VFloat 3.0].
Definition speed_ticks : list Z := [0; 1; 2; 3].
Definition speed_labels : list string := map str_of_int speed_ticks.
Definition wind_limits : list value := [VInt 0; VInt 66].
Definition pressure_limits : list value := [VInt 909; VInt 1013].

(** The readers of the solver's data files and the default plot data. *)
Class Readers : Type := {
  (** [ClawPlotData()] *)
  ClawPlotData_new : ClawPlotData;
  (** [clawutil.ClawInputData(2).read(path)] and its siblings: the attributes
      of the object after the read. *)
  read_claw_data : string -> exn + obj;
  read_geoclaw_data : string -> exn + obj;
  read_surge_data : string -> exn + obj;
  read_friction_data : string -> exn + obj;
  (** [surgeplot.track_data(path)] *)
  track_data : string -> exn + list value
}.

(** [ob.a] *)
Definition obj_attr (ob : obj) (a : string) : exn + value :=
  match ob !! a with
  | Some v => inr v
  | None => inl (AttributeError a)
  end.

(** [v[i]] *)
Definition list_item (v : value) (i : nat) : exn + value :=
  match v with
  | VList l => match l !! i with
               | Some x => inr x
               | None => inl (IndexError "list index out of range")
               end
  | _ => inl (TypeError "object is not subscriptable")
  end.

Definition number_of (v : value) : exn + Q :=
  match v with
  | VBool b => inr (if b then 1 else 0)%Q
  | VInt z => inr (inject_Z z)
  | VFloat q => inr q
  | _ => inl (TypeError "unsupported operand type(s)")
  end.

(** [for x in l: s = body(s, x)] *)
Fixpoint for_each {A S : Type} (body : S -> A -> exn + S) (l : list A) (s : S)
  : exn + S :=
  match l with
  | [] => inr s
  | x :: l' => s' ← body s x; for_each body l' s'
  end.

(** [regions[key]] *)
Fixpoint dict_get {V : Type} (key : string) (d : list (string * V)) : exn + V :=
  match d with
  | [] => inl (KeyError key)
  | (k, v) :: d' => if String.eqb k key then inr v else dict_get key d'
  end.

(** [plotdata.clearfigures()] *)
Definition clearfigures (pd : ClawPlotData) : ClawPlotData :=
  mkPlotData (outdir pd) [] (attrs pd).

(** [plotdata.a = v] *)
Definition set_plotdata_attr (a : string) (v : value) (pd : ClawPlotData) : ClawPlotData :=
  mkPlotData (outdir pd) (figures pd) (<[a := v]> (attrs pd)).

(** Registers a finished figure descriptor with the plot data.  (Python
    registers the figure when [new_plotfigure] is called and fills it in
    afterwards through the returned reference; the resulting list is the
    same.) *)
Definition register_figure (f : ClawPlotFigure) (pd : ClawPlotData) : ClawPlotData :=
  mkPlotData (outdir pd) (figures pd ++ [f]) (attrs pd).

(** Lines 88-99: the [regions] dictionary, in insertion order. *)
Definition regions (clawdata : obj) : exn + list (string * RegionDict) :=
  lower ← obj_attr clawdata "lower";
  lower0 ← list_item lower 0;
  upper ← obj_attr clawdata "upper";
  upper0 ← list_item upper 0;
  lower1 ← list_item lower 1;
  upper1 ← list_item upper 1;
  mret [("Coast", mkRegion (lower0, upper0) (lower1, upper1) (VInt 8, VFloat 7.5));
        ("Zhapo Station", mkRegion (VFloat 111.71666667, VFloat 111.91666667)
                                   (VFloat 21.48333333, VFloat 21.68333333)
                                   (VInt 6, VInt 6));
        ("Landfall", mkRegion (VFloat 112.26, VFloat 112.86)
                              (VFloat 21.3, VFloat 21.7)
                              (VInt 6, VInt 4));
        ("Quarry Bay", mkRegion (VFloat 114.11333333, VFloat 114.31333333)
                                (VFloat 22.19111111, VFloat 22.39111111)
                                (VInt 6, VInt 6))].

(** Lines 103-117: the surface figure of one region. *)
Definition surface_figure (surface_limits : list value) (name : string)
           (region_dict : RegionDict) : exn + ClawPlotFigure :=
  let plotfigure := new_plotfigure ("Surface - " ++ name) None None in
  let plotfigure := set_kwargs [("figsize", region_figsize region_dict)] plotfigure in
  let plotaxes := new_plotaxes in
  let plotaxes := set_title "Surface" plotaxes in
  let plotaxes := set_xlimits (region_xlimits region_dict) plotaxes in
  let plotaxes := set_ylimits (region_ylimits region_dict) plotaxes in
  let plotaxes := set_afteraxes surge_afteraxes plotaxes in
  let plotaxes := add_surface_elevation surface_limits plotaxes in
  let plotaxes := add_land plotaxes in
  plotaxes ← update_item "surface" (set_amr_patchedges_show (replicate 10 0)) plotaxes;
  plotaxes ← update_item "land" (set_amr_patchedges_show (replicate 10 0)) plotaxes;
  plotaxes ← add_custom_colorbar_ticks_to_axes plotaxes "surface" surface_ticks
                                               surface_labels;
  mret (add_axes plotaxes plotfigure).

(** Lines 119-133: the currents figure of one region. *)
Definition currents_figure (name : string) (region_dict : RegionDict)
  : exn + ClawPlotFigure :=
  let plotfigure := new_plotfigure ("Currents - " ++ name) None None in
  let plotfigure := set_kwargs [("figsize", region_figsize region_dict)] plotfigure in
  let plotaxes := new_plotaxes in
  let plotaxes := set_title "Currents" plotaxes in
  let plotaxes := set_xlimits (region_xlimits region_dict) plotaxes in
  let plotaxes := set_ylimits (region_ylimits region_dict) plotaxes in
  let plotaxes := set_afteraxes surge_afteraxes plotaxes in
  let plotaxes := add_speed speed_limits plotaxes in
  let plotaxes := add_land plotaxes in
  plotaxes ← update_item "speed" (set_amr_patchedges_show (replicate 10 0)) plotaxes;
  plotaxes ← update_item "land" (set_amr_patchedges_show (replicate 10 0)) plotaxes;
  plotaxes ← add_custom_colorbar_ticks_to_axes plotaxes "speed" speed_ticks speed_labels;
  mret (add_axes plotaxes plotfigure).

(** Lines 101-133: the body of [for (name, region_dict) in regions.items()]. *)
Definition region_body (surface_limits : list value) (plotdata : ClawPlotData)
           (entry : string * RegionDict) : exn + ClawPlotData :=
  let '(name, region_dict) := entry in
  surface ← surface_figure surface_limits name region_dict;
  let plotdata := register_figure surface plotdata in
  currents ← currents_figure name region_dict;
  mret (register_figure currents plotdata).

(** Lines 138-161: a forcing-field figure over the 'Coast' region. *)
Definition forcing_figure (name axes_title : string) (flag : value)
           (add_field : ClawPlotAxes -> ClawPlotAxes)
           (regs : list (string * RegionDict)) : exn + ClawPlotFigure :=
  let plotfigure := new_plotfigure name None None in
  let plotfigure := set_show (py_and flag (VBool true)) plotfigure in
  let plotaxes := new_plotaxes in
  coast ← dict_get "Coast" regs;
  let plotaxes := set_xlimits (region_xlimits coast) plotaxes in
  coast ← dict_get "Coast" regs;
  let plotaxes := set_ylimits (region_ylimits coast) plotaxes in
  let plotaxes := set_title axes_title plotaxes in
  let plotaxes := set_afteraxes surge_afteraxes plotaxes in
  let plotaxes := set_scaled true plotaxes in
  let plotaxes := add_field plotaxes in
  let plotaxes := add_land plotaxes in
  mret (add_axes plotaxes plotfigure).

(** Lines 166-196: the per-gauge figure. *)
Definition gauge_figure : ClawPlotFigure :=
  let plotfigure := new_plotfigure "Gauge Surfaces" (Some 300) (Some "each_gauge") in
  let plotfigure := set_show (VBool true) plotfigure in
  let plotfigure := set_clf_each_gauge true plotfigure in
  let plotaxes := new_plotaxes in
  let plotaxes := set_xlimits (VFloat (-2.25), VFloat 0.75) plotaxes in
  let plotaxes := set_ylimits (VInt (-1), VInt 4) plotaxes in
  let plotaxes := set_title "Surface" plotaxes in
  let plotaxes := set_afteraxes gauge_afteraxes plotaxes in
  let plotaxes := new_plotitem None (Some "1d_plot") plotaxes in
  add_axes plotaxes plotfigure.

(** Lines 210-223: the gauge-location map. *)
Definition gauge_location_figure (surface_limits : list value) : exn + ClawPlotFigure :=
  let plotfigure := new_plotfigure "Gauge Locations" None None in
  let plotfigure := set_show (VBool true) plotfigure in
  let plotaxes := new_plotaxes in
  let plotaxes := set_title "Gauge Locations" plotaxes in
  let plotaxes := set_scaled true plotaxes in
  let plotaxes := set_xlimits (VFloat 111.0, VFloat 115.0) plotaxes in
  let plotaxes := set_ylimits (VFloat 21.0, VFloat 22.5) plotaxes in
  let plotaxes := set_afteraxes gauge_location_afteraxes plotaxes in
  let plotaxes := add_surface_elevation surface_limits plotaxes in
  let plotaxes := add_land plotaxes in
  plotaxes ← update_item "surface" (set_amr_patchedges_show (replicate 10 0)) plotaxes;
  plotaxes ← update_item "land" (set_amr_patchedges_show (replicate 10 0)) plotaxes;
  mret (add_axes plotaxes plotfigure).

(** Lines 230-240: parameters of the html and latex hardcopy. *)
Definition set_hardcopy (plotdata : ClawPlotData) : ClawPlotData :=
  let plotdata := set_plotdata_attr "printfigs" (VBool true) plotdata in
  let plotdata := set_plotdata_attr "print_format" (VStr "png") plotdata in
  let plotdata := set_plotdata_attr "print_framenos" (VStr "all") plotdata in
  let plotdata := set_plotdata_attr "print_gaugenos" (VList [VInt 1; VInt 2]) plotdata in
  let plotdata := set_plotdata_attr "print_fignos" (VStr "all") plotdata in
  let plotdata := set_plotdata_attr "html" (VBool true) plotdata in
  let plotdata := set_plotdata_attr "latex" (VBool true) plotdata in
  let plotdata := set_plotdata_attr "latex_figsperline" (VInt 2) plotdata in
  let plotdata := set_plotdata_attr "latex_framesperline" (VInt 1) plotdata in
  let plotdata := set_plotdata_attr "latex_makepdf" (VBool false) plotdata in
  set_plotdata_attr "parallel" (VBool true) plotdata.

Section Setplot.
Context {readers : Readers}.

(** Lines 29-31: [if plotdata is None: plotdata = ClawPlotData()] *)
Definition given_or_new (plotdata : option ClawPlotData) : ClawPlotData :=
  match plotdata with
  | None => ClawPlotData_new
  | Some pd => pd
  end.

(** [def setplot(plotdata=None)] *)
Definition setplot (plotdata : option ClawPlotData) : exn + ClawPlotData :=
  let plotdata := given_or_new plotdata in
  let plotdata := clearfigures plotdata in
  let plotdata := set_plotdata_attr "format" (VStr "binary") plotdata in
  clawdata ← read_claw_data (os_path_join (outdir plotdata) "claw.data");
  physics ← read_geoclaw_data (os_path_join (outdir plotdata) "geoclaw.data");
  surge_data ← read_surge_data (os_path_join (outdir plotdata) "surge.data");
  friction_data ← read_friction_data (os_path_join (outdir plotdata) "friction.data");
  track ← track_data (os_path_join (outdir plotdata) "fort.track");
  sea_level ← obj_attr physics "sea_level";
  sea_level ← number_of sea_level;
  let surface_limits := [VFloat (sea_level - 5.0); VFloat (sea_level + 5.0)] in
  regs ← regions clawdata;
  plotdata ← for_each (region_body surface_limits) regs plotdata;
  pressure_forcing ← obj_attr surge_data "pressure_forcing";
  pressure ← forcing_figure "Pressure" "Pressure Field" pressure_forcing
                            (add_pressure pressure_limits) regs;
  let plotdata := register_figure pressure plotdata in
  wind_forcing ← obj_attr surge_data "wind_forcing";
  wind ← forcing_figure "Wind Speed" "Wind Field" wind_forcing
                        (add_wind wind_limits) regs;
  let plotdata := register_figure wind plotdata in
  let plotdata := register_figure gauge_figure plotdata in
  locations ← gauge_location_figure surface_limits;
  let plotdata := register_figure locations plotdata in
  mret (set_hardcopy plotdata).

End Setplot.

(** ** A reference instance of the framework

    A small concrete framework on which the scripts can be run: the
    constructor creates every sub-configuration object with lists of length
    [num_dim], the remote fetch downloads only when the local copy is
    absent, gzip is the identity, and the ATCF reader returns a two-record
    track. *)

Definition reference_rundata (pkg : string) (num_dim : Z) : aggregate :=
  let zeros := VList (replicate (Z.to_nat num_dim) (VFloat 0)) in
  let nones := VList (replicate (Z.to_nat num_dim) VNone) in
  list_to_map
    [("clawdata", list_to_map [("lower", zeros); ("upper", zeros); ("num_cells", zeros);
                               ("bc_lower", nones); ("bc_upper", nones)]);
     ("amrdata", ∅);
     ("regiondata", {[ "regions" := VList [] ]});
     ("gaugedata", {[ "gauges" := VList [] ]});
     ("geo_data", ∅); ("refinement_data", ∅); ("topo_data", ∅); ("qinit_data", ∅);
     ("fixed_grid_data", ∅); ("surge_data", ∅);
     ("friction_data", {[ "friction_regions" := VList [] ]})].

Definition reference_track : list StormRecord :=
  [mkStormRecord (datetime 2012 10 29 18 0) (-74.0, 38.3)%Q 41 185 943 370;
   mkStormRecord (datetime 2012 10 30 0 0) (-74.5, 39.4)%Q 36 185 946 370].

Definition reference_fetch (url dir : string) (fs : gmap string string)
  : exn * (gmap string string * list string) + gmap string string * list string :=
  let target := os_path_join dir "bal182012.dat.gz" in
  match fs !! target with
  | Some _ => inr (fs, [])
  | None => inr (<[target := "AL, 18, 2012"]> fs, [url])
  end.

Definition reference_clawpack : Clawpack := {|
  ClawRunData := reference_rundata;
  getcwd := "/run";
  expandvars := fun s => s;
  get_remote_file := reference_fetch;
  gunzip_ascii := fun s => inr s;
  read_atcf := fun _ => inr reference_track;
  geoclaw_format := fun trk => String.concat " " (map (fun r => str_of_int (t r)) trk)
|}.

(** The world before the script starts. *)
Definition initial_world : World := mkWorld ∅ ∅ [] [] [].

Definition reference_readers (pressure wind : bool) : Readers := {|
  ClawPlotData_new := mkPlotData "_output" [] ∅;
  read_claw_data := fun _ =>
    inr (list_to_map [("lower", VList [VFloat 105.0; VFloat 15.0]);
                      ("upper", VList [VFloat 125.0; VFloat 25.0])]);
  read_geoclaw_data := fun _ => inr {[ "sea_level" := VFloat 0.0 ]};
  read_surge_data := fun _ =>
    inr (list_to_map [("pressure_forcing", VBool pressure);
                      ("wind_forcing", VBool wind)]);
  read_friction_data := fun _ => inr ∅;
  track_data := fun _ => inr []
|}.

(** ** Observations used in the statements *)

(** Reading an attribute of an aggregate. *)
Definition attr (rd : aggregate) (o a : string) : option value :=
  rd !! o ≫= (.!! a).

Definition the_object (o : string) (w : World) : option obj := rundata w !! o.
Definition the_attr (o a : string) (w : World) : option value := attr (rundata w) o a.

(** [m] never changes the observation [f] of the world, whether it returns
    or raises. *)
Definition preserves {X A} (f : World -> X) (m : M A) : Prop :=
  forall w, f (snd (m w)) = f w.

(** Observations that do not look at the aggregate, and observations that
    do not look at files, network or console. *)
Definition ignores_rundata {X} (f : World -> X) : Prop :=
  forall r w, f (set_rundata r w) = f w.
Definition ignores_io {X} (f : World -> X) : Prop :=
  (forall fs w, f (set_files fs w) = f w) /\
  (forall urls w, f (add_fetched urls w) = f w) /\
  (forall line w, f (add_stdout line w) = f w).

(** The package name [__main__] hands to [setrun]. *)
Definition claw_pkg_of (argv : list string) : string :=
  match argv with
  | [_; a] => a
  | _ => "geoclaw"
  end.

(** Whether a computation returned, and what. *)
Definition succeeded {A} (r : exn + A) : bool :=
  match r with
  | inr _ => true
  | inl _ => false
  end.
Definition result_or {A} (d : A) (r : exn + A) : A :=
  match r with
  | inr a => a
  | inl _ => d
  end.

(** The two descriptors the loop body creates for one entry of [regions];
    they are a function of the entry alone. *)
Definition region_figures (surface_limits : list value) (entry : string * RegionDict)
  : list ClawPlotFigure :=
  match surface_figure surface_limits (fst entry) (snd entry),
        currents_figure (fst entry) (snd entry) with
  | inr surface, inr currents => [surface; currents]
  | _, _ => []
  end.

(** The surface and currents figures of a region, evaluated. *)
Definition surface_descriptor (surface_limits : list value) (name : string)
           (region_dict : RegionDict) : ClawPlotFigure :=
  Eval cbv in result_or (new_plotfigure name None None)
                        (surface_figure surface_limits name region_dict).
Definition currents_descriptor (name : string) (region_dict : RegionDict)
  : ClawPlotFigure :=
  Eval cbv in result_or (new_plotfigure name None None)
                        (currents_figure name region_dict).

Definition named (name : string) (f : ClawPlotFigure) : bool :=
  String.eqb (fig_name f) name.

(** The reference framework with a constructor that leaves [geo_data] out. *)
Definition clawpack_without_geo_data : Clawpack := {|
  ClawRunData := fun pkg num_dim => delete "geo_data" (reference_rundata pkg num_dim);
  getcwd := "/run";
  expandvars := fun s => s;
  get_remote_file := reference_fetch;
  gunzip_ascii := fun s => inr s;
  read_atcf := fun _ => inr reference_track;
  geoclaw_format := fun trk => String.concat " " (map (fun r => str_of_int (t r)) trk)
|}.

(** ** Sample inputs *)

(** A world whose clawdata holds the domain of the script, as it is just
    before lines 93-95 run. *)
Definition domain_world : World :=
  set_rundata
    {[ "clawdata" :=
         list_to_map [("lower", VList [VFloat (-88.0); VFloat 15.0]);
                      ("upper", VList [VFloat (-55.0); VFloat 45.0]);
                      ("num_cells", VList [VInt 0; VInt 0])] ]}
    initial_world.


(** A domain whose western edge lies 2^-60 degrees east of the meridian:
    both bounds are binary64 numbers, their difference is not. *)
Definition narrow_domain_world : World :=
  set_rundata
    {[ "clawdata" :=
         list_to_map [("lower", VList [VFloat (2 ^ (-60)); VFloat 15.0]);
                      ("upper", VList [VFloat 3.0; VFloat 45.0]);
                      ("num_cells", VList [VInt 0; VInt 0])] ]}
    initial_world.

(** A domain wider than the largest binary64 number. *)
Definition unbounded_domain_world : World :=
  set_rundata
    {[ "clawdata" :=
         list_to_map [("lower", VList [VFloat (- 2 ^ 1023); VFloat 15.0]);
                      ("upper", VList [VFloat (2 ^ 1023); VFloat 45.0]);
                      ("num_cells", VList [VInt 0; VInt 0])] ]}
    initial_world.


(** The run of [setrun()] on the reference framework. *)
Definition reference_run : (exn + aggregate) * World :=
  @setrun reference_clawpack "geoclaw" initial_world.
Definition reference_result : aggregate := result_or ∅ (fst reference_run).
Definition reference_world : World := snd reference_run.

(** The world in which [setgeo] is entered when the constructor left
    [geo_data] out. *)
Definition world_without_geo_data : World :=
  snd (@set_clawpack_parameters clawpack_without_geo_data "geoclaw" 2 initial_world).

(** The world after a first run of the fetch step. *)
Definition fetched_world : World :=
  snd (@fetch_best_track reference_clawpack initial_world).

(** The plot specification for a run without pressure forcing. *)
Definition reference_plot : ClawPlotData :=
  result_or (mkPlotData "" [] ∅) (@setplot (reference_readers false true) None).

(** [setrun('GeoClaw')] on the reference framework. *)
Definition mixed_case_run : (exn + aggregate) * World :=
  @setrun reference_clawpack "GeoClaw" initial_world.

(** ** Further observations and sample inputs *)

(** Everything in the world but the aggregate. *)
Definition outside (w : World) :
  gmap string string * list string * list string * list aggregate :=
  (files w, fetched w, stdout w, written w).

(** The path of the storm file (lines 486-487) and of the unpacked
    best-track file (line 493). *)
Definition storm_path {clawpack : Clawpack} : string :=
  expandvars (os_path_join getcwd "sandy.storm").
Definition atcf_path {clawpack : Clawpack} : string :=
  os_path_join getcwd "bal182012.dat".

(** The reference framework without a network: every fetch asks for its
    URL and fails, leaving the local file it had opened behind, empty. *)
Definition offline_clawpack : Clawpack := {|
  ClawRunData := reference_rundata;
  getcwd := "/run";
  expandvars := fun s => s;
  get_remote_file := fun url dir fs =>
    inl (OSError "network unreachable",
         (<[os_path_join dir "bal182012.dat.gz" := ""]> fs, [url]));
  gunzip_ascii := fun s => inr s;
  read_atcf := fun _ => inr reference_track;
  geoclaw_format := fun trk => String.concat " " (map (fun r => str_of_int (t r)) trk)
|}.

(** The reference framework with a gzip that rejects every archive. *)
Definition corrupt_clawpack : Clawpack := {|
  ClawRunData := reference_rundata;
  getcwd := "/run";
  expandvars := fun s => s;
  get_remote_file := reference_fetch;
  gunzip_ascii := fun _ => inl (OSError "not a gzipped file");
  read_atcf := fun _ => inr reference_track;
  geoclaw_format := fun trk => String.concat " " (map (fun r => str_of_int (t r)) trk)
|}.

(** The reference framework with a constructor that builds the bound lists
    for one dimension only. *)
Definition one_dimensional_clawpack : Clawpack := {|
  ClawRunData := fun pkg _ => reference_rundata pkg 1;
  getcwd := "/run";
  expandvars := fun s => s;
  get_remote_file := reference_fetch;
  gunzip_ascii := fun s => inr s;
  read_atcf := fun _ => inr reference_track;
  geoclaw_format := fun trk => String.concat " " (map (fun r => str_of_int (t r)) trk)
|}.

(** A world that holds the archive only. *)
Definition archive_world : World :=
  set_files {[ "/run/bal182012.dat.gz" := "AL, 18, 2012" ]} initial_world.

(** The time window [(t1, t2)] of an entry that holds it at positions [pos]
    and [pos + 1]: a region [[minlevel, maxlevel, t1, t2, ...]] at 2, a
    topography file [[topotype, minlevel, maxlevel, t1, t2, fname]] at 3. *)
Definition window (pos : nat) (entry : value) : option (Q * Q) :=
  match entry with
  | VList l =>
      match l !! pos, l !! S pos with
      | Some (VFloat t1), Some (VFloat t2) => Some (t1, t2)
      | _, _ => None
      end
  | _ => None
  end.

(** The regions of the plot specification, for a domain with the lower
    corner [(lower0, lower1)] and the upper corner [(upper0, upper1)]. *)
Definition regions_of (lower0 upper0 lower1 upper1 : value) : list (string * RegionDict) :=
  [("Coast", mkRegion (lower0, upper0) (lower1, upper1) (VInt 8, VFloat 7.5));
   ("Zhapo Station", mkRegion (VFloat 111.71666667, VFloat 111.91666667)
                              (VFloat 21.48333333, VFloat 21.68333333)
                              (VInt 6, VInt 6));
   ("Landfall", mkRegion (VFloat 112.26, VFloat 112.86)
                         (VFloat 21.3, VFloat 21.7)
                         (VInt 6, VInt 4));
   ("Quarry Bay", mkRegion (VFloat 114.11333333, VFloat 114.31333333)
                           (VFloat 22.19111111, VFloat 22.39111111)
                           (VInt 6, VInt 6))].

(** The figures of a plot specification for given domain corners, sea level
    and forcing flags, evaluated from the figure constructors. *)
Definition figures_of (lower0 upper0 lower1 upper1 : value) (sea_level : Q)
           (pressure_forcing wind_forcing : value) : list ClawPlotFigure :=
  let regs := regions_of lower0 upper0 lower1 upper1 in
  let surface_limits := [VFloat (sea_level - 5.0); VFloat (sea_level + 5.0)] in
  flat_map (region_figures surface_limits) regs ++
  [result_or gauge_figure
     (forcing_figure "Pressure" "Pressure Field" pressure_forcing
                     (add_pressure pressure_limits) regs);
   result_or gauge_figure
     (forcing_figure "Wind Speed" "Wind Field" wind_forcing
                     (add_wind wind_limits) regs);
   gauge_figure;
   result_or gauge_figure (gauge_location_figure surface_limits)].

(** The world once the aggregate has been constructed, before any
    assignment. *)
Definition constructed_world : World :=
  set_rundata (reference_rundata "geoclaw" 2) initial_world.

(** Readers for an output directory whose surge.data cannot be read, and
    for one whose geoclaw.data has no [sea_level]. *)
Definition readers_without_surge : Readers := {|
  ClawPlotData_new := mkPlotData "_output" [] ∅;
  read_claw_data := fun _ => inr ∅;
  read_geoclaw_data := fun _ => inr ∅;
  read_surge_data := fun path => inl (OSError path);
  read_friction_data := fun path => inl (OSError path);
  track_data := fun path => inl (OSError path)
|}.
Definition readers_without_sea_level : Readers := {|
  ClawPlotData_new := mkPlotData "_output" [] ∅;
  read_claw_data := fun _ => inr ∅;
  read_geoclaw_data := fun _ => inr ∅;
  read_surge_data := fun _ => inr ∅;
  read_friction_data := fun _ => inr ∅;
  track_data := fun _ => inr []
|}.

(** The reference readers with a friction.data that cannot be read. *)
Definition readers_without_friction : Readers := {|
  ClawPlotData_new := @ClawPlotData_new (reference_readers false true);
  read_claw_data := @read_claw_data (reference_readers false true);
  read_geoclaw_data := @read_geoclaw_data (reference_readers false true);
  read_surge_data := @read_surge_data (reference_readers false true);
  read_friction_data := fun path => inl (OSError path);
  track_data := @track_data (reference_readers false true)
|}.

(** An axes with a surface and a land item, as lines 112-113 leave it. *)
Definition surface_axes : ClawPlotAxes :=
  add_land (add_surface_elevation [VFloat (-5.0); VFloat 5.0] new_plotaxes).

(** ** What [setrun] assigns *)

(** The attributes that [setrun] assigns outright on the branches it takes,
    object by object, with the values they hold when it returns. *)
Definition clawdata_assigned : list (string * value) :=
  [("num_dim", VInt 2);
   ("num_eqn", VInt 3);
   ("num_aux", VInt (3 + 1 + 3));
   ("capa_index", VInt 2);
   ("t0", VFloat (days2seconds (-2.0)));
   ("restart", VBool false);
   ("restart_file", VStr "fort.chk00043");
   ("output_style", VInt 1);
   ("tfinal", VFloat (days2seconds 1.0));
   ("num_output_times", VInt 72);
   ("output_t0", VBool true);
   ("output_format", VStr "ascii");
   ("output_q_components", VStr "all");
   ("output_aux_components", VStr "all");
   ("output_aux_onlyonce", VBool false);
   ("verbosity", VInt 4);
   ("dt_variable", VBool true);
   ("dt_initial", VFloat 0.016);
   ("dt_max", VFloat 1e99);
   ("cfl_desired", VFloat 0.75);
   ("cfl_max", VFloat 1.0);
   ("steps_max", VInt (2 ^ 16));
   ("order", VInt 1);
   ("dimensional_split", VStr "unsplit");
   ("transverse_waves", VInt 2);
   ("num_waves", VInt 3);
   ("limiter", VList [VStr "mc"; VStr "mc"; VStr "mc"]);
   ("use_fwaves", VBool true);
   ("source_split", VStr "godunov");
   ("num_ghost", VInt 2);
   ("checkpt_style", VInt 0)].

(** The entries of clawdata's lists that are assigned by index:
    (attribute, index, value). *)
Definition clawdata_entries : list (string * nat * value) :=
  [("lower", 0%nat, VFloat (-88.0)); ("upper", 0%nat, VFloat (-55.0));
   ("lower", 1%nat, VFloat 15.0); ("upper", 1%nat, VFloat 45.0);
   ("num_cells", 0%nat, VInt 132); ("num_cells", 1%nat, VInt 120);
   ("bc_lower", 0%nat, VStr "extrap"); ("bc_upper", 0%nat, VStr "extrap");
   ("bc_lower", 1%nat, VStr "extrap"); ("bc_upper", 1%nat, VStr "extrap")].

Definition amrdata_assigned : list (string * value) :=
  [("amr_levels_max", VInt 6);
   ("refinement_ratios_x", VList [VInt 2; VInt 2; VInt 2; VInt 6; VInt 8]);
   ("refinement_ratios_y", VList [VInt 2; VInt 2; VInt 2; VInt 6; VInt 8]);
   ("refinement_ratios_t", VList [VInt 2; VInt 2; VInt 2; VInt 6; VInt 8]);
   ("aux_type",
    VList [VStr "center"; VStr "capacity"; VStr "yleft"; VStr "center"; VStr "center";
           VStr "center"; VStr "center"; VStr "center"; VStr "center"]);
   ("flag_richardson", VBool false);
   ("flag2refine", VBool true);
   ("regrid_interval", VInt 4);
   ("regrid_buffer_width", VInt 2);
   ("clustering_cutoff", VFloat 0.700000);
   ("verbosity_regrid", VInt 0);
   ("dprint", VBool false);
   ("eprint", VBool false);
   ("edebug", VBool false);
   ("gprint", VBool false);
   ("nprint", VBool false);
   ("pprint", VBool false);
   ("rprint", VBool false);
   ("sprint", VBool false);
   ("tprint", VBool false);
   ("uprint", VBool false)].

(** The rows appended to the constructor's regions and gauges. *)
Definition appended_regions : list value :=
  [VList [VInt 1; VInt 6; VFloat (days2seconds (-0.45)); VFloat (days2seconds 0.10);
          VFloat (-74.1); VFloat (-73.7); VFloat 40.55; VFloat 48.5];
   VList [VInt 1; VInt 5; VFloat (days2seconds 0.10); VFloat (days2seconds 1);
          VFloat (-74.2); VFloat (-73.7); VFloat 40.55; VFloat 48.5]].

Definition appended_gauges : list value :=
  [VList [VInt 1; VFloat (-74.013); VFloat 40.7;
          VFloat (days2seconds (-2.0)); VFloat (days2seconds 1.0)];
   VList [VInt 2; VFloat (-73.77); VFloat 40.81;
          VFloat (days2seconds (-2.0)); VFloat (days2seconds 1.0)];
   VList [VInt 3; VFloat (-74.14166); VFloat 40.6367;
          VFloat (days2seconds (-2.0)); VFloat (days2seconds 1.0)]].

Definition geo_data_assigned : list (string * value) :=
  [("gravity", VFloat 9.81);
   ("coordinate_system", VInt 2);
   ("earth_radius", VFloat 6367.5e3);
   ("rho", VFloat 1025.0);
   ("rho_air", VFloat 1.15);
   ("ambient_pressure", VFloat 101.3e3);
   ("coriolis_forcing", VBool true);
   ("friction_forcing", VBool true);
   ("friction_depth", VFloat 1e10);
   ("sea_level", VFloat 0.33);
   ("dry_tolerance", VFloat 1.0e-2)].

Definition refinement_data_assigned : list (string * value) :=
  [("wave_tolerance", VFloat 1.0);
   ("speed_tolerance", VList [VFloat 1.0; VFloat 2.0; VFloat 3.0; VFloat 4.0]);
   ("deep_depth", VFloat 300.0);
   ("max_level_deep", VInt 4);
   ("variable_dt_refinement_ratios", VBool true)].

Definition topo_data_assigned : list (string * value) :=
  [("topofiles",
    VList
      [VList [VInt 3; VInt 1; VInt 3; VFloat (days2seconds (-2)); VFloat (days2seconds 1);
              VStr (os_path_join "../bathy" "atlantic_1min.tt3")];
       VList [VInt 3; VInt 1; VInt 3; VFloat (days2seconds (-2)); VFloat (days2seconds 1);
              VStr (os_path_join "../bathy" "newyork_3s.tt3")];
       VList [VInt 4; VInt 1; VInt 6; VFloat (days2seconds (-0.45));
              VFloat (days2seconds 0.46);
              VStr (os_path_join "../bathy" "nc41x00_74x00.nc")];
       VList [VInt 4; VInt 1; VInt 6; VFloat (days2seconds (-0.45));
              VFloat (days2seconds 0.46);
              VStr (os_path_join "../bathy" "nc40x75_74x00.nc")];
       VList [VInt 4; VInt 1; VInt 6; VFloat (days2seconds (-0.45));
              VFloat (days2seconds 0.46);
              VStr (os_path_join "../bathy" "nc40x50_74x00.nc")];
       VList [VInt 4; VInt 1; VInt 6; VFloat (days2seconds (-0.45));
              VFloat (days2seconds 0.46);
              VStr (os_path_join "../bathy" "nc40x75_73x75.nc")]])].

Definition qinit_data_assigned : list (string * value) :=
  [("qinit_type", VInt 0); ("qinitfiles", VList [])].

Definition fixed_grid_data_assigned : list (string * value) :=
  [("fixedgrids", VList [])].

Definition surge_data_assigned {clawpack : Clawpack} : list (string * value) :=
  [("wind_forcing", VBool true);
   ("drag_law", VInt 1);
   ("pressure_forcing", VBool true);
   ("display_landfall_time", VBool true);
   ("wind_refine", VList [VFloat 20.0; VFloat 40.0; VFloat 60.0]);
   ("R_refine", VList [VFloat 60.0e3; VFloat 40e3; VFloat 20e3]);
   ("storm_specification_type", VStr "holland80");
   ("storm_file", VStr (expandvars (os_path_join getcwd "sandy.storm")))].

Definition friction_data_assigned : list (string * value) :=
  [("variable_friction", VBool true)].

(** Line 518: the friction region appended for the domain [lower, upper]. *)
Definition friction_region (lower upper : value) : value :=
  VList [lower; upper;
         VList [VInfty false; VFloat 0.0; VInfty true];
         VList [VFloat 0.050; VFloat 0.025]].

(** Object [o] of [rd] carries each of the listed attribute values. *)
Definition carries (rd : aggregate) (o : string) (assigned : list (string * value))
  : Prop :=
  Forall (fun av => attr rd o (fst av) = Some (snd av)) assigned.

(** The list [o.a] of [rd] is the constructor's list followed by [rows]. *)
Definition extends (constructed rd : aggregate) (o a : string) (rows : list value)
  : Prop :=
  exists old,
    attr constructed o a = Some (VList old) /\
    attr rd o a = Some (VList (old ++ rows)).

(** [rd] is the aggregate [constructed] with every assignment of [setrun]
    carried out: the eleven sub-configuration objects hold the assigned
    attributes, the indexed entries and the appended rows. *)
Definition populated {clawpack : Clawpack} (constructed rd : aggregate) : Prop :=
  carries rd "clawdata" clawdata_assigned /\
  Forall (fun e => exists l, attr rd "clawdata" (fst (fst e)) = Some (VList l) /\
                             l !! snd (fst e) = Some (snd e))
         clawdata_entries /\
  carries rd "amrdata" amrdata_assigned /\
  extends constructed rd "regiondata" "regions" appended_regions /\
  extends constructed rd "gaugedata" "gauges" appended_gauges /\
  carries rd "geo_data" geo_data_assigned /\
  carries rd "refinement_data" refinement_data_assigned /\
  carries rd "topo_data" topo_data_assigned /\
  carries rd "qinit_data" qinit_data_assigned /\
  carries rd "fixed_grid_data" fixed_grid_data_assigned /\
  carries rd "surge_data" surge_data_assigned /\
  carries rd "friction_data" friction_data_assigned /\
  exists lower upper,
    attr rd "clawdata" "lower" = Some lower /\
    attr rd "clawdata" "upper" = Some upper /\
    extends constructed rd "friction_data" "friction_regions"
            [friction_region lower upper].

(** * Properties *)

(** ** Running statements *)

Lemma bind_run {A B} (m : M A) (k : A -> M B) w a w1 :
  m w = (inr a, w1) -> bind m k w = k a w1.
Proof. intros H. unfold bind. now rewrite H. Qed.

Lemma bind_fail {A B} (m : M A) (k : A -> M B) w e w1 :
  m w = (inl e, w1) -> bind m k w = (inl e, w1).
Proof. intros H. unfold bind. now rewrite H. Qed.

Lemma bind_inv {A B} (m : M A) (k : A -> M B) w b w' :
  bind m k w = (inr b, w') ->
  exists a w1, m w = (inr a, w1) /\ k a w1 = (inr b, w').
Proof.
  unfold bind. destruct (m w) as [[e|a] w1]; intros H.
  - discriminate.
  - now exists a, w1.
Qed.

Lemma getobj_run w o ob :
  rundata w !! o = Some ob -> getobj o w = (inr ob, w).
Proof. intros H. unfold getobj. now rewrite H. Qed.

Lemma getobj_inv w o ob w' :
  getobj o w = (inr ob, w') -> w' = w /\ rundata w !! o = Some ob.
Proof.
  unfold getobj. destruct (rundata w !! o); intros H; inversion H; auto.
Qed.

Lemma getattr_run w o a ob v :
  rundata w !! o = Some ob -> ob !! a = Some v -> getattr o a w = (inr v, w).
Proof.
  intros Ho Ha. unfold getattr. rewrite (bind_run _ _ _ _ _ (getobj_run _ _ _ Ho)).
  now rewrite Ha.
Qed.

Lemma getattr_inv w o a v w' :
  getattr o a w = (inr v, w') ->
  w' = w /\ exists ob, rundata w !! o = Some ob /\ ob !! a = Some v.
Proof.
  intros H. apply bind_inv in H as (ob & w1 & Ho & H).
  apply getobj_inv in Ho as [-> Ho].
  destruct (ob !! a) as [v'|] eqn:Ha; inversion H; subst. eauto.
Qed.

Lemma setattr_run w o a v ob :
  rundata w !! o = Some ob ->
  setattr o a v w = (inr tt, set_rundata (<[o := <[a := v]> ob]> (rundata w)) w).
Proof.
  intros Ho. unfold setattr. now rewrite (bind_run _ _ _ _ _ (getobj_run _ _ _ Ho)).
Qed.

Lemma setattr_inv w o a v u w' :
  setattr o a v w = (inr u, w') ->
  exists ob, rundata w !! o = Some ob /\
             w' = set_rundata (<[o := <[a := v]> ob]> (rundata w)) w.
Proof.
  intros H. apply bind_inv in H as (ob & w1 & Ho & H).
  apply getobj_inv in Ho as [-> Ho]. inversion H. eauto.
Qed.

Lemma getitem_run w o a ob l i x :
  rundata w !! o = Some ob -> ob !! a = Some (VList l) -> l !! i = Some x ->
  getitem o a i w = (inr x, w).
Proof.
  intros Ho Ha Hi. unfold getitem.
  rewrite (bind_run _ _ _ _ _ (getattr_run _ _ _ _ _ Ho Ha)). cbn.
  now rewrite Hi.
Qed.

Lemma setitem_run w o a ob l i x :
  rundata w !! o = Some ob -> ob !! a = Some (VList l) -> (i < length l)%nat ->
  setitem o a i x w
  = (inr tt, set_rundata (<[o := <[a := VList (<[i := x]> l)]> ob]> (rundata w)) w).
Proof.
  intros Ho Ha Hi. unfold setitem.
  rewrite (bind_run _ _ _ _ _ (getattr_run _ _ _ _ _ Ho Ha)). cbn.
  destruct (decide (i < length l)%nat); [|lia].
  now apply setattr_run.
Qed.

Lemma setitem_inv w o a i x u w' :
  setitem o a i x w = (inr u, w') ->
  exists ob l, rundata w !! o = Some ob /\ ob !! a = Some (VList l) /\
               (i < length l)%nat /\
               w' = set_rundata (<[o := <[a := VList (<[i := x]> l)]> ob]> (rundata w)) w.
Proof.
  intros H. apply bind_inv in H as (v & w1 & Hv & H).
  apply getattr_inv in Hv as [-> (ob & Ho & Ha)].
  destruct v; try discriminate. cbn in H.
  destruct (decide (i < length l)%nat); [|discriminate].
  apply setattr_inv in H as (ob' & Ho' & ->).
  rewrite Ho in Ho'. inversion Ho'; subst. eauto 10.
Qed.

Lemma append_run w o a ob l x :
  rundata w !! o = Some ob -> ob !! a = Some (VList l) ->
  append o a x w
  = (inr tt, set_rundata (<[o := <[a := VList (l ++ [x])]> ob]> (rundata w)) w).
Proof.
  intros Ho Ha. unfold append.
  rewrite (bind_run _ _ _ _ _ (getattr_run _ _ _ _ _ Ho Ha)). cbn.
  now apply setattr_run.
Qed.

Lemma append_inv w o a x u w' :
  append o a x w = (inr u, w') ->
  exists ob l, rundata w !! o = Some ob /\ ob !! a = Some (VList l) /\
               w' = set_rundata (<[o := <[a := VList (l ++ [x])]> ob]> (rundata w)) w.
Proof.
  intros H. apply bind_inv in H as (v & w1 & Hv & H).
  apply getattr_inv in Hv as [-> (ob & Ho & Ha)].
  destruct v; try discriminate. cbn in H.
  apply setattr_inv in H as (ob' & Ho' & ->).
  rewrite Ho in Ho'. inversion Ho'; subst. eauto 10.
Qed.

(** ** Rounding, truncation and floor *)

Lemma pow2_pos (k : Z) : (0 < 2 ^ k)%Q.
Proof. now apply Qpower_0_lt. Qed.









Lemma round_half_even_nonneg (q : Q) : (0 <= q)%Q -> 0 <= round_half_even q.
Proof.
  intros H. unfold round_half_even.
  assert (0 <= Qfloor q).
  { change 0 with (Qfloor 0). now apply Qfloor_resp_le. }
  destruct (_ ?= _)%Q; [destruct (Z.even _)| |]; lia.
Qed.

(** Rounding keeps the sign. *)
Lemma round64_nonneg (q r : Q) :
  round64 q = Some r -> (0 <= q)%Q -> (0 <= r)%Q.
Proof.
  unfold round64. intros H Hq.
  destruct (Qeq_bool q 0).
  - injection H as <-. apply Qle_refl.
  - cbv zeta in H. destruct (Qle_bool _ _); [discriminate|].
    injection H as <-. rewrite Qred_correct.
    apply Qmult_le_0_compat.
    + change 0%Q with (inject_Z 0). rewrite <- Zle_Qle.
      apply round_half_even_nonneg. apply Qle_shift_div_l.
      * apply pow2_pos.
      * now rewrite Qmult_0_l.
    + apply Qlt_le_weak, pow2_pos.
Qed.

Lemma py_int_floor (q : Q) : (0 <= q)%Q -> py_int q = Qfloor q.
Proof.
  destruct q as [n d]. unfold Qle, py_int, Qfloor. cbn. intros H.
  apply Z.quot_div_nonneg; lia.
Qed.



Lemma num_cells_rhs_round (l u d : Q) :
  round64 (u - l) = Some d ->
  num_cells_rhs (VFloat l) (VFloat u) = inr (py_int d * degree_factor).
Proof.
  intros H. unfold num_cells_rhs, py_sub, as_number, num_sub, mixed, to_float,
    float_sub, fl. now rewrite H.
Qed.

Lemma num_cells_rhs_overflow (l u : Q) :
  round64 (u - l) = None ->
  num_cells_rhs (VFloat l) (VFloat u)
  = inl (OverflowError "cannot convert float infinity to integer").
Proof.
  intros H. unfold num_cells_rhs, py_sub, as_number, num_sub, mixed, to_float,
    float_sub, fl. now rewrite H.
Qed.

Lemma num_cells_rhs_floor (l u d : Q) :
  (l < u)%Q -> round64 (u - l) = Some d ->
  num_cells_rhs (VFloat l) (VFloat u) = inr (Qfloor d * 4).
Proof.
  intros Hlt H. rewrite (num_cells_rhs_round l u d H). unfold degree_factor.
  rewrite py_int_floor; [reflexivity|].
  apply (round64_nonneg _ _ H). lra.
Qed.

Lemma num_cells_rhs_exact (l u : Q) :
  (l < u)%Q -> is_binary64 (u - l) ->
  num_cells_rhs (VFloat l) (VFloat u) = inr (Qfloor (u - l) * 4).
Proof.
  intros Hlt H. rewrite (num_cells_rhs_floor l u _ Hlt H).
  now rewrite (Qfloor_comp _ _ (Qred_correct (u - l))).
Qed.





(** The arithmetic of the script on its own bounds and times. *)
Lemma num_cells_west_east :
  num_cells_rhs (VFloat (-88.0)) (VFloat (-55.0)) = inr 132.
Proof. vm_compute. reflexivity. Qed.

Lemma num_cells_south_north :
  num_cells_rhs (VFloat 15.0) (VFloat 45.0) = inr 120.
Proof. vm_compute. reflexivity. Qed.

Lemma num_output_times_three_days :
  num_output_times_rhs (VFloat (days2seconds (-2.0)))
                       (VFloat (days2seconds 1.0)) 24 = inr 72.
Proof. vm_compute. reflexivity. Qed.

Lemma set_num_cells_axis_run i w cd lo up cells l u n :
  rundata w !! "clawdata" = Some cd ->
  cd !! "lower" = Some (VList lo) ->
  cd !! "upper" = Some (VList up) ->
  cd !! "num_cells" = Some (VList cells) ->
  lo !! i = Some l -> up !! i = Some u -> num_cells_rhs l u = inr n ->
  (i < length cells)%nat ->
  set_num_cells_axis i w
  = (inr tt, set_rundata
               (<["clawdata" := <["num_cells" := VList (<[i := VInt n]> cells)]> cd]>
                  (rundata w)) w).
Proof.
  intros Hcd Hlo Hup Hc Hl Hu Hn Hi. unfold set_num_cells_axis.
  rewrite (bind_run _ _ _ _ _ (getitem_run _ _ _ _ _ _ _ Hcd Hup Hu)).
  rewrite (bind_run _ _ _ _ _ (getitem_run _ _ _ _ _ _ _ Hcd Hlo Hl)).
  rewrite Hn. unfold bind at 1, lift.
  now apply setitem_run.
Qed.

(** A failing right-hand side ends the statement before anything is assigned. *)
Lemma set_num_cells_axis_fail i w cd lo up l u e :
  rundata w !! "clawdata" = Some cd ->
  cd !! "lower" = Some (VList lo) ->
  cd !! "upper" = Some (VList up) ->
  lo !! i = Some l -> up !! i = Some u -> num_cells_rhs l u = inl e ->
  set_num_cells_axis i w = (inl e, w).
Proof.
  intros Hcd Hlo Hup Hl Hu Hn. unfold set_num_cells_axis.
  rewrite (bind_run _ _ _ _ _ (getitem_run _ _ _ _ _ _ _ Hcd Hup Hu)).
  rewrite (bind_run _ _ _ _ _ (getitem_run _ _ _ _ _ _ _ Hcd Hlo Hl)).
  rewrite Hn. reflexivity.
Qed.

(** ** Frames: what a statement leaves alone *)

Section Frames.
Context {X : Type} (f : World -> X).

Lemma preserves_ret {A} (a : A) : preserves f (ret a).
Proof. now intros w. Qed.

Lemma preserves_raise {A} (e : exn) : preserves f (@raise A e).
Proof. now intros w. Qed.

Lemma preserves_lift {A} (r : exn + A) : preserves f (lift r).
Proof. now intros w. Qed.

Lemma preserves_gets {A} (g : World -> A) : preserves f (gets g).
Proof. now intros w. Qed.

Lemma preserves_assert c msg : preserves f (assert c msg).
Proof. intros w. now destruct c. Qed.

Lemma preserves_bind {A B} (m : M A) (k : A -> M B) :
  preserves f m -> (forall a, preserves f (k a)) -> preserves f (bind m k).
Proof.
  intros Hm Hk w. unfold bind. specialize (Hm w).
  destruct (m w) as [[e|a] w1]; cbn in *; [done|].
  now rewrite Hk.
Qed.

Lemma preserves_try_except {A} (m h : M A) :
  preserves f m -> preserves f h -> preserves f (try_except m h).
Proof.
  intros Hm Hh w. unfold try_except. specialize (Hm w).
  destruct (m w) as [[e|a] w1]; cbn in *; [|done].
  now rewrite Hh.
Qed.

Lemma preserves_modify (g : World -> World) :
  (forall w, f (g w) = f w) -> preserves f (modify g).
Proof. intros H w. apply H. Qed.

Lemma preserves_getobj o : preserves f (getobj o).
Proof. intros w. unfold getobj. now destruct (rundata w !! o). Qed.

Lemma preserves_getattr o a : preserves f (getattr o a).
Proof.
  apply preserves_bind; [apply preserves_getobj|].
  intros ob. destruct (ob !! a); [apply preserves_ret | apply preserves_raise].
Qed.

Lemma preserves_as_list v : preserves f (as_list v).
Proof. destruct v; first [apply preserves_ret | apply preserves_raise]. Qed.

Lemma preserves_as_str v : preserves f (as_str v).
Proof. destruct v; first [apply preserves_ret | apply preserves_raise]. Qed.

Lemma preserves_getitem o a i : preserves f (getitem o a i).
Proof.
  apply preserves_bind; [apply preserves_getattr|]. intros v.
  apply preserves_bind; [apply preserves_as_list|]. intros l.
  destruct (l !! i); [apply preserves_ret | apply preserves_raise].
Qed.

Lemma preserves_read_file path : preserves f (read_file path).
Proof. intros w. unfold read_file. now destruct (files w !! path). Qed.

(** Observations that do not look at the aggregate survive every statement
    on the aggregate; those that look only at the aggregate survive file,
    network and console effects. *)
Lemma preserves_setattr_ignored o a v :
  ignores_rundata f -> preserves f (setattr o a v).
Proof.
  intros H. apply preserves_bind; [apply preserves_getobj|].
  intros ob. apply preserves_modify. intros w. apply H.
Qed.

Lemma preserves_print line : ignores_io f -> preserves f (print line).
Proof. intros (_ & _ & H). apply preserves_modify. intros w. apply H. Qed.

Lemma preserves_write_file path c :
  ignores_io f -> preserves f (write_file path c).
Proof. intros (H & _ & _). apply preserves_modify. intros w. apply H. Qed.

Lemma preserves_fetch_remote `{Clawpack} url dir :
  ignores_io f -> preserves f (fetch_remote url dir).
Proof.
  intros (Hf & Hn & _) w. unfold fetch_remote.
  destruct (get_remote_file url dir (files w)) as [[e [fs urls]]|[fs urls]];
    cbn; now rewrite Hn, Hf.
Qed.

End Frames.

Lemma written_ignores_rundata : ignores_rundata written.
Proof. now intros r w. Qed.
Lemma written_ignores_io : ignores_io written.
Proof. now repeat split. Qed.
Lemma the_object_ignores_io o : ignores_io (the_object o).
Proof. now repeat split. Qed.
Lemma the_attr_ignores_io o a : ignores_io (the_attr o a).
Proof. now repeat split. Qed.

Lemma preserves_setattr_object o o' a v :
  o <> o' -> preserves (the_object o) (setattr o' a v).
Proof.
  intros Hne. apply preserves_bind; [apply preserves_getobj|].
  intros ob. apply preserves_modify. intros w.
  unfold the_object. cbn. now rewrite lookup_insert_ne.
Qed.

Lemma preserves_setattr_attr o a o' a' v :
  o <> o' \/ a <> a' -> preserves (the_attr o a) (setattr o' a' v).
Proof.
  intros Hne w. unfold setattr, bind, getobj.
  destruct (rundata w !! o') as [ob|] eqn:Ho; [|done].
  unfold the_attr, attr. cbn.
  destruct (decide (o = o')) as [->|Hoo].
  - rewrite lookup_insert_eq, Ho. cbn. destruct Hne as [?|Ha]; [done|].
    now rewrite lookup_insert_ne.
  - now rewrite lookup_insert_ne.
Qed.

Create HintDb frames.

#[global] Hint Resolve written_ignores_rundata written_ignores_io
  the_object_ignores_io the_attr_ignores_io : frames.

Ltac frame_step :=
  first
    [ apply preserves_ret | apply preserves_raise | apply preserves_lift
    | apply preserves_gets | apply preserves_assert
    | apply preserves_getobj | apply preserves_getattr | apply preserves_getitem
    | apply preserves_as_list | apply preserves_as_str
    | apply preserves_read_file
    | apply preserves_print; solve [auto with frames]
    | apply preserves_write_file; solve [auto with frames]
    | apply preserves_fetch_remote; solve [auto with frames]
    | apply preserves_setattr_ignored; solve [auto with frames]
    | apply preserves_setattr_object; discriminate
    | apply preserves_setattr_attr; solve [left; discriminate | right; discriminate]
    | apply preserves_try_except
    | apply preserves_bind; [ | intros ? ]
    | lazymatch goal with
      | |- preserves _ (if ?c then _ else _) => destruct c
      | |- preserves _ (match ?x with _ => _ end) => destruct x
      end ].

Ltac frame := repeat frame_step.


(** ** Following one object through a run *)

Section Tracking.
Context (o : string).

Lemma getattr_obj w ob a v w' :
  rundata w !! o = Some ob -> getattr o a w = (inr v, w') ->
  w' = w /\ ob !! a = Some v.
Proof.
  intros Ho H. apply getattr_inv in H as [-> (ob' & Ho' & Ha)].
  rewrite Ho in Ho'. now inversion Ho'; subst.
Qed.

Lemma getitem_obj w ob a i x w' :
  rundata w !! o = Some ob -> getitem o a i w = (inr x, w') ->
  w' = w /\ exists l, ob !! a = Some (VList l) /\ l !! i = Some x.
Proof.
  intros Ho H. apply bind_inv in H as (v & w1 & Hv & H).
  apply (getattr_obj _ _ _ _ _ Ho) in Hv as [-> Ha].
  destruct v; try discriminate. cbn in H.
  destruct (l !! i) eqn:Hi; inversion H; subst. eauto.
Qed.

Lemma setattr_obj w ob a v u w' :
  rundata w !! o = Some ob -> setattr o a v w = (inr u, w') ->
  rundata w' !! o = Some (<[a := v]> ob).
Proof.
  intros Ho H. apply setattr_inv in H as (ob' & Ho' & ->).
  rewrite Ho in Ho'. inversion Ho'; subst. cbn. apply lookup_insert_eq.
Qed.

Lemma setitem_obj w ob a i x u w' :
  rundata w !! o = Some ob -> setitem o a i x w = (inr u, w') ->
  exists l, ob !! a = Some (VList l) /\ (i < length l)%nat /\
            rundata w' !! o = Some (<[a := VList (<[i := x]> l)]> ob).
Proof.
  intros Ho H. apply setitem_inv in H as (ob' & l & Ho' & Ha & Hi & ->).
  rewrite Ho in Ho'. inversion Ho'; subst. exists l. repeat split; auto.
  cbn. apply lookup_insert_eq.
Qed.

Lemma append_obj w ob a x u w' :
  rundata w !! o = Some ob -> append o a x w = (inr u, w') ->
  exists l, ob !! a = Some (VList l) /\
            rundata w' !! o = Some (<[a := VList (l ++ [x])]> ob).
Proof.
  intros Ho H. apply append_inv in H as (ob' & l & Ho' & Ha & ->).
  rewrite Ho in Ho'. inversion Ho'; subst. exists l. split; auto.
  cbn. apply lookup_insert_eq.
Qed.

End Tracking.

(** Lookups in an object written as a stack of attribute assignments. *)
Ltac norm_lookup_in H :=
  repeat first [ rewrite lookup_insert_eq in H
               | rewrite lookup_insert_ne in H by discriminate ].
Ltac norm_lookup :=
  repeat first [ rewrite lookup_insert_eq
               | rewrite lookup_insert_ne by discriminate ].

(** One statement of a successful run [H : (stmt ;; rest) w = (inr _, w')],
    with [Ho : rundata w !! o = Some ob] describing the object assigned to. *)
Ltac exec_step H Ho :=
  let Hs := fresh "Hs" in
  let Ho' := fresh "Ho" in
  apply bind_inv in H as (? & ? & Hs & H);
  first
    [ apply (setattr_obj _ _ _ _ _ _ _ Ho) in Hs; clear Ho; rename Hs into Ho
    | apply (setitem_obj _ _ _ _ _ _ _ _ Ho) in Hs as (? & Hs & ? & Ho');
      norm_lookup_in Hs; clear Ho; rename Ho' into Ho
    | apply (append_obj _ _ _ _ _ _ _ Ho) in Hs as (? & Hs & Ho');
      norm_lookup_in Hs; clear Ho; rename Ho' into Ho
    | apply (getattr_obj _ _ _ _ _ _ Ho) in Hs as [-> Hs]; norm_lookup_in Hs
    | apply (getitem_obj _ _ _ _ _ _ _ Ho) in Hs as [-> (? & Hs & ?)];
      norm_lookup_in Hs
    | apply getobj_inv in Hs as [-> Hs] ].

Ltac clean_eqs :=
  repeat match goal with
         | H : Some _ = Some _ |- _ => injection H as H
         | H : VList _ = VList _ |- _ => injection H as H
         | H : VFloat _ = VFloat _ |- _ => injection H as H
         end;
  subst.

Ltac exec H Ho := exec_step H Ho; clean_eqs.

Lemma set_num_cells_axis_obj i w ob lo up l u n w' :
  rundata w !! "clawdata" = Some ob ->
  ob !! "lower" = Some (VList lo) -> ob !! "upper" = Some (VList up) ->
  lo !! i = Some l -> up !! i = Some u -> num_cells_rhs l u = inr n ->
  set_num_cells_axis i w = (inr tt, w') ->
  exists cells, ob !! "num_cells" = Some (VList cells) /\ (i < length cells)%nat /\
    rundata w' !! "clawdata"
    = Some (<["num_cells" := VList (<[i := VInt n]> cells)]> ob).
Proof.
  intros Ho Hlo Hup Hl Hu Hn H. unfold set_num_cells_axis in H.
  rewrite (bind_run _ _ _ _ _ (getitem_run _ _ _ _ _ _ _ Ho Hup Hu)) in H.
  rewrite (bind_run _ _ _ _ _ (getitem_run _ _ _ _ _ _ _ Ho Hlo Hl)) in H.
  rewrite Hn in H. unfold bind at 1, lift in H.
  apply (setitem_obj _ _ _ _ _ _ _ _ Ho) in H as (cells & Hc & Hi & H). eauto.
Qed.

Lemma set_output_times_obj w ob t0 n w' :
  rundata w !! "clawdata" = Some ob ->
  ob !! "output_style" = Some (VInt 1) -> ob !! "t0" = Some t0 ->
  num_output_times_rhs t0 (VFloat (days2seconds 1.0)) 24 = inr n ->
  set_output_times w = (inr tt, w') ->
  rundata w' !! "clawdata"
  = Some (<["output_t0" := VBool true]>
            (<["num_output_times" := VInt n]>
               (<["tfinal" := VFloat (days2seconds 1.0)]> ob))).
Proof.
  intros Ho Hstyle Ht0 Hn H. unfold set_output_times in H.
  rewrite (bind_run _ _ _ _ _ (getattr_run _ _ _ _ _ Ho Hstyle)) in H.
  cbv beta in H. change (eq_int (VInt 1) 1) with true in H. cbv iota zeta in H.
  exec H Ho. exec H Ho.
  exec H Ho. rewrite Ht0 in Hs. clean_eqs.
  rewrite Hn in H. unfold bind at 1, lift in H.
  exec H Ho.
  now apply (setattr_obj _ _ _ _ _ _ _ Ho) in H.
Qed.

Lemma set_clawdata_spec w w' :
  set_clawdata 2 w = (inr tt, w') ->
  the_attr "clawdata" "t0" w' = Some (VFloat (days2seconds (-2.0))) /\
  the_attr "clawdata" "tfinal" w' = Some (VFloat (days2seconds 1.0)) /\
  the_attr "clawdata" "num_output_times" w' = Some (VInt 72) /\
  exists cells,
    the_attr "clawdata" "num_cells" w' = Some (VList cells) /\
    cells !! 0%nat = Some (VInt 132) /\
    cells !! 1%nat = Some (VInt 120).
Proof.
  unfold set_clawdata. intros H.
  apply bind_inv in H as (ob & ? & Ho & H). apply getobj_inv in Ho as [-> Ho].
  do 5 exec H Ho.
  match goal with
  | H1 : ob !! "lower" = Some (VList ?lo), H2 : ob !! "upper" = Some (VList ?up) |- _ =>
      rename lo into lower0; rename up into upper0
  end.
  assert (Hl0 : <[1%nat := VFloat 15.0]> (<[0%nat := VFloat (-88.0)]> lower0) !! 0%nat
                = Some (VFloat (-88.0))).
  { rewrite list_lookup_insert_ne by lia. now apply list_lookup_insert_eq. }
  assert (Hl1 : <[1%nat := VFloat 15.0]> (<[0%nat := VFloat (-88.0)]> lower0) !! 1%nat
                = Some (VFloat 15.0)) by now apply list_lookup_insert_eq.
  assert (Hu0 : <[1%nat := VFloat 45.0]> (<[0%nat := VFloat (-55.0)]> upper0) !! 0%nat
                = Some (VFloat (-55.0))).
  { rewrite list_lookup_insert_ne by lia. now apply list_lookup_insert_eq. }
  assert (Hu1 : <[1%nat := VFloat 45.0]> (<[0%nat := VFloat (-55.0)]> upper0) !! 1%nat
                = Some (VFloat 45.0)) by now apply list_lookup_insert_eq.
  unfold set_num_cells in H. apply bind_inv in H as ([] & ? & Hnc & H).
  apply bind_inv in Hnc as ([] & ? & Hnc0 & Hnc1).
  edestruct (set_num_cells_axis_obj 0) as (c0 & Hc0 & Hlen0 & Ho0);
    [ exact Ho | norm_lookup; reflexivity | norm_lookup; reflexivity
    | exact Hl0 | exact Hu0 | exact num_cells_west_east | exact Hnc0 | ].
  edestruct (set_num_cells_axis_obj 1) as (c1 & Hc1 & Hlen1 & Ho1);
    [ exact Ho0 | norm_lookup; reflexivity | norm_lookup; reflexivity
    | exact Hl1 | exact Hu1 | exact num_cells_south_north | exact Hnc1 | ].
  norm_lookup_in Hc1. clean_eqs. clear Ho Ho0 Hnc0 Hnc1. rename Ho1 into Ho.
  do 7 exec H Ho.
  apply bind_inv in H as ([] & ? & Hout & H).
  eapply set_output_times_obj in Hout;
    [ | exact Ho | norm_lookup; reflexivity | norm_lookup; reflexivity
      | exact num_output_times_three_days ].
  clear Ho. rename Hout into Ho.
  repeat exec H Ho.
  cbn in H. inversion H; subst.
  unfold the_attr, attr. rewrite Ho. cbn [mbind option_bind].
  repeat split.
  - norm_lookup. reflexivity.
  - norm_lookup. reflexivity.
  - norm_lookup. reflexivity.
  - eexists. split; [norm_lookup; reflexivity|]. split.
    + rewrite list_lookup_insert_ne by lia. now apply list_lookup_insert_eq.
    + now apply list_lookup_insert_eq.
Qed.

Section SetrunProperties.
Context {clawpack : Clawpack}.

(** ** What the blocks of [setrun] leave alone *)

Lemma preserves_construct {X} (f : World -> X) r :
  ignores_rundata f -> preserves f (modify (set_rundata r)).
Proof. intros H. apply preserves_modify. intros w. apply H. Qed.

Ltac unfold_blocks :=
  unfold set_clawpack_parameters, set_clawdata, set_num_cells, set_num_cells_axis,
    set_output_times, set_checkpoint, set_amrdata, set_regions, set_gauges,
    append_gauge, setgeo, get_geo_data, set_topo_data, append_topofile,
    set_surge_data, fetch_best_track, unzip, Storm_init, Storm_write,
    set_friction_data, setitem, append.

Lemma setrun_keeps_written claw_pkg : preserves written (setrun claw_pkg).
Proof.
  unfold setrun. unfold_blocks.
  repeat first [ apply preserves_construct; solve [auto with frames] | frame_step ].
Qed.

Lemma setgeo_keeps_clawdata : preserves (the_object "clawdata") setgeo.
Proof. unfold_blocks. frame. Qed.

Lemma setgeo_keeps_gaugedata : preserves (the_object "gaugedata") setgeo.
Proof. unfold_blocks. frame. Qed.

Lemma after_clawdata_keeps_clawdata :
  preserves (the_object "clawdata") set_amrdata /\
  preserves (the_object "clawdata") set_regions /\
  preserves (the_object "clawdata") set_gauges.
Proof. repeat split; unfold_blocks; frame. Qed.

Lemma before_gauges_keeps_gaugedata :
  preserves (the_object "gaugedata") (set_clawdata 2) /\
  preserves (the_object "gaugedata") set_amrdata /\
  preserves (the_object "gaugedata") set_regions.
Proof. repeat split; unfold_blocks; frame. Qed.

(** A preserved observation, read off a finished run. *)
Lemma preserved {X A} (f : World -> X) (m : M A) w r w' :
  preserves f m -> m w = (r, w') -> f w' = f w.
Proof. intros Hp H. specialize (Hp w). now rewrite H in Hp. Qed.

(** ** The shape of a successful [setrun] *)

Lemma assert_inv c msg w u w' :
  assert c msg w = (inr u, w') -> c = true /\ w' = w.
Proof. destruct c; cbn; intros H; inversion H; auto. Qed.

Lemma set_clawpack_parameters_inv claw_pkg w w' :
  set_clawpack_parameters claw_pkg 2 w = (inr tt, w') ->
  exists w1 w2 w3,
    set_clawdata 2 (set_rundata (ClawRunData claw_pkg 2) w) = (inr tt, w1) /\
    set_amrdata w1 = (inr tt, w2) /\
    set_regions w2 = (inr tt, w3) /\
    set_gauges w3 = (inr tt, w').
Proof.
  unfold set_clawpack_parameters. intros H.
  apply bind_inv in H as ([] & w0 & H0 & H). inversion H0; subst. clear H0.
  apply bind_inv in H as ([] & w1 & H1 & H).
  apply bind_inv in H as ([] & w2 & H2 & H).
  apply bind_inv in H as ([] & w3 & H3 & H).
  eauto 10.
Qed.

Lemma setrun_inv claw_pkg w rd w' :
  setrun claw_pkg w = (inr rd, w') ->
  str_lower claw_pkg = "geoclaw" /\
  exists w1,
    set_clawpack_parameters claw_pkg 2 w = (inr tt, w1) /\
    setgeo w1 = (inr tt, w') /\
    rd = rundata w'.
Proof.
  unfold setrun. intros H.
  apply bind_inv in H as ([] & w0 & H0 & H).
  apply assert_inv in H0 as [Hpkg ->]. apply String.eqb_eq in Hpkg.
  cbv zeta in H.
  apply bind_inv in H as ([] & w1 & H1 & H).
  apply bind_inv in H as ([] & w2 & H2 & H).
  inversion H; subst. eauto 10.
Qed.

(** The clawdata object at the end of a successful [setrun]. *)
Lemma setrun_clawdata claw_pkg w rd w' :
  setrun claw_pkg w = (inr rd, w') ->
  attr rd "clawdata" "t0" = Some (VFloat (days2seconds (-2.0))) /\
  attr rd "clawdata" "tfinal" = Some (VFloat (days2seconds 1.0)) /\
  attr rd "clawdata" "num_output_times" = Some (VInt 72) /\
  exists cells,
    attr rd "clawdata" "num_cells" = Some (VList cells) /\
    cells !! 0%nat = Some (VInt 132) /\
    cells !! 1%nat = Some (VInt 120).
Proof.
  intros H. apply setrun_inv in H as (_ & w4 & Hstd & Hgeo & ->).
  apply set_clawpack_parameters_inv in Hstd as (w1 & w2 & w3 & H1 & H2 & H3 & H4).
  destruct after_clawdata_keeps_clawdata as (Pa & Pr & Pg).
  apply (preserved _ _ _ _ _ Pa) in H2.
  apply (preserved _ _ _ _ _ Pr) in H3.
  apply (preserved _ _ _ _ _ Pg) in H4.
  apply (preserved _ _ _ _ _ setgeo_keeps_clawdata) in Hgeo.
  assert (E : rundata w' !! "clawdata" = rundata w1 !! "clawdata").
  { unfold the_object in *. congruence. }
  apply set_clawdata_spec in H1. unfold the_attr, attr in *.
  now rewrite E.
Qed.

(** ** Grid cells (lines 93-95) *)

Lemma set_num_cells_run w cd lo up cells l0 l1 u0 u1 n0 n1 :
  rundata w !! "clawdata" = Some cd ->
  cd !! "lower" = Some (VList lo) -> cd !! "upper" = Some (VList up) ->
  cd !! "num_cells" = Some (VList cells) ->
  lo !! 0%nat = Some l0 -> lo !! 1%nat = Some l1 ->
  up !! 0%nat = Some u0 -> up !! 1%nat = Some u1 ->
  (2 <= length cells)%nat ->
  num_cells_rhs l0 u0 = inr n0 -> num_cells_rhs l1 u1 = inr n1 ->
  exists w' cells',
    set_num_cells w = (inr tt, w') /\
    the_attr "clawdata" "num_cells" w' = Some (VList cells') /\
    cells' !! 0%nat = Some (VInt n0) /\
    cells' !! 1%nat = Some (VInt n1).
Proof.
  intros Hcd Hlo Hup Hc Hl0 Hl1 Hu0 Hu1 Hlen Hn0 Hn1. unfold set_num_cells.
  rewrite (bind_run _ _ _ _ _
             (set_num_cells_axis_run 0 _ _ _ _ _ _ _ _ Hcd Hlo Hup Hc Hl0 Hu0 Hn0
                ltac:(lia))).
  set (cells1 := <[0%nat := VInt n0]> cells).
  set (cd1 := <["num_cells" := VList cells1]> cd).
  set (w1 := set_rundata _ w).
  assert (Hcd1 : rundata w1 !! "clawdata" = Some cd1) by apply lookup_insert_eq.
  assert (Hlen1 : (1 < length cells1)%nat).
  { subst cells1. rewrite length_insert. lia. }
  rewrite (set_num_cells_axis_run 1 w1 cd1 lo up cells1 l1 u1 n1); subst cd1;
    [ | assumption | now rewrite lookup_insert_ne | now rewrite lookup_insert_ne
      | apply lookup_insert_eq | assumption | assumption | assumption | assumption ].
  eexists _, _. split; [reflexivity|]. split; [|split].
  - unfold the_attr, attr. cbn. rewrite lookup_insert_eq. cbn.
    now rewrite lookup_insert_eq.
  - rewrite list_lookup_insert_ne by lia. subst cells1.
    apply list_lookup_insert_eq. lia.
  - now apply list_lookup_insert_eq.
Qed.

(** C1 (amended). Lines 93-95 subtract in binary64 and truncate.  For
    float bounds with lower < upper on each axis whose binary64 differences
    [d] are finite, the counts assigned are [floor(d) * 4]; when the exact
    differences are binary64 numbers the counts are
    [floor(upper - lower) * 4]; a difference that overflows raises
    [OverflowError]; for west = -88.0 and east = -55.0 the count is 132;
    and every configuration returned by [setrun] carries
    [num_cells = [132, 120, ..]]. *)
Theorem num_cells_floor_times_density :
  (forall (w : World) (cd : obj) (lo up cells : list value)
          (l0 l1 u0 u1 d0 d1 : Q),
      rundata w !! "clawdata" = Some cd ->
      cd !! "lower" = Some (VList lo) -> cd !! "upper" = Some (VList up) ->
      cd !! "num_cells" = Some (VList cells) ->
      lo !! 0%nat = Some (VFloat l0) -> lo !! 1%nat = Some (VFloat l1) ->
      up !! 0%nat = Some (VFloat u0) -> up !! 1%nat = Some (VFloat u1) ->
      (2 <= length cells)%nat ->
      (l0 < u0)%Q -> (l1 < u1)%Q ->
      round64 (u0 - l0) = Some d0 -> round64 (u1 - l1) = Some d1 ->
      exists w' cells',
        set_num_cells w = (inr tt, w') /\
        the_attr "clawdata" "num_cells" w' = Some (VList cells') /\
        cells' !! 0%nat = Some (VInt (Qfloor d0 * 4)) /\
        cells' !! 1%nat = Some (VInt (Qfloor d1 * 4))) /\
  (forall (w : World) (cd : obj) (lo up cells : list value) (l0 l1 u0 u1 : Q),
      rundata w !! "clawdata" = Some cd ->
      cd !! "lower" = Some (VList lo) -> cd !! "upper" = Some (VList up) ->
      cd !! "num_cells" = Some (VList cells) ->
      lo !! 0%nat = Some (VFloat l0) -> lo !! 1%nat = Some (VFloat l1) ->
      up !! 0%nat = Some (VFloat u0) -> up !! 1%nat = Some (VFloat u1) ->
      (2 <= length cells)%nat ->
      (l0 < u0)%Q -> (l1 < u1)%Q ->
      is_binary64 (u0 - l0) -> is_binary64 (u1 - l1) ->
      exists w' cells',
        set_num_cells w = (inr tt, w') /\
        the_attr "clawdata" "num_cells" w' = Some (VList cells') /\
        cells' !! 0%nat = Some (VInt (Qfloor (u0 - l0) * 4)) /\
        cells' !! 1%nat = Some (VInt (Qfloor (u1 - l1) * 4))) /\
  (forall (w : World) (cd : obj) (lo up : list value) (l0 u0 : Q),
      rundata w !! "clawdata" = Some cd ->
      cd !! "lower" = Some (VList lo) -> cd !! "upper" = Some (VList up) ->
      lo !! 0%nat = Some (VFloat l0) -> up !! 0%nat = Some (VFloat u0) ->
      round64 (u0 - l0) = None ->
      set_num_cells w
      = (inl (OverflowError "cannot convert float infinity to integer"), w)) /\
  degree_factor = 4 /\
  num_cells_rhs (VFloat (-88.0)) (VFloat (-55.0)) = inr 132 /\
  (forall claw_pkg w rd w',
      setrun claw_pkg w = (inr rd, w') ->
      exists cells,
        attr rd "clawdata" "num_cells" = Some (VList cells) /\
        cells !! 0%nat = Some (VInt 132) /\
        cells !! 1%nat = Some (VInt 120)).
Proof.
  split; [|split; [|split; [|split; [reflexivity|split]]]].
  - intros w cd lo up cells l0 l1 u0 u1 d0 d1
      Hcd Hlo Hup Hc Hl0 Hl1 Hu0 Hu1 Hlen H0 H1 Hd0 Hd1.
    eapply set_num_cells_run; try eassumption.
    + now apply num_cells_rhs_floor.
    + now apply num_cells_rhs_floor.
  - intros w cd lo up cells l0 l1 u0 u1
      Hcd Hlo Hup Hc Hl0 Hl1 Hu0 Hu1 Hlen H0 H1 Hd0 Hd1.
    eapply set_num_cells_run; try eassumption.
    + now apply num_cells_rhs_exact.
    + now apply num_cells_rhs_exact.
  - intros w cd lo up l0 u0 Hcd Hlo Hup Hl0 Hu0 Hover. unfold set_num_cells.
    apply bind_fail.
    eapply set_num_cells_axis_fail; try eassumption.
    now apply num_cells_rhs_overflow.
  - exact num_cells_west_east.
  - intros claw_pkg w rd w' H.
    apply setrun_clawdata in H as (_ & _ & _ & cells & Hc & Hc0 & Hc1).
    exists cells. auto.
Qed.

(** ** Output frames (lines 139-150) *)

Lemma bind_ret {A B} (a : A) (k : A -> M B) w : bind (ret a) k w = k a w.
Proof. reflexivity. Qed.





(** ** The package-name guard (line 49) *)

(** C3 (amended). For every [claw_pkg] whose lower-cased form is not
    'geoclaw', [setrun] raises the guard's [AssertionError] - a
    ConfigurationError of the taxonomy - and leaves the world as it found
    it: no aggregate is constructed, nothing is populated, nothing is
    written; [__main__] ends with the same exception and the same world. *)
Theorem setrun_rejects_other_packages (claw_pkg : string) (w : World) :
  str_lower claw_pkg <> "geoclaw" ->
  setrun claw_pkg w = (inl (AssertionError "Expected claw_pkg = 'geoclaw'"), w) /\
  (forall prog,
      main [prog; claw_pkg] w
      = (inl (AssertionError "Expected claw_pkg = 'geoclaw'"), w)) /\
  is_ConfigurationError (AssertionError "Expected claw_pkg = 'geoclaw'") = true.
Proof.
  intros Hne.
  assert (E : setrun claw_pkg w
              = (inl (AssertionError "Expected claw_pkg = 'geoclaw'"), w)).
  { unfold setrun. apply String.eqb_neq in Hne. now rewrite Hne. }
  split; [exact E|]. split; [|reflexivity].
  intros prog. unfold main. cbn. now rewrite (bind_fail _ _ _ _ _ E).
Qed.

(** ** The guarded access to [geo_data] (lines 391-395) *)

(** C4. When the aggregate lacks [geo_data], [setgeo] prints its message
    and raises [AttributeError("Missing geodata attribute")], a
    ConfigurationError of the taxonomy; nothing catches it: [setrun], having
    reached [setgeo] in that world, ends with the same exception, and so
    does [__main__], without serialising anything. *)
Theorem setgeo_missing_geo_data (w : World) :
  rundata w !! "geo_data" = None ->
  setgeo w
  = (inl (AttributeError "Missing geodata attribute"),
     add_stdout "*** Error, this rundata has no geodata attribute" w) /\
  is_ConfigurationError (AttributeError "Missing geodata attribute") = true /\
  (forall claw_pkg w0,
      str_lower claw_pkg = "geoclaw" ->
      set_clawpack_parameters claw_pkg 2 w0 = (inr tt, w) ->
      setrun claw_pkg w0
      = (inl (AttributeError "Missing geodata attribute"),
         add_stdout "*** Error, this rundata has no geodata attribute" w) /\
      (forall prog,
          main [prog; claw_pkg] w0
          = (inl (AttributeError "Missing geodata attribute"),
             add_stdout "*** Error, this rundata has no geodata attribute" w)) /\
      written w = written w0).
Proof.
  intros Hnone.
  assert (E : setgeo w
              = (inl (AttributeError "Missing geodata attribute"),
                 add_stdout "*** Error, this rundata has no geodata attribute" w)).
  { unfold setgeo, get_geo_data. apply bind_fail.
    unfold try_except, getobj. now rewrite Hnone. }
  split; [exact E|]. split; [reflexivity|].
  intros claw_pkg w0 Hpkg Hstd.
  assert (Er : setrun claw_pkg w0
               = (inl (AttributeError "Missing geodata attribute"),
                  add_stdout "*** Error, this rundata has no geodata attribute" w)).
  { unfold setrun. apply String.eqb_eq in Hpkg. rewrite Hpkg. cbn [assert].
    rewrite bind_ret. cbv zeta. rewrite (bind_run _ _ _ _ _ Hstd).
    now rewrite (bind_fail _ _ _ _ _ E). }
  split; [exact Er|]. split.
  - intros prog. unfold main. cbn. now rewrite (bind_fail _ _ _ _ _ Er).
  - pose proof (setrun_keeps_written claw_pkg w0) as Hw. now rewrite Er in Hw.
Qed.

(** ** Serialisation ([__main__], lines 529-537) *)

Lemma main_setrun argv w :
  main argv w = bind (setrun (claw_pkg_of argv)) (fun _ => rundata_write) w.
Proof.
  unfold main, claw_pkg_of.
  destruct argv as [|a0 [|a1 [|a2 argv]]]; reflexivity.
Qed.

(** ** Gauges (lines 363-369) *)

Lemma append_gauge_inv gaugeno x y w w' :
  append_gauge gaugeno x y w = (inr tt, w') ->
  exists cd gd t0 tfinal l,
    rundata w !! "clawdata" = Some cd /\ rundata w !! "gaugedata" = Some gd /\
    cd !! "t0" = Some t0 /\ cd !! "tfinal" = Some tfinal /\
    gd !! "gauges" = Some (VList l) /\
    rundata w' !! "clawdata" = Some cd /\
    rundata w' !! "gaugedata"
    = Some (<["gauges" := VList (l ++ [VList [VInt gaugeno; VFloat x; VFloat y;
                                                t0; tfinal]])%list]> gd).
Proof.
  intros H. unfold append_gauge in H.
  apply bind_inv in H as (t0 & ? & H0 & H).
  apply getattr_inv in H0 as [-> (cd & Hcd & H0)].
  apply bind_inv in H as (tfinal & ? & H1 & H).
  apply (getattr_obj _ _ _ _ _ _ Hcd) in H1 as [-> H1].
  apply append_inv in H as (gd & l & Hgd & Hl & ->).
  exists cd, gd, t0, tfinal, l. cbn. repeat split; auto.
  - now rewrite lookup_insert_ne.
  - apply lookup_insert_eq.
Qed.

Lemma set_gauges_inv w w' :
  set_gauges w = (inr tt, w') ->
  exists cd gd t0 tfinal l,
    rundata w !! "clawdata" = Some cd /\ rundata w !! "gaugedata" = Some gd /\
    cd !! "t0" = Some t0 /\ cd !! "tfinal" = Some tfinal /\
    gd !! "gauges" = Some (VList l) /\
    rundata w' !! "clawdata" = Some cd /\
    the_attr "gaugedata" "gauges" w'
    = Some (VList (l ++ [VList [VInt 1; VFloat (-74.013); VFloat 40.7; t0; tfinal];
                         VList [VInt 2; VFloat (-73.77); VFloat 40.81; t0; tfinal];
                         VList [VInt 3; VFloat (-74.14166); VFloat 40.6367;
                                t0; tfinal]])).
Proof.
  intros H. unfold set_gauges in H.
  apply bind_inv in H as ([] & w1 & H1 & H).
  apply append_gauge_inv in H1
    as (cd & gd & t0 & tfinal & l & Hcd & Hgd & Ht0 & Htf & Hl & Hcd1 & Hgd1).
  apply bind_inv in H as ([] & w2 & H2 & H).
  apply append_gauge_inv in H2
    as (cd' & gd2 & t0' & tfinal' & l2 & Hcd' & Hgd' & Ht0' & Htf' & Hl2 & Hcd2 & Hgd2).
  rewrite Hcd1 in Hcd'. injection Hcd' as <-.
  rewrite Hgd1 in Hgd'. injection Hgd' as <-.
  apply append_gauge_inv in H
    as (cd' & gd3 & t0'' & tfinal'' & l3 & Hcd' & Hgd' & Ht0'' & Htf'' & Hl3 & Hcd3 & Hgd3).
  rewrite Hcd2 in Hcd'. injection Hcd' as <-.
  rewrite Hgd2 in Hgd'. injection Hgd' as <-.
  norm_lookup_in Hl2. norm_lookup_in Hl3.
  rewrite Ht0 in Ht0', Ht0''. rewrite Htf in Htf', Htf''.
  injection Ht0' as <-. injection Ht0'' as <-.
  injection Htf' as <-. injection Htf'' as <-.
  injection Hl2 as <-. injection Hl3 as <-.
  exists cd, gd, t0, tfinal, l. repeat split; auto.
  unfold the_attr, attr. rewrite Hgd3. cbn. rewrite lookup_insert_eq.
  now rewrite <- !app_assoc.
Qed.

(** C10. In every configuration returned by [setrun] the gauge list is the
    constructor's list followed by gauges 1, 2 and 3, in that order, and
    each of the three has [t1 = clawdata.t0] and [t2 = clawdata.tfinal],
    the start and the end of the simulated time span. *)
Theorem gauges_span_the_run (claw_pkg : string) (w : World) (rd : aggregate)
        (w' : World) :
  setrun claw_pkg w = (inr rd, w') ->
  exists t0 tfinal old,
    attr rd "clawdata" "t0" = Some t0 /\
    attr rd "clawdata" "tfinal" = Some tfinal /\
    t0 = VFloat (days2seconds (-2.0)) /\
    tfinal = VFloat (days2seconds 1.0) /\
    attr (ClawRunData claw_pkg 2) "gaugedata" "gauges" = Some (VList old) /\
    attr rd "gaugedata" "gauges"
    = Some (VList (old ++ [VList [VInt 1; VFloat (-74.013); VFloat 40.7; t0; tfinal];
                           VList [VInt 2; VFloat (-73.77); VFloat 40.81; t0; tfinal];
                           VList [VInt 3; VFloat (-74.14166); VFloat 40.6367;
                                  t0; tfinal]])).
Proof.
  intros H. pose proof (setrun_clawdata _ _ _ _ H) as (Ht0 & Htf & _).
  apply setrun_inv in H as (_ & w4 & Hstd & Hgeo & ->).
  apply set_clawpack_parameters_inv in Hstd as (w1 & w2 & w3 & H1 & H2 & H3 & H4).
  destruct before_gauges_keeps_gaugedata as (Pc & Pa & Pr).
  apply (preserved _ _ _ _ _ Pc) in H1.
  apply (preserved _ _ _ _ _ Pa) in H2.
  apply (preserved _ _ _ _ _ Pr) in H3.
  pose proof (preserved _ _ _ _ _ setgeo_keeps_gaugedata Hgeo) as Hg.
  pose proof (preserved _ _ _ _ _ setgeo_keeps_clawdata Hgeo) as Hc.
  unfold the_object in *. cbn in H1.
  apply set_gauges_inv in H4
    as (cd & gd & t0 & tfinal & l & Hcd & Hgd & Hcdt0 & Hcdtf & Hl & Hcd4 & Hg4).
  unfold attr in Ht0, Htf. rewrite Hc, Hcd4 in Ht0, Htf. cbn in Ht0, Htf.
  rewrite Hcdt0 in Ht0. rewrite Hcdtf in Htf. clean_eqs.
  exists (VFloat (days2seconds (-2.0))), (VFloat (days2seconds 1.0)), l.
  unfold attr. rewrite Hc, Hcd4. cbn. repeat split; auto.
  - rewrite <- H1, <- H2, <- H3, Hgd. exact Hl.
  - unfold the_attr, attr in Hg4. now rewrite Hg.
Qed.

(** ** The landfall offset (lines 500-506) *)

Lemma apply_time_offset_lookup delta trk i :
  apply_time_offset delta trk !! i = shift delta <$> trk !! i.
Proof. unfold apply_time_offset. apply list_lookup_fmap. Qed.

(** C5. The time-offset correction shifts every record of a track by the
    same [delta]: the track keeps its length and order, the i-th record of
    the shifted track is the i-th record of the original with [delta] added
    to its timestamp and every other field untouched; and the storm file
    written on line 506 holds the track shifted by minus the landfall time
    set on line 504. *)
Theorem time_offset_is_uniform_shift (delta : Z) (trk : list StormRecord) :
  length (apply_time_offset delta trk) = length trk /\
  (forall i r,
      trk !! i = Some r ->
      exists r',
        apply_time_offset delta trk !! i = Some r' /\
        t r' - t r = delta /\
        eye_location r' = eye_location r /\
        max_wind_speed r' = max_wind_speed r /\
        max_wind_radius r' = max_wind_radius r /\
        central_pressure r' = central_pressure r /\
        storm_radius r' = storm_radius r) /\
  (forall i, trk !! i = None -> apply_time_offset delta trk !! i = None) /\
  (forall path w,
      Storm_write (mkStorm trk (Some (- delta))) path w
      = (inr tt, set_files (<[path := geoclaw_format (apply_time_offset delta trk)]>
                              (files w)) w)).
Proof.
  split; [|split; [|split]].
  - unfold apply_time_offset. apply length_map.
  - intros i r Hr. exists (shift delta r).
    rewrite apply_time_offset_lookup, Hr. cbn. repeat split. lia.
  - intros i Hr. now rewrite apply_time_offset_lookup, Hr.
  - intros path w. unfold Storm_write. cbn. now rewrite Z.opp_involutive.
Qed.

(** ** The remote fetch (lines 490-498) *)

Lemma append_nonempty_neq (s u : string) : u <> "" -> s <> s ++ u.
Proof.
  intros Hu. induction s as [|c s IH]; cbn.
  - intros H. apply Hu. now symmetry.
  - intros H. injection H as H. auto.
Qed.

Lemma atcf_path_not_archive : os_path_join getcwd "bal182012.dat" <> best_track_archive.
Proof. unfold best_track_archive. now apply append_nonempty_neq. Qed.

Lemma keep_world (w : World) : add_fetched [] (set_files (files w) w) = w.
Proof. destruct w. unfold add_fetched, set_files. cbn. now rewrite app_nil_r. Qed.

Lemma fetch_skips (w : World) :
  skips_when_present ->
  is_Some (files w !! best_track_archive) ->
  fetch_remote best_track_url getcwd w = (inr tt, w).
Proof.
  intros Hskip Hgz. unfold fetch_remote. rewrite (Hskip _ Hgz).
  now rewrite keep_world.
Qed.

Lemma unzip_frames path :
  preserves fetched (unzip path) /\
  (path <> best_track_archive ->
   preserves (fun w => files w !! best_track_archive) (unzip path)).
Proof.
  split.
  - unfold unzip.
    repeat first [ apply preserves_modify; reflexivity | frame_step ].
  - intros Hne. unfold unzip, write_file.
    repeat first [ apply preserves_modify; intros w; cbn; now rewrite lookup_insert_ne
                 | frame_step ].
Qed.

Lemma unzip_inv dat w w1 :
  unzip dat w = (inr tt, w1) ->
  exists archive text,
    files w !! (dat ++ "." ++ "gz") = Some archive /\
    gunzip_ascii archive = inr text /\
    w1 = set_files (<[dat := text]> (<[dat := ""]> (files w))) w.
Proof.
  unfold unzip. intros H.
  apply bind_inv in H as (archive & ? & Hr & H). unfold read_file in Hr.
  destruct (files w !! (dat ++ "." ++ "gz")) as [c|] eqn:Hgz; inversion Hr; subst.
  apply bind_inv in H as ([] & ? & Hw & H). inversion Hw; subst.
  apply bind_inv in H as (text & ? & Hl & H). unfold lift in Hl.
  inversion Hl; subst. inversion H; subst. eauto.
Qed.

Lemma unzip_run dat w archive text :
  files w !! (dat ++ "." ++ "gz") = Some archive ->
  gunzip_ascii archive = inr text ->
  unzip dat w = (inr tt, set_files (<[dat := text]> (<[dat := ""]> (files w))) w).
Proof.
  intros Hgz Hg. unfold unzip, read_file, bind at 1. rewrite Hgz.
  unfold bind at 1, write_file, modify. unfold bind at 1, lift.
  rewrite Hg. reflexivity.
Qed.

(** C6. Provided [get_remote_file] skips the download when its local file
    is present ([skips_when_present], the behaviour the call on lines
    490-492 relies on, with no [force] argument): re-running the fetch step
    with the local archive present requests nothing over the network and
    leaves the archive as it was; and re-running it in the world a
    successful run produced returns the same path and leaves the whole
    world - files, network log, all - unchanged. *)
Theorem fetch_best_track_idempotent (w : World) :
  skips_when_present ->
  (is_Some (files w !! best_track_archive) ->
   fetched (snd (fetch_best_track w)) = fetched w /\
   files (snd (fetch_best_track w)) !! best_track_archive
   = files w !! best_track_archive) /\
  (forall path w1,
      fetch_best_track w = (inr path, w1) ->
      is_Some (files w1 !! best_track_archive) /\
      fetch_best_track w1 = (inr path, w1)).
Proof.
  intros Hskip. split.
  - intros Hgz. unfold fetch_best_track.
    rewrite (bind_run _ _ _ _ _ (fetch_skips w Hskip Hgz)). cbv zeta.
    destruct (unzip_frames (os_path_join getcwd "bal182012.dat")) as [Pn Pf].
    specialize (Pf atcf_path_not_archive).
    unfold bind. specialize (Pn w). specialize (Pf w).
    destruct (unzip _ w) as [[e|[]] w1]; auto.
  - intros path w1 H. unfold fetch_best_track in *. fold best_track_url in *.
    apply bind_inv in H as ([] & wa & Hf & H). cbv zeta in *.
    apply bind_inv in H as ([] & wb & Hu & H). inversion H; subst. clear H.
    pose proof atcf_path_not_archive as Hne.
    pose proof (fun w0 => fetch_skips w0 Hskip) as Hfetch. clear Hskip.
    unfold best_track_archive in *.
    set (dat := os_path_join getcwd "bal182012.dat") in *. clearbody dat.
    apply unzip_inv in Hu as (archive & text & Hgz & Hg & ->).
    set (w1 := set_files _ wa).
    assert (Hgz1 : files w1 !! (dat ++ "." ++ "gz") = Some archive).
    { subst w1. unfold set_files. cbn [files].
      now rewrite !lookup_insert_ne by exact Hne. }
    split; [now rewrite Hgz1|].
    assert (Hskip1 : fetch_remote best_track_url getcwd w1 = (inr tt, w1)).
    { apply Hfetch. now rewrite Hgz1. }
    rewrite (bind_run _ _ _ _ _ Hskip1).
    rewrite (bind_run _ _ _ _ _ (unzip_run _ _ _ _ Hgz1 Hg)).
    unfold ret. f_equal. subst w1. unfold set_files.
    cbn [files rundata fetched stdout written].
    now rewrite !insert_insert_eq.
Qed.

End SetrunProperties.

(** ** The plot specification *)

Lemma exn_bind_inv {A B} (m : exn + A) (k : A -> exn + B) (b : B) :
  m ≫= k = inr b -> exists a, m = inr a /\ k a = inr b.
Proof. destruct m as [e|a]; cbn; [discriminate|eauto]. Qed.

Lemma surface_figure_run sl name r :
  surface_figure sl name r = inr (surface_descriptor sl name r).
Proof. reflexivity. Qed.

Lemma currents_figure_run name r :
  currents_figure name r = inr (currents_descriptor name r).
Proof. reflexivity. Qed.

Lemma region_figures_eq sl name r :
  region_figures sl (name, r) = [surface_descriptor sl name r; currents_descriptor name r].
Proof.
  unfold region_figures. cbn [fst snd].
  now rewrite surface_figure_run, currents_figure_run.
Qed.

(** The two figures of one region, written out. *)
Lemma region_figures_shape sl name r :
  exists fs fc axs axc,
    surface_figure sl name r = inr fs /\
    currents_figure name r = inr fc /\
    region_figures sl (name, r) = [fs; fc] /\
    fig_name fs = "Surface - " ++ name /\ fig_name fc = "Currents - " ++ name /\
    kwargs fs = [("figsize", region_figsize r)] /\
    kwargs fc = [("figsize", region_figsize r)] /\
    plotaxes_list fs = [axs] /\ plotaxes_list fc = [axc] /\
    title axs = Some "Surface" /\ title axc = Some "Currents" /\
    xlimits axs = Some (region_xlimits r) /\ ylimits axs = Some (region_ylimits r) /\
    xlimits axc = Some (region_xlimits r) /\ ylimits axc = Some (region_ylimits r).
Proof.
  exists (surface_descriptor sl name r), (currents_descriptor name r).
  do 2 eexists.
  split; [apply surface_figure_run|]. split; [apply currents_figure_run|].
  split; [apply region_figures_eq|].
  unfold surface_descriptor, currents_descriptor. repeat split.
Qed.

Lemma region_body_run sl pd entry :
  region_body sl pd entry
  = inr (mkPlotData (outdir pd) (figures pd ++ region_figures sl entry) (attrs pd)).
Proof.
  destruct entry as [name r]. rewrite region_figures_eq.
  unfold region_body, mbind, exn_bind.
  rewrite surface_figure_run, currents_figure_run.
  unfold mret, exn_ret, register_figure. cbn [outdir figures attrs].
  now rewrite <- app_assoc.
Qed.

Lemma for_each_region_body sl regs pd :
  for_each (region_body sl) regs pd
  = inr (mkPlotData (outdir pd) (figures pd ++ flat_map (region_figures sl) regs)
                    (attrs pd)).
Proof.
  revert pd. induction regs as [|entry regs IH]; intros pd; cbn [for_each flat_map].
  - rewrite app_nil_r. now destruct pd.
  - rewrite region_body_run. cbn. rewrite IH. cbn. now rewrite <- app_assoc.
Qed.

Lemma region_figures_length sl entry : length (region_figures sl entry) = 2%nat.
Proof.
  destruct entry as [name r].
  destruct (region_figures_shape sl name r) as (fs & fc & ? & ? & _ & _ & Hr & _).
  now rewrite Hr.
Qed.

Lemma regions_inv clawdata regs :
  regions clawdata = inr regs ->
  exists lower0 upper0 lower1 upper1,
    regs = [("Coast", mkRegion (lower0, upper0) (lower1, upper1) (VInt 8, VFloat 7.5));
            ("Zhapo Station", mkRegion (VFloat 111.71666667, VFloat 111.91666667)
                                       (VFloat 21.48333333, VFloat 21.68333333)
                                       (VInt 6, VInt 6));
            ("Landfall", mkRegion (VFloat 112.26, VFloat 112.86)
                                  (VFloat 21.3, VFloat 21.7)
                                  (VInt 6, VInt 4));
            ("Quarry Bay", mkRegion (VFloat 114.11333333, VFloat 114.31333333)
                                    (VFloat 22.19111111, VFloat 22.39111111)
                                    (VInt 6, VInt 6))].
Proof.
  unfold regions. intros H.
  apply exn_bind_inv in H as (lower & _ & H).
  apply exn_bind_inv in H as (lower0 & _ & H).
  apply exn_bind_inv in H as (upper & _ & H).
  apply exn_bind_inv in H as (upper0 & _ & H).
  apply exn_bind_inv in H as (lower1 & _ & H).
  apply exn_bind_inv in H as (upper1 & _ & H).
  inversion H. eauto 10.
Qed.

Section SetplotProperties.
Context {readers : Readers}.

(** The shape of a plot specification returned by [setplot]. *)
Lemma setplot_inv plotdata pd :
  setplot plotdata = inr pd ->
  exists clawdata surge_data regs sl pressure_forcing wind_forcing fp fw loc,
    read_claw_data (os_path_join (outdir (given_or_new plotdata)) "claw.data")
    = inr clawdata /\
    read_surge_data (os_path_join (outdir (given_or_new plotdata)) "surge.data")
    = inr surge_data /\
    regions clawdata = inr regs /\
    surge_data !! "pressure_forcing" = Some pressure_forcing /\
    surge_data !! "wind_forcing" = Some wind_forcing /\
    forcing_figure "Pressure" "Pressure Field" pressure_forcing
                   (add_pressure pressure_limits) regs = inr fp /\
    forcing_figure "Wind Speed" "Wind Field" wind_forcing
                   (add_wind wind_limits) regs = inr fw /\
    gauge_location_figure sl = inr loc /\
    figures pd
    = (flat_map (region_figures sl) regs ++ [fp; fw; gauge_figure; loc])%list.
Proof.
  unfold setplot. cbv zeta. intros H.
  set (pd0 := set_plotdata_attr "format" (VStr "binary")
                                (clearfigures (given_or_new plotdata))) in *.
  change (outdir pd0) with (outdir (given_or_new plotdata)) in H.
  apply exn_bind_inv in H as (clawdata & Hclaw & H).
  apply exn_bind_inv in H as (physics & _ & H).
  apply exn_bind_inv in H as (surge_data & Hsurge & H).
  apply exn_bind_inv in H as (friction_data & _ & H).
  apply exn_bind_inv in H as (track & _ & H).
  apply exn_bind_inv in H as (sea_level & _ & H).
  apply exn_bind_inv in H as (sea & _ & H).
  apply exn_bind_inv in H as (regs & Hregs & H).
  rewrite for_each_region_body in H. cbn [mbind exn_bind] in H.
  apply exn_bind_inv in H as (pf & Hpf & H).
  apply exn_bind_inv in H as (fp & Hfp & H).
  apply exn_bind_inv in H as (wf & Hwf & H).
  apply exn_bind_inv in H as (fw & Hfw & H).
  apply exn_bind_inv in H as (loc & Hloc & H).
  inversion H; subst pd. clear H.
  unfold obj_attr in Hpf, Hwf.
  destruct (surge_data !! "pressure_forcing") as [pf'|] eqn:Epf; inversion Hpf; subst.
  destruct (surge_data !! "wind_forcing") as [wf'|] eqn:Ewf; inversion Hwf; subst.
  exists clawdata, surge_data, regs, [VFloat (sea - 5.0); VFloat (sea + 5.0)],
    pf, wf, fp, fw, loc.
  repeat split; auto.
  cbn. rewrite <- !app_assoc. reflexivity.
Qed.

(** C7. Each entry [(name, region)] of [regions] yields exactly two
    figures, "Surface - name" and "Currents - name", each with the region's
    figsize and one axes carrying the region's xlimits and ylimits; the loop
    appends them in the iteration order of [regions]; iterating in another
    order yields the same descriptors in another order; and the first
    [2 * len(regions)] figures of the specification [setplot] returns are
    these. *)
Theorem two_figures_per_region :
  (forall sl name r,
      exists fs fc axs axc,
        region_figures sl (name, r) = [fs; fc] /\
        fig_name fs = "Surface - " ++ name /\ fig_name fc = "Currents - " ++ name /\
        kwargs fs = [("figsize", region_figsize r)] /\
        kwargs fc = [("figsize", region_figsize r)] /\
        plotaxes_list fs = [axs] /\ plotaxes_list fc = [axc] /\
        title axs = Some "Surface" /\ title axc = Some "Currents" /\
        xlimits axs = Some (region_xlimits r) /\
        ylimits axs = Some (region_ylimits r) /\
        xlimits axc = Some (region_xlimits r) /\
        ylimits axc = Some (region_ylimits r)) /\
  (forall sl regs pd,
      exists pd',
        for_each (region_body sl) regs pd = inr pd' /\
        figures pd' = (figures pd ++ flat_map (region_figures sl) regs)%list /\
        length (figures pd') = (length (figures pd) + 2 * length regs)%nat) /\
  (forall sl regs regs' pd pd1 pd2,
      regs ≡ₚ regs' ->
      for_each (region_body sl) regs pd = inr pd1 ->
      for_each (region_body sl) regs' pd = inr pd2 ->
      figures pd1 ≡ₚ figures pd2) /\
  (forall plotdata pd,
      setplot plotdata = inr pd ->
      exists clawdata regs sl,
        read_claw_data (os_path_join (outdir (given_or_new plotdata)) "claw.data")
        = inr clawdata /\
        regions clawdata = inr regs /\
        take (2 * length regs) (figures pd) = flat_map (region_figures sl) regs).
Proof.
  split; [|split; [|split]].
  - intros sl name r.
    destruct (region_figures_shape sl name r)
      as (fs & fc & axs & axc & _ & _ & H).
    exists fs, fc, axs, axc. exact H.
  - intros sl regs pd. eexists. split; [apply for_each_region_body|].
    cbn. split; [reflexivity|].
    rewrite length_app. f_equal.
    induction regs as [|entry regs IH]; [reflexivity|].
    cbn [flat_map]. rewrite length_app, region_figures_length, IH. cbn. lia.
  - intros sl regs regs' pd pd1 pd2 Hperm H1 H2.
    rewrite for_each_region_body in H1, H2. inversion H1; inversion H2; subst. cbn.
    apply Permutation_app_head.
    now apply Permutation_flat_map.
  - intros plotdata pd H.
    apply setplot_inv in H
      as (clawdata & surge & regs & sl & pf & wf & fp & fw & loc
          & Hclaw & _ & Hregs & _ & _ & _ & _ & _ & Hfigs).
    exists clawdata, regs, sl. split; [exact Hclaw|]. split; [exact Hregs|].
    rewrite Hfigs. apply take_app_length'.
    clear. induction regs as [|entry regs IH]; [reflexivity|].
    cbn [flat_map]. rewrite length_app, region_figures_length. cbn [length]. lia.
Qed.

Lemma forcing_figure_inv name axes_title flag key b clawdata regs f :
  regions clawdata = inr regs ->
  forcing_figure name axes_title flag (add_item key b) regs = inr f ->
  fig_name f = name /\
  show f = Some (py_and flag (VBool true)) /\
  exists ax,
    plotaxes_list f = [ax] /\ title ax = Some axes_title /\ scaled ax = Some true.
Proof.
  intros Hregs H. apply regions_inv in Hregs as (l0 & u0 & l1 & u1 & ->).
  unfold forcing_figure in H. cbn in H. inversion H; subst. clear H. cbn.
  repeat split. eexists. repeat split.
Qed.

Lemma gauge_location_figure_inv sl f :
  gauge_location_figure sl = inr f -> fig_name f = "Gauge Locations".
Proof. intros H. cbn in H. now inversion H. Qed.

Lemma no_region_figure_named name sl regs :
  (forall n, String.eqb ("Surface - " ++ n) name = false) ->
  (forall n, String.eqb ("Currents - " ++ n) name = false) ->
  List.filter (named name) (flat_map (region_figures sl) regs) = [].
Proof.
  intros Hs Hc. induction regs as [|[n r] regs IH]; [reflexivity|].
  cbn [flat_map]. rewrite List.filter_app, IH, app_nil_r.
  destruct (region_figures_shape sl n r)
    as (fs & fc & ? & ? & _ & _ & -> & Ns & Nc & _).
  cbn [List.filter]. unfold named. now rewrite Ns, Nc, Hs, Hc.
Qed.

(** C9. In the specification [setplot] returns there is exactly one figure
    named 'Pressure' and exactly one named 'Wind Speed'; their [show]
    attributes are [pressure_forcing and True] and [wind_forcing and True]
    for the flags read from the run's surge.data, which for a Boolean flag
    is the flag itself; the figure of a disabled forcing is still there,
    with its axes, marked not shown. *)
Theorem forcing_figures_follow_flags (plotdata : option ClawPlotData)
        (pd : ClawPlotData) :
  setplot plotdata = inr pd ->
  exists surge_data pressure_forcing wind_forcing fp fw axp axw,
    read_surge_data (os_path_join (outdir (given_or_new plotdata)) "surge.data")
    = inr surge_data /\
    surge_data !! "pressure_forcing" = Some pressure_forcing /\
    surge_data !! "wind_forcing" = Some wind_forcing /\
    List.filter (named "Pressure") (figures pd) = [fp] /\
    List.filter (named "Wind Speed") (figures pd) = [fw] /\
    show fp = Some (py_and pressure_forcing (VBool true)) /\
    show fw = Some (py_and wind_forcing (VBool true)) /\
    (forall b, pressure_forcing = VBool b -> show fp = Some (VBool b)) /\
    (forall b, wind_forcing = VBool b -> show fw = Some (VBool b)) /\
    plotaxes_list fp = [axp] /\ title axp = Some "Pressure Field" /\
    plotaxes_list fw = [axw] /\ title axw = Some "Wind Field".
Proof.
  intros H.
  apply setplot_inv in H
    as (clawdata & surge & regs & sl & pf & wf & fp & fw & loc
        & _ & Hsurge & Hregs & Hpf & Hwf & Hfp & Hfw & Hloc & Hfigs).
  apply (forcing_figure_inv _ _ _ _ _ _ _ _ Hregs) in Hfp
    as (Np & Sp & axp & Ap & Tp & _).
  apply (forcing_figure_inv _ _ _ _ _ _ _ _ Hregs) in Hfw
    as (Nw & Sw & axw & Aw & Tw & _).
  apply gauge_location_figure_inv in Hloc.
  exists surge, pf, wf, fp, fw, axp, axw.
  split; [exact Hsurge|]. split; [exact Hpf|]. split; [exact Hwf|].
  split; [|split].
  - rewrite Hfigs, List.filter_app, no_region_figure_named by reflexivity.
    cbn [List.filter app]. unfold named. now rewrite Np, Nw, Hloc.
  - rewrite Hfigs, List.filter_app, no_region_figure_named by reflexivity.
    cbn [List.filter app]. unfold named. now rewrite Np, Nw, Hloc.
  - repeat split; auto.
    + intros b ->. rewrite Sp. now destruct b.
    + intros b ->. rewrite Sw. now destruct b.
Qed.

End SetplotProperties.

(** ** The scripts on the reference framework *)

Lemma returned {A W} (d : A) (r : (exn + A) * W) :
  succeeded (fst r) = true -> r = (inr (result_or d (fst r)), snd r).
Proof. destruct r as [[e|a] w]; cbn; [discriminate|reflexivity]. Qed.

Lemma returned_value {A} (d : A) (r : exn + A) :
  succeeded r = true -> r = inr (result_or d r).
Proof. destruct r as [e|a]; cbn; [discriminate|reflexivity]. Qed.

Lemma returned_inj {A W} (a a' : A) (w w' : W) :
  (inr a : exn + A, w) = (inr a', w') -> a = a' /\ w = w'.
Proof. now inversion 1. Qed.

Lemma reference_run_returns : reference_run = (inr reference_result, reference_world).
Proof.
  assert (H : succeeded (fst reference_run) = true) by (vm_compute; reflexivity).
  unfold reference_result, reference_world. exact (returned ∅ reference_run H).
Qed.

Lemma reference_plot_returns :
  @setplot (reference_readers false true) None = inr reference_plot.
Proof.
  assert (H : succeeded (@setplot (reference_readers false true) None) = true)
    by (vm_compute; reflexivity).
  unfold reference_plot. exact (returned_value _ _ H).
Qed.

Lemma world_without_geo_data_reached :
  @set_clawpack_parameters clawpack_without_geo_data "geoclaw" 2 initial_world
  = (inr tt, world_without_geo_data).
Proof.
  assert (H : succeeded (fst (@set_clawpack_parameters clawpack_without_geo_data
                                "geoclaw" 2 initial_world)) = true)
    by (vm_compute; reflexivity).
  unfold world_without_geo_data.
  destruct (@set_clawpack_parameters clawpack_without_geo_data "geoclaw" 2
              initial_world) as [[e|[]] w]; [discriminate|reflexivity].
Qed.

Lemma first_fetch_returns :
  @fetch_best_track reference_clawpack initial_world
  = (inr "/run/bal182012.dat", fetched_world).
Proof. vm_compute. reflexivity. Qed.

Lemma reference_fetch_skips : @skips_when_present reference_clawpack.
Proof.
  intros fs [c Hc]. cbn. unfold reference_fetch.
  change (os_path_join "/run" "bal182012.dat.gz")
    with (@best_track_archive reference_clawpack).
  now rewrite Hc.
Qed.

Lemma num_cells_floor_times_density_witness :
  (exists w' cells',
      set_num_cells narrow_domain_world = (inr tt, w') /\
      the_attr "clawdata" "num_cells" w' = Some (VList cells') /\
      cells' !! 0%nat = Some (VInt (Qfloor 3 * 4)) /\
      cells' !! 1%nat = Some (VInt (Qfloor 30 * 4))) /\
  (exists w' cells',
      set_num_cells domain_world = (inr tt, w') /\
      the_attr "clawdata" "num_cells" w' = Some (VList cells') /\
      cells' !! 0%nat = Some (VInt (Qfloor (-55.0 - -88.0) * 4)) /\
      cells' !! 1%nat = Some (VInt (Qfloor (45.0 - 15.0) * 4))) /\
  set_num_cells unbounded_domain_world
  = (inl (OverflowError "cannot convert float infinity to integer"),
     unbounded_domain_world) /\
  (exists cells,
      attr reference_result "clawdata" "num_cells" = Some (VList cells) /\
      cells !! 0%nat = Some (VInt 132) /\ cells !! 1%nat = Some (VInt 120)).
Proof.
  pose proof (@num_cells_floor_times_density reference_clawpack)
    as (Hround & Hexact & Hover & _ & _ & Hrun).
  split; [|split; [|split]].
  - apply (Hround narrow_domain_world
             (list_to_map [("lower", VList [VFloat (2 ^ (-60)); VFloat 15.0]);
                           ("upper", VList [VFloat 3.0; VFloat 45.0]);
                           ("num_cells", VList [VInt 0; VInt 0])])
             [VFloat (2 ^ (-60)); VFloat 15.0] [VFloat 3.0; VFloat 45.0]
             [VInt 0; VInt 0] (2 ^ (-60))%Q 15.0%Q 3.0%Q 45.0%Q 3%Q 30%Q);
      first [ reflexivity | vm_compute; reflexivity | cbn; lia ].
  - apply (Hexact domain_world
             (list_to_map [("lower", VList [VFloat (-88.0); VFloat 15.0]);
                           ("upper", VList [VFloat (-55.0); VFloat 45.0]);
                           ("num_cells", VList [VInt 0; VInt 0])])
             [VFloat (-88.0); VFloat 15.0] [VFloat (-55.0); VFloat 45.0]
             [VInt 0; VInt 0] (-88.0)%Q 15.0%Q (-55.0)%Q 45.0%Q);
      first [ reflexivity | vm_compute; reflexivity | cbn; lia ].
  - apply (Hover unbounded_domain_world
             (list_to_map [("lower", VList [VFloat (- 2 ^ 1023); VFloat 15.0]);
                           ("upper", VList [VFloat (2 ^ 1023); VFloat 45.0]);
                           ("num_cells", VList [VInt 0; VInt 0])])
             [VFloat (- 2 ^ 1023); VFloat 15.0] [VFloat (2 ^ 1023); VFloat 45.0]
             (- 2 ^ 1023)%Q (2 ^ 1023)%Q);
      first [ reflexivity | vm_compute; reflexivity ].
  - apply (Hrun "geoclaw" initial_world reference_result reference_world).
    exact reference_run_returns.
Defined.

(** C1 as stated fails.  With lower = 2^-60 and upper = 3.0, both binary64
    numbers, [floor(upper - lower) * 4] is 8; line 94 rounds the difference
    to 3.0 and assigns 12. *)
Lemma num_cells_rounds_the_difference :
  is_binary64 (2 ^ (-60)) /\ is_binary64 3.0 /\ (2 ^ (-60) < 3.0)%Q /\
  Qfloor (3.0 - 2 ^ (-60)) * degree_factor = 8 /\
  num_cells_rhs (VFloat (2 ^ (-60))) (VFloat 3.0) = inr 12 /\
  exists w',
    set_num_cells narrow_domain_world = (inr tt, w') /\
    the_attr "clawdata" "num_cells" w' = Some (VList [VInt 12; VInt 120]).
Proof.
  repeat split; try (vm_compute; reflexivity).
  eexists. split; vm_compute; reflexivity.
Qed.



Lemma setrun_rejects_other_packages_witness :
  @setrun reference_clawpack "amrclaw" initial_world
  = (inl (AssertionError "Expected claw_pkg = 'geoclaw'"), initial_world) /\
  @main reference_clawpack ["setrun.py"; "amrclaw"] initial_world
  = (inl (AssertionError "Expected claw_pkg = 'geoclaw'"), initial_world).
Proof.
  destruct (@setrun_rejects_other_packages reference_clawpack "amrclaw" initial_world)
    as (Hrun & Hmain & _); [vm_compute; discriminate|].
  split; [exact Hrun | exact (Hmain "setrun.py")].
Defined.

(** C3 as stated fails: 'GeoClaw' is not the string 'geoclaw', and
    [setrun('GeoClaw')] passes the guard, populates the configuration and
    returns it. *)
Lemma setrun_accepts_GeoClaw :
  "GeoClaw" <> "geoclaw" /\
  exists rd w',
    @setrun reference_clawpack "GeoClaw" initial_world = (inr rd, w') /\
    attr rd "clawdata" "num_output_times" = Some (VInt 72) /\
    rundata w' = rd.
Proof.
  split; [discriminate|].
  assert (Hok : succeeded (fst mixed_case_run) = true) by (vm_compute; reflexivity).
  pose proof (returned ∅ mixed_case_run Hok) as H.
  exists (result_or ∅ (fst mixed_case_run)), (snd mixed_case_run).
  split; [exact H|].
  pose proof (setrun_clawdata _ _ _ _ H) as (_ & _ & Hn & _).
  apply setrun_inv in H as (_ & w1 & _ & _ & Hrd). auto.
Qed.

Lemma setgeo_missing_geo_data_witness :
  @setgeo clawpack_without_geo_data world_without_geo_data
  = (inl (AttributeError "Missing geodata attribute"),
     add_stdout "*** Error, this rundata has no geodata attribute"
                world_without_geo_data) /\
  @main clawpack_without_geo_data ["setrun.py"; "geoclaw"] initial_world
  = (inl (AttributeError "Missing geodata attribute"),
     add_stdout "*** Error, this rundata has no geodata attribute"
                world_without_geo_data) /\
  written world_without_geo_data = [].
Proof.
  destruct (@setgeo_missing_geo_data clawpack_without_geo_data world_without_geo_data)
    as (Hgeo & _ & Hrun); [vm_compute; reflexivity|].
  destruct (Hrun "geoclaw" initial_world) as (_ & Hmain & Hw);
    [reflexivity | exact world_without_geo_data_reached |].
  split; [exact Hgeo|]. split; [exact (Hmain "setrun.py") | exact Hw].
Defined.

Lemma time_offset_is_uniform_shift_witness :
  length (apply_time_offset (- datetime 2012 10 30 0 0) reference_track) = 2%nat /\
  exists r',
    apply_time_offset (- datetime 2012 10 30 0 0) reference_track !! 0%nat = Some r' /\
    t r' - datetime 2012 10 29 18 0 = - datetime 2012 10 30 0 0.
Proof.
  destruct (@time_offset_is_uniform_shift reference_clawpack
              (- datetime 2012 10 30 0 0) reference_track) as (Hlen & Hrec & _).
  split; [exact Hlen|].
  destruct (Hrec 0%nat (mkStormRecord (datetime 2012 10 29 18 0) (-74.0, 38.3)%Q
                                       41 185 943 370) eq_refl)
    as (r' & Hr' & Ht & _).
  exists r'. split; [exact Hr' | exact Ht].
Defined.

Lemma fetch_best_track_idempotent_witness :
  (fetched (snd (@fetch_best_track reference_clawpack fetched_world))
   = fetched fetched_world /\
   files (snd (@fetch_best_track reference_clawpack fetched_world))
   !! @best_track_archive reference_clawpack
   = files fetched_world !! @best_track_archive reference_clawpack) /\
  @fetch_best_track reference_clawpack fetched_world
  = (inr "/run/bal182012.dat", fetched_world).
Proof.
  destruct (@fetch_best_track_idempotent reference_clawpack initial_world
              reference_fetch_skips) as (_ & Hrerun).
  destruct (@fetch_best_track_idempotent reference_clawpack fetched_world
              reference_fetch_skips) as (Hpresent & _).
  destruct (Hrerun "/run/bal182012.dat" fetched_world) as (Hsome & Hsame);
    [exact first_fetch_returns|].
  split; [exact (Hpresent Hsome) | exact Hsame].
Defined.

Lemma two_figures_per_region_witness :
  exists regs sl,
    map fst regs = ["Coast"; "Zhapo Station"; "Landfall"; "Quarry Bay"] /\
    take (2 * length regs) (figures reference_plot)
    = flat_map (region_figures sl) regs.
Proof.
  destruct (proj2 (proj2 (proj2 (@two_figures_per_region (reference_readers false true))))
              None reference_plot reference_plot_returns)
    as (clawdata & regs & sl & _ & Hregs & Htake).
  exists regs, sl. split; [|exact Htake].
  apply regions_inv in Hregs as (l0 & u0 & l1 & u1 & ->). reflexivity.
Defined.

Lemma reference_world_holds_result : rundata reference_world = reference_result.
Proof.
  pose proof reference_run_returns as H. unfold reference_run in H.
  now apply setrun_inv in H as (_ & w1 & _ & _ & ->).
Qed.

Lemma reference_main_returns :
  @main reference_clawpack ["setrun.py"] initial_world
  = (inr tt, add_written reference_result reference_world).
Proof.
  rewrite main_setrun. change (claw_pkg_of ["setrun.py"]) with "geoclaw".
  rewrite (bind_run (@setrun reference_clawpack "geoclaw") _ initial_world _ _
                    reference_run_returns).
  unfold rundata_write, modify. now rewrite reference_world_holds_result.
Qed.

Lemma forcing_figures_follow_flags_witness :
  exists fp fw,
    List.filter (named "Pressure") (figures reference_plot) = [fp] /\
    List.filter (named "Wind Speed") (figures reference_plot) = [fw] /\
    show fp = Some (VBool false) /\
    show fw = Some (VBool true) /\
    length (plotaxes_list fp) = 1%nat.
Proof.
  destruct (@forcing_figures_follow_flags (reference_readers false true) None
              reference_plot reference_plot_returns)
    as (surge & pf & wf & fp & fw & axp & axw
        & Hsurge & Hpf & Hwf & Fp & Fw & _ & _ & Sp & Sw & Ap & _).
  cbn in Hsurge. injection Hsurge as <-.
  vm_compute in Hpf. injection Hpf as <-.
  vm_compute in Hwf. injection Hwf as <-.
  exists fp, fw. split; [exact Fp|]. split; [exact Fw|].
  split; [exact (Sp false eq_refl)|]. split; [exact (Sw true eq_refl)|].
  now rewrite Ap.
Defined.

Lemma gauges_span_the_run_witness :
  attr reference_result "gaugedata" "gauges"
  = Some (VList [VList [VInt 1; VFloat (-74.013); VFloat 40.7;
                        VFloat (days2seconds (-2.0)); VFloat (days2seconds 1.0)];
                 VList [VInt 2; VFloat (-73.77); VFloat 40.81;
                        VFloat (days2seconds (-2.0)); VFloat (days2seconds 1.0)];
                 VList [VInt 3; VFloat (-74.14166); VFloat 40.6367;
                        VFloat (days2seconds (-2.0)); VFloat (days2seconds 1.0)]]).
Proof.
  destruct (@gauges_span_the_run reference_clawpack "geoclaw" initial_world
              reference_result reference_world reference_run_returns)
    as (t0 & tfinal & old & _ & _ & -> & -> & Hold & Hgauges).
  vm_compute in Hold. injection Hold as <-. exact Hgauges.
Defined.

(** * Further properties of [setrun.py] *)

Lemma outside_ignores_rundata : ignores_rundata outside.
Proof. now intros r w. Qed.

#[global] Hint Resolve outside_ignores_rundata : frames.

Ltac unfold_setrun_blocks :=
  unfold set_clawpack_parameters, set_clawdata, set_num_cells, set_num_cells_axis,
    set_output_times, set_checkpoint, set_amrdata, set_regions, set_gauges,
    append_gauge, setgeo, get_geo_data, set_topo_data, append_topofile,
    set_surge_data, fetch_best_track, unzip, Storm_init, Storm_write,
    set_friction_data, setitem, append.

Ltac frame_all :=
  repeat first [ apply preserves_construct; solve [auto with frames] | frame_step ].

Section IngestProperties.
Context {clawpack : Clawpack}.

(** ** Decompression (lines 496-498) *)

(** X1. The three outcomes of the decompression step: without the archive
    it raises [OSError] and touches nothing; when gzip or the ASCII decoding
    rejects the archive, the exception leaves the target file behind, empty
    (it was opened for writing before the archive was read); otherwise the
    target holds the decoded text and no other file changes. *)
Theorem unzip_outcomes (path : string) (w : World) :
  (files w !! (path ++ "." ++ "gz") = None ->
   unzip path w = (inl (OSError (path ++ "." ++ "gz")), w)) /\
  (forall archive e,
      files w !! (path ++ "." ++ "gz") = Some archive ->
      gunzip_ascii archive = inl e ->
      unzip path w = (inl e, set_files (<[path := ""]> (files w)) w)) /\
  (forall archive text,
      files w !! (path ++ "." ++ "gz") = Some archive ->
      gunzip_ascii archive = inr text ->
      unzip path w = (inr tt, set_files (<[path := text]> (files w)) w)).
Proof.
  split; [|split].
  - intros Hgz. unfold unzip, read_file, bind at 1. now rewrite Hgz.
  - intros archive e Hgz Hg. unfold unzip, read_file, bind at 1. rewrite Hgz.
    unfold bind at 1, write_file, modify. unfold bind at 1, lift. now rewrite Hg.
  - intros archive text Hgz Hg. rewrite (unzip_run _ _ _ _ Hgz Hg).
    unfold set_files. cbn [files]. now rewrite insert_insert_eq.
Qed.

(** ** The fetch and its failure (lines 490-492) *)

Lemma setattr_outside w o a v ob :
  rundata w !! o = Some ob ->
  exists w',
    setattr o a v w = (inr tt, w') /\
    rundata w' !! o = Some (<[a := v]> ob) /\
    outside w' = outside w.
Proof.
  intros Ho. eexists. split; [exact (setattr_run _ _ _ _ _ Ho)|].
  split; [apply lookup_insert_eq | reflexivity].
Qed.

Lemma outside_after_fetch w0 w fs urls :
  outside w0 = outside w ->
  outside (add_fetched urls (set_files fs w0))
  = (fs, (fetched w ++ urls)%list, stdout w, written w).
Proof.
  unfold outside. intros H. injection H as _ Hf Hs Hw. cbn. now rewrite Hf, Hs, Hw.
Qed.

(** X2. A failing fetch is surfaced and the script does nothing more.
    When [get_remote_file] raises, having left the file system [fs] and
    requested [urls], the fetch step raises the same exception in the world
    that records exactly those effects; the surge block ends with that
    exception, having assigned [storm_file] and the forcing flags; beyond
    what the failed call did, no file is written (nothing is unpacked, no
    storm file), and nothing is printed or serialised. *)
Theorem fetch_failure_surfaces (w : World) (e : exn)
        (fs : gmap string string) (urls : list string) :
  get_remote_file best_track_url getcwd (files w) = inl (e, (fs, urls)) ->
  fetch_best_track w = (inl e, add_fetched urls (set_files fs w)) /\
  (forall sd,
      rundata w !! "surge_data" = Some sd ->
      exists w',
        set_surge_data w = (inl e, w') /\
        outside w' = (fs, (fetched w ++ urls)%list, stdout w, written w) /\
        the_attr "surge_data" "storm_file" w' = Some (VStr storm_path) /\
        the_attr "surge_data" "wind_forcing" w' = Some (VBool true) /\
        the_attr "surge_data" "pressure_forcing" w' = Some (VBool true)).
Proof.
  intros Hfail.
  assert (Hfetch : forall w0, outside w0 = outside w ->
                              fetch_best_track w0
                              = (inl e, add_fetched urls (set_files fs w0))).
  { intros w0 Hw0. unfold fetch_best_track. apply bind_fail.
    unfold fetch_remote. fold best_track_url.
    replace (files w0) with (files w) by (now inversion Hw0).
    now rewrite Hfail. }
  split; [now apply Hfetch|].
  intros sd Hsd. unfold set_surge_data.
  rewrite (bind_run _ _ _ _ _ (getobj_run _ _ _ Hsd)).
  repeat match goal with
         | Ho : rundata ?w0 !! "surge_data" = Some _
           |- context [bind (setattr "surge_data" ?a ?v) _ ?w0] =>
             let w1 := fresh "w" in
             let E := fresh "E" in
             let Ho1 := fresh "Ho" in
             let Hout := fresh "Hout" in
             destruct (setattr_outside w0 "surge_data" a v _ Ho)
               as (w1 & E & Ho1 & Hout);
             rewrite (bind_run _ _ _ _ _ E); clear E Ho;
             try (match goal with
                  | Hprev : outside w0 = outside _ |- _ =>
                      rewrite Hprev in Hout; clear Hprev
                  end)
         end.
  match goal with
  | Ho : rundata ?w0 !! "surge_data" = Some _, Hout : outside ?w0 = outside w |- _ =>
      exists (add_fetched urls (set_files fs w0));
      split; [apply bind_fail; now apply Hfetch|];
      split; [exact (outside_after_fetch _ _ fs urls Hout)|];
      unfold the_attr, attr; cbn [rundata add_fetched set_files];
      rewrite Ho; cbn [mbind option_bind];
      repeat split; norm_lookup; reflexivity
  end.
Qed.

End IngestProperties.

Section PipelineProperties.
Context {clawpack : Clawpack}.

(** ** The storm-file pipeline (lines 471-506) *)

Lemma set_surge_data_inv w w' :
  set_surge_data w = (inr tt, w') ->
  exists fs1 urls archive text trk,
    get_remote_file best_track_url getcwd (files w) = inr (fs1, urls) /\
    fs1 !! best_track_archive = Some archive /\
    gunzip_ascii archive = inr text /\
    read_atcf text = inr trk /\
    files w' =
      <[storm_path :=
          geoclaw_format (apply_time_offset (- datetime 2012 10 30 0 0) trk)]>
        (<[atcf_path := text]> fs1) /\
    fetched w' = (fetched w ++ urls)%list /\
    stdout w' = stdout w /\
    written w' = written w /\
    the_attr "surge_data" "storm_file" w' = Some (VStr storm_path).
Proof.
  unfold set_surge_data. intros H.
  apply bind_inv in H as (sd & ? & Hs & H). apply getobj_inv in Hs as (-> & Hsd).
  do 8 (let Hs := fresh "Hs" in
        apply bind_inv in H as ([] & ? & Hs & H);
        apply setattr_inv in Hs as (? & Hs & ->);
        cbn [rundata set_rundata] in Hs;
        first [ rewrite Hsd in Hs | rewrite lookup_insert_eq in Hs ];
        inversion Hs; subst; clear Hs).
  match type of H with
  | bind _ _ ?w0 = _ => set (w8 := w0) in *
  end.
  assert (Hout : outside w8 = outside w) by reflexivity.
  assert (Hfile : the_attr "surge_data" "storm_file" w8 = Some (VStr storm_path)).
  { unfold the_attr, attr, the_object, w8. cbn [rundata set_rundata].
    rewrite lookup_insert_eq. cbn [mbind option_bind]. now norm_lookup. }
  clearbody w8. clear Hsd.
  apply bind_inv in H as (p & w9 & Hf & H).
  unfold fetch_best_track in Hf.
  apply bind_inv in Hf as ([] & wa & Hget & Hf).
  apply bind_inv in Hf as ([] & wb & Hz & Hf).
  inversion Hf; subst p wb; clear Hf.
  unfold fetch_remote in Hget. fold best_track_url in Hget.
  replace (files w8) with (files w) in Hget by (now inversion Hout).
  destruct (get_remote_file best_track_url getcwd (files w))
    as [[e [fs0 urls0]] | [fs1 urls]] eqn:Hr; [discriminate|].
  inversion Hget; subst wa; clear Hget.
  apply unzip_inv in Hz as (archive & text & Harch & Hgz & ->).
  cbn [files add_fetched set_files] in Harch.
  apply bind_inv in H as (sandy & wc & Hinit & H).
  unfold Storm_init in Hinit.
  apply bind_inv in Hinit as (content & ? & Hread & Hinit).
  unfold read_file in Hread. cbn [files add_fetched set_files] in Hread.
  rewrite lookup_insert_eq in Hread. inversion Hread; subst; clear Hread.
  apply bind_inv in Hinit as (trk & ? & Hatcf & Hinit).
  unfold lift in Hatcf. inversion Hinit; subst; clear Hinit.
  destruct (read_atcf content) as [e | trk'] eqn:Htrk; [discriminate|].
  inversion Hatcf; subst; clear Hatcf.
  apply bind_inv in H as (v & ? & Hsf & H).
  apply getattr_inv in Hsf as (-> & ob & Hob & Hv).
  unfold the_attr, attr, the_object in Hfile.
  cbn [rundata add_fetched set_files] in Hob. rewrite Hob in Hfile.
  cbn [mbind option_bind] in Hfile. rewrite Hv in Hfile. inversion Hfile; subst v.
  apply bind_inv in H as (s & ? & Hstr & H). inversion Hstr; subst; clear Hstr.
  unfold Storm_write, write_file, modify in H. cbn [time_offset track] in H.
  inversion H; subst; clear H.
  exists fs1, urls, archive, content, trk.
  repeat split; try assumption.
  - cbn [files add_fetched set_files]. unfold atcf_path. now rewrite insert_insert_eq.
  - cbn [fetched add_fetched set_files]. now inversion Hout.
  - cbn [stdout add_fetched set_files]. now inversion Hout.
  - cbn [written add_fetched set_files]. now inversion Hout.
  - unfold the_attr, attr, the_object. cbn [rundata set_files add_fetched].
    rewrite Hob. cbn [mbind option_bind]. exact Hv.
Qed.

End PipelineProperties.

Section RunIOProperties.
Context {clawpack : Clawpack}.

Lemma outside_eq (a b : World) :
  outside a = outside b ->
  files a = files b /\ fetched a = fetched b /\
  stdout a = stdout b /\ written a = written b.
Proof. intros H. now inversion H. Qed.

Lemma get_geo_data_inv w ob w' :
  get_geo_data w = (inr ob, w') -> w' = w /\ rundata w !! "geo_data" = Some ob.
Proof.
  unfold get_geo_data, try_except, getobj.
  destruct (rundata w !! "geo_data") eqn:E; cbn; intros H; inversion H; auto.
Qed.

Lemma set_clawpack_parameters_outside claw_pkg :
  preserves outside (set_clawpack_parameters claw_pkg 2).
Proof. unfold_setrun_blocks. frame_all. Qed.

Lemma set_friction_data_frames :
  preserves outside set_friction_data /\
  preserves (the_object "surge_data") set_friction_data.
Proof. split; unfold_setrun_blocks; frame_all. Qed.

Lemma preserves_pair {X Y A} (f : World -> X) (g : World -> Y) (m : M A) :
  preserves f m -> preserves g m -> preserves (fun w => (f w, g w)) m.
Proof. intros Hf Hg w. now rewrite Hf, Hg. Qed.

(** The objects [setgeo] assigns to before the surge block. *)
Lemma setgeo_inv_frame {X} (f : World -> X) w w' :
  (forall o a v,
      In o ["geo_data"; "refinement_data"; "topo_data"; "qinit_data"; "fixed_grid_data"] ->
      preserves f (setattr o a v)) ->
  setgeo w = (inr tt, w') ->
  exists w1 w2,
    f w1 = f w /\
    set_surge_data w1 = (inr tt, w2) /\
    set_friction_data w2 = (inr tt, w').
Proof.
  intros Hset. unfold setgeo. intros H.
  apply bind_inv in H as (gd & ? & Hs & H). apply get_geo_data_inv in Hs as (-> & _).
  assert (Hout : f w = f w) by reflexivity.
  do 21 (let Hs := fresh "Hs" in
         apply bind_inv in H as (? & ? & Hs & H);
         apply (preserved f) in Hs;
         [ | solve [ unfold set_topo_data, append_topofile, append;
                     repeat first [ apply Hset; cbn; tauto | frame_step ] ] ];
         let Hn := fresh "Hn" in
         pose proof (eq_trans Hs Hout) as Hn; clear Hs Hout; rename Hn into Hout).
  apply bind_inv in H as ([] & w2 & Hsurge & H).
  match type of Hsurge with
  | set_surge_data ?w1 = _ => exists w1, w2
  end.
  auto.
Qed.

Lemma setgeo_inv w w' :
  setgeo w = (inr tt, w') ->
  exists w1 w2,
    outside w1 = outside w /\
    set_surge_data w1 = (inr tt, w2) /\
    set_friction_data w2 = (inr tt, w').
Proof.
  apply setgeo_inv_frame.
  intros o a v _. apply preserves_setattr_ignored. auto with frames.
Qed.

(** The input and output of a successful [setrun]. *)
Lemma setrun_io claw_pkg w w' rd :
  setrun claw_pkg w = (inr rd, w') ->
  exists fs1 urls archive text trk,
    get_remote_file best_track_url getcwd (files w) = inr (fs1, urls) /\
    fs1 !! best_track_archive = Some archive /\
    gunzip_ascii archive = inr text /\
    read_atcf text = inr trk /\
    attr rd "surge_data" "storm_file" = Some (VStr storm_path) /\
    files w' =
      <[storm_path :=
          geoclaw_format (apply_time_offset (- datetime 2012 10 30 0 0) trk)]>
        (<[atcf_path := text]> fs1) /\
    fetched w' = (fetched w ++ urls)%list /\
    stdout w' = stdout w /\
    written w' = written w.
Proof.
  intros H. apply setrun_inv in H as (_ & w1 & Hp & Hg & ->).
  apply (preserved outside) in Hp; [|apply set_clawpack_parameters_outside].
  apply setgeo_inv in Hg as (w2 & w3 & Hout & Hs & Hf).
  rewrite Hp in Hout.
  apply set_surge_data_inv in Hs
    as (fs1 & urls & archive & text & trk & Hget & Ha & Hz & Hr & Hfiles & Hfe & Hso & Hwr
        & Hsf).
  destruct set_friction_data_frames as [Ho Hobj].
  apply (preserved _ _ _ _ _ Hobj) in Hf as Hsurge.
  apply (preserved _ _ _ _ _ Ho) in Hf.
  apply outside_eq in Hf as (Hf1 & Hf2 & Hf3 & Hf4).
  apply outside_eq in Hout as (Ho1 & Ho2 & Ho3 & Ho4).
  rewrite Ho1 in Hget.
  exists fs1, urls, archive, text, trk.
  repeat split; try assumption; try congruence.
  unfold the_attr, attr in *. unfold the_object in Hsurge. now rewrite Hsurge.
Qed.

(** X3. What a successful [setrun] leaves on disk: the fetch delivered the
    archive, gzip and the ATCF reader accepted it, and the file system is
    the one the fetch produced with two files written over it, the unpacked
    best track holding the decoded text and the storm file at the path
    assigned to [surge_data.storm_file]. *)
Theorem setrun_writes_storm_file (claw_pkg : string) (w w' : World) (rd : aggregate) :
  setrun claw_pkg w = (inr rd, w') ->
  exists fs1 urls archive text trk content,
    get_remote_file best_track_url getcwd (files w) = inr (fs1, urls) /\
    fs1 !! best_track_archive = Some archive /\
    gunzip_ascii archive = inr text /\
    read_atcf text = inr trk /\
    attr rd "surge_data" "storm_file" = Some (VStr storm_path) /\
    files w' = <[storm_path := content]> (<[atcf_path := text]> fs1).
Proof.
  intros H. apply setrun_io in H
    as (fs1 & urls & archive & text & trk & Hget & Ha & Hz & Hr & Hsf & Hfiles & _).
  exists fs1, urls, archive, text, trk. eexists. eauto 10.
Qed.

(** X4. A successful [setrun] prints nothing, serialises nothing, and asks
    the network for exactly what its single [get_remote_file] call asks. *)
Theorem setrun_is_quiet (claw_pkg : string) (w w' : World) (rd : aggregate) :
  setrun claw_pkg w = (inr rd, w') ->
  stdout w' = stdout w /\
  written w' = written w /\
  exists fs1 urls,
    get_remote_file best_track_url getcwd (files w) = inr (fs1, urls) /\
    fetched w' = (fetched w ++ urls)%list.
Proof.
  intros H. apply setrun_io in H
    as (fs1 & urls & archive & text & trk & Hget & _ & _ & _ & _ & _ & Hfe & Hso & Hwr).
  split; [exact Hso|]. split; [exact Hwr|]. exists fs1, urls. now split.
Qed.

End RunIOProperties.

(** ** Index assignment out of range (lines 85-89) *)

Lemma setitem_fail w o a ob l i x :
  rundata w !! o = Some ob -> ob !! a = Some (VList l) -> (length l <= i)%nat ->
  setitem o a i x w = (inl (IndexError "list assignment index out of range"), w).
Proof.
  intros Ho Ha Hi. unfold setitem.
  rewrite (bind_run _ _ _ _ _ (getattr_run _ _ _ _ _ Ho Ha)).
  cbn [as_list]. rewrite bind_ret. destruct (decide (i < length l)%nat); [lia|reflexivity].
Qed.

Lemma bind_modify {B} (f : World -> World) (k : unit -> M B) w :
  bind (modify f) k w = k tt (f w).
Proof. reflexivity. Qed.

(** Forward execution of an assignment, keeping [Ho : rundata w !! o = Some ob]
    for the object assigned to. *)
Ltac fwd_setattr :=
  match goal with
  | Ho : rundata ?w0 !! ?o = Some ?ob |- context [bind (setattr ?o ?a ?v) _ ?w0] =>
      rewrite (bind_run _ _ _ _ _ (setattr_run w0 o a v ob Ho));
      let Ho' := fresh "Ho" in
      assert (Ho' : rundata (set_rundata (<[o := <[a := v]> ob]> (rundata w0)) w0) !! o
                    = Some (<[a := v]> ob)) by apply lookup_insert_eq;
      clear Ho
  end.

Ltac fwd_setitem :=
  match goal with
  | Ho : rundata ?w0 !! ?o = Some ?ob |- context [bind (setitem ?o ?a ?i ?x) _ ?w0] =>
      let Hl := fresh "Hl" in
      let Hi := fresh "Hi" in
      eassert (Hl : ob !! a = Some (VList _))
        by (norm_lookup; first [reflexivity | eassumption]);
      match type of Hl with
      | _ = Some (VList ?l) =>
          assert (Hi : (i < length l)%nat) by (rewrite ?length_insert; cbn; lia);
          rewrite (bind_run _ _ _ _ _ (setitem_run w0 o a ob l i x Ho Hl Hi));
          let Ho' := fresh "Ho" in
          assert (Ho' : rundata (set_rundata (<[o := <[a := VList (<[i := x]> l)]> ob]>
                                               (rundata w0)) w0) !! o
                        = Some (<[a := VList (<[i := x]> l)]> ob))
            by apply lookup_insert_eq;
          clear Ho Hl Hi
      end
  end.

Section BoundsProperties.
Context {clawpack : Clawpack}.

(** X5. The domain bounds are assigned by index, so the constructor must
    have built [clawdata.lower] and [clawdata.upper] with two entries each:
    when either list is shorter, [setrun] raises [IndexError] while
    assigning the bounds, before any file is touched, anything is fetched,
    printed or serialised. *)
Theorem setrun_needs_two_bounds (claw_pkg : string) (w : World)
        (cd : obj) (lo up : list value) :
  str_lower claw_pkg = "geoclaw" ->
  ClawRunData claw_pkg 2 !! "clawdata" = Some cd ->
  cd !! "lower" = Some (VList lo) ->
  cd !! "upper" = Some (VList up) ->
  (length lo < 2 \/ length up < 2)%nat ->
  exists w',
    setrun claw_pkg w
    = (inl (IndexError "list assignment index out of range"), w') /\
    outside w' = outside w.
Proof.
  intros Hpkg Hcd Hlo Hup Hlen.
  assert (Hout : forall r w', set_clawpack_parameters claw_pkg 2 w = (r, w') ->
                              outside w' = outside w).
  { intros r w' H. exact (preserved outside _ _ _ _
                            (set_clawpack_parameters_outside claw_pkg) H). }
  assert (Hfail : exists w',
             set_clawdata 2 (set_rundata (ClawRunData claw_pkg 2) w)
             = (inl (IndexError "list assignment index out of range"), w')).
  { assert (Ho : rundata (set_rundata (ClawRunData claw_pkg 2) w) !! "clawdata" = Some cd)
      by exact Hcd.
    unfold set_clawdata.
    rewrite (bind_run _ _ _ _ _ (getobj_run _ _ _ Ho)).
    destruct lo as [|l0 [|l1 lo']], up as [|u0 [|u1 up']];
      cbn [length] in Hlen; try lia;
      repeat first [ fwd_setattr | fwd_setitem ];
      eexists; apply bind_fail;
      (eapply setitem_fail;
       [ eassumption
       | norm_lookup; first [reflexivity | eassumption]
       | rewrite ?length_insert; cbn; lia ]). }
  destruct Hfail as (w' & Hfail).
  assert (Hpar : set_clawpack_parameters claw_pkg 2 w
                 = (inl (IndexError "list assignment index out of range"), w')).
  { unfold set_clawpack_parameters. rewrite bind_modify. now apply bind_fail. }
  clear Hfail. rename Hpar into Hfail.
  exists w'. split; [|exact (Hout _ _ Hfail)].
  unfold setrun. rewrite Hpkg.
  change (String.eqb "geoclaw" "geoclaw") with true. unfold assert.
  rewrite bind_ret. now apply bind_fail.
Qed.

End BoundsProperties.

(** ** The blocks of [setrun], one object at a time *)

Lemma set_clawdata_more w w' :
  set_clawdata 2 w = (inr tt, w') ->
  exists lo up,
    the_attr "clawdata" "lower" w' = Some (VList lo) /\
    lo !! 0%nat = Some (VFloat (-88.0)) /\ lo !! 1%nat = Some (VFloat 15.0) /\
    the_attr "clawdata" "upper" w' = Some (VList up) /\
    up !! 0%nat = Some (VFloat (-55.0)) /\ up !! 1%nat = Some (VFloat 45.0) /\
    the_attr "clawdata" "num_waves" w' = Some (VInt 3) /\
    the_attr "clawdata" "limiter" w' = Some (VList [VStr "mc"; VStr "mc"; VStr "mc"]) /\
    the_attr "clawdata" "num_aux" w' = Some (VInt (3 + 1 + 3)) /\
    (forall a,
        In a ["output_times"; "output_step_interval"; "total_steps";
              "checkpt_times"; "checkpt_interval"] ->
        the_attr "clawdata" a w' = the_attr "clawdata" a w).
Proof.
  unfold set_clawdata. intros H.
  apply bind_inv in H as (ob & ? & Ho & H). apply getobj_inv in Ho as [-> Ho].
  pose proof Ho as Hinit.
  do 5 exec H Ho.
  match goal with
  | H1 : ob !! "lower" = Some (VList ?lo), H2 : ob !! "upper" = Some (VList ?up) |- _ =>
      rename lo into lower0; rename up into upper0
  end.
  assert (Hl0 : <[1%nat := VFloat 15.0]> (<[0%nat := VFloat (-88.0)]> lower0) !! 0%nat
                = Some (VFloat (-88.0))).
  { rewrite list_lookup_insert_ne by lia. now apply list_lookup_insert_eq. }
  assert (Hl1 : <[1%nat := VFloat 15.0]> (<[0%nat := VFloat (-88.0)]> lower0) !! 1%nat
                = Some (VFloat 15.0)) by now apply list_lookup_insert_eq.
  assert (Hu0 : <[1%nat := VFloat 45.0]> (<[0%nat := VFloat (-55.0)]> upper0) !! 0%nat
                = Some (VFloat (-55.0))).
  { rewrite list_lookup_insert_ne by lia. now apply list_lookup_insert_eq. }
  assert (Hu1 : <[1%nat := VFloat 45.0]> (<[0%nat := VFloat (-55.0)]> upper0) !! 1%nat
                = Some (VFloat 45.0)) by now apply list_lookup_insert_eq.
  unfold set_num_cells in H. apply bind_inv in H as ([] & ? & Hnc & H).
  apply bind_inv in Hnc as ([] & ? & Hnc0 & Hnc1).
  edestruct (set_num_cells_axis_obj 0) as (c0 & Hc0 & Hlen0 & Ho0);
    [ exact Ho | norm_lookup; reflexivity | norm_lookup; reflexivity
    | exact Hl0 | exact Hu0 | exact num_cells_west_east | exact Hnc0 | ].
  edestruct (set_num_cells_axis_obj 1) as (c1 & Hc1 & Hlen1 & Ho1);
    [ exact Ho0 | norm_lookup; reflexivity | norm_lookup; reflexivity
    | exact Hl1 | exact Hu1 | exact num_cells_south_north | exact Hnc1 | ].
  norm_lookup_in Hc1. clean_eqs. clear Ho Ho0 Hnc0 Hnc1. rename Ho1 into Ho.
  do 7 exec H Ho.
  apply bind_inv in H as ([] & ? & Hout & H).
  eapply set_output_times_obj in Hout;
    [ | exact Ho | norm_lookup; reflexivity | norm_lookup; reflexivity
      | exact num_output_times_three_days ].
  clear Ho. rename Hout into Ho.
  repeat exec H Ho.
  cbn in H. inversion H; subst.
  exists (<[1%nat := VFloat 15.0]> (<[0%nat := VFloat (-88.0)]> lower0)),
         (<[1%nat := VFloat 45.0]> (<[0%nat := VFloat (-55.0)]> upper0)).
  unfold the_attr, attr, the_object. rewrite Ho, Hinit. cbn [mbind option_bind].
  repeat split; try assumption; try (norm_lookup; reflexivity).
  intros a Ha. cbn [In] in Ha.
  repeat (destruct Ha as [<- | Ha]; [norm_lookup; reflexivity|]). destruct Ha.
Qed.

Lemma set_amrdata_spec w w' :
  set_amrdata w = (inr tt, w') ->
  the_attr "amrdata" "amr_levels_max" w' = Some (VInt 6) /\
  the_attr "amrdata" "refinement_ratios_x" w'
  = Some (VList [VInt 2; VInt 2; VInt 2; VInt 6; VInt 8]) /\
  the_attr "amrdata" "refinement_ratios_y" w'
  = Some (VList [VInt 2; VInt 2; VInt 2; VInt 6; VInt 8]) /\
  the_attr "amrdata" "refinement_ratios_t" w'
  = Some (VList [VInt 2; VInt 2; VInt 2; VInt 6; VInt 8]) /\
  the_attr "amrdata" "aux_type" w'
  = Some (VList [VStr "center"; VStr "capacity"; VStr "yleft"; VStr "center";
                 VStr "center"; VStr "center"; VStr "center"; VStr "center";
                 VStr "center"]).
Proof.
  unfold set_amrdata. intros H.
  apply bind_inv in H as (ob & ? & Ho & H). apply getobj_inv in Ho as [-> Ho].
  do 20 exec H Ho.
  apply (setattr_obj _ _ _ _ _ _ _ Ho) in H.
  unfold the_attr, attr, the_object. rewrite H. cbn [mbind option_bind].
  repeat split; norm_lookup; reflexivity.
Qed.

Lemma set_regions_inv w w' :
  set_regions w = (inr tt, w') ->
  exists rg old,
    rundata w !! "regiondata" = Some rg /\
    rg !! "regions" = Some (VList old) /\
    the_attr "regiondata" "regions" w'
    = Some (VList (old ++
        [VList [VInt 1; VInt 6; VFloat (days2seconds (-0.45)); VFloat (days2seconds 0.10);
                VFloat (-74.1); VFloat (-73.7); VFloat 40.55; VFloat 48.5];
         VList [VInt 1; VInt 5; VFloat (days2seconds 0.10); VFloat (days2seconds 1);
                VFloat (-74.2); VFloat (-73.7); VFloat 40.55; VFloat 48.5]])%list).
Proof.
  unfold set_regions. intros H.
  apply bind_inv in H as (v & ? & Hs & H). apply getattr_inv in Hs as (-> & rg & Ho & Hv).
  pose proof Ho as Hinit.
  exec H Ho.
  apply (append_obj _ _ _ _ _ _ _ Ho) in H as (l & Hl & Ho'). norm_lookup_in Hl. clean_eqs.
  eexists _, _. split; [exact Hinit|]. split; [eassumption|].
  unfold the_attr, attr, the_object. rewrite Ho'. cbn [mbind option_bind].
  norm_lookup. now rewrite <- app_assoc.
Qed.

Section BlockProperties.
Context {clawpack : Clawpack}.

Lemma set_topo_data_inv w w' :
  set_topo_data w = (inr tt, w') ->
  the_attr "topo_data" "topofiles" w'
  = Some (VList
      [VList [VInt 3; VInt 1; VInt 3; VFloat (days2seconds (-2)); VFloat (days2seconds 1);
              VStr (os_path_join "../bathy" "atlantic_1min.tt3")];
       VList [VInt 3; VInt 1; VInt 3; VFloat (days2seconds (-2)); VFloat (days2seconds 1);
              VStr (os_path_join "../bathy" "newyork_3s.tt3")];
       VList [VInt 4; VInt 1; VInt 6; VFloat (days2seconds (-0.45));
              VFloat (days2seconds 0.46);
              VStr (os_path_join "../bathy" "nc41x00_74x00.nc")];
       VList [VInt 4; VInt 1; VInt 6; VFloat (days2seconds (-0.45));
              VFloat (days2seconds 0.46);
              VStr (os_path_join "../bathy" "nc40x75_74x00.nc")];
       VList [VInt 4; VInt 1; VInt 6; VFloat (days2seconds (-0.45));
              VFloat (days2seconds 0.46);
              VStr (os_path_join "../bathy" "nc40x50_74x00.nc")];
       VList [VInt 4; VInt 1; VInt 6; VFloat (days2seconds (-0.45));
              VFloat (days2seconds 0.46);
              VStr (os_path_join "../bathy" "nc40x75_73x75.nc")]]).
Proof.
  unfold set_topo_data, append_topofile. cbv zeta. intros H.
  apply bind_inv in H as (ob & ? & Ho & H). apply getobj_inv in Ho as [-> Ho].
  do 6 exec H Ho.
  apply (append_obj _ _ _ _ _ _ _ Ho) in H as (l & Hl & Ho'). norm_lookup_in Hl. clean_eqs.
  unfold the_attr, attr, the_object. rewrite Ho'. cbn [mbind option_bind].
  norm_lookup. reflexivity.
Qed.

Lemma set_friction_data_inv w w' :
  set_friction_data w = (inr tt, w') ->
  exists fd cd lower upper old,
    rundata w !! "friction_data" = Some fd /\
    rundata w !! "clawdata" = Some cd /\
    cd !! "lower" = Some lower /\ cd !! "upper" = Some upper /\
    fd !! "friction_regions" = Some (VList old) /\
    rundata w' !! "friction_data"
    = Some (<["friction_regions" :=
                VList (old ++ [VList [lower; upper;
                                      VList [VInfty false; VFloat 0.0; VInfty true];
                                      VList [VFloat 0.050; VFloat 0.025]]])]>
              (<["variable_friction" := VBool true]> fd)).
Proof.
  unfold set_friction_data. intros H.
  apply bind_inv in H as (fd & ? & Hs & H). apply getobj_inv in Hs as (-> & Hfd).
  apply bind_inv in H as ([] & ? & Hs & H).
  apply setattr_inv in Hs as (ob1 & Hs & ->). rewrite Hfd in Hs. injection Hs as <-.
  apply bind_inv in H as (lower & ? & Hs & H).
  apply getattr_inv in Hs as (-> & cd & Hcd & Hlo).
  apply bind_inv in H as (upper & ? & Hs & H).
  apply getattr_inv in Hs as (-> & cd' & Hcd' & Hup).
  rewrite Hcd in Hcd'. injection Hcd' as <-.
  cbn [rundata set_rundata] in Hcd. rewrite lookup_insert_ne in Hcd by discriminate.
  apply append_inv in H as (ob & old & Hob & Hold & ->).
  cbn [rundata set_rundata] in Hob. rewrite lookup_insert_eq in Hob.
  injection Hob as <-. norm_lookup_in Hold.
  exists fd, cd, lower, upper, old. repeat split; try assumption.
  cbn [rundata set_rundata]. now rewrite lookup_insert_eq.
Qed.

(** The stages of a successful [setrun]. *)
Lemma setrun_stages claw_pkg w rd w' :
  setrun claw_pkg w = (inr rd, w') ->
  exists w1 w2 w3 w4,
    set_clawdata 2 (set_rundata (ClawRunData claw_pkg 2) w) = (inr tt, w1) /\
    set_amrdata w1 = (inr tt, w2) /\
    set_regions w2 = (inr tt, w3) /\
    set_gauges w3 = (inr tt, w4) /\
    setgeo w4 = (inr tt, w') /\
    rd = rundata w'.
Proof.
  intros H. apply setrun_inv in H as (_ & w4 & Hp & Hg & ->).
  apply set_clawpack_parameters_inv in Hp as (w1 & w2 & w3 & H1 & H2 & H3 & H4).
  eauto 10.
Qed.

End BlockProperties.

Section AggregateProperties.
Context {clawpack : Clawpack}.

Ltac framed := solve [ unfold_setrun_blocks; frame_all ].

(** A block that preserves an object preserves each of its attributes. *)
Lemma the_attr_of_object o a w w' :
  the_object o w' = the_object o w -> the_attr o a w' = the_attr o a w.
Proof. unfold the_attr, attr, the_object. now intros ->. Qed.

Lemma setgeo_files w w' :
  setgeo w = (inr tt, w') ->
  the_attr "topo_data" "topofiles" w'
  = Some (VList
      [VList [VInt 3; VInt 1; VInt 3; VFloat (days2seconds (-2)); VFloat (days2seconds 1);
              VStr (os_path_join "../bathy" "atlantic_1min.tt3")];
       VList [VInt 3; VInt 1; VInt 3; VFloat (days2seconds (-2)); VFloat (days2seconds 1);
              VStr (os_path_join "../bathy" "newyork_3s.tt3")];
       VList [VInt 4; VInt 1; VInt 6; VFloat (days2seconds (-0.45));
              VFloat (days2seconds 0.46);
              VStr (os_path_join "../bathy" "nc41x00_74x00.nc")];
       VList [VInt 4; VInt 1; VInt 6; VFloat (days2seconds (-0.45));
              VFloat (days2seconds 0.46);
              VStr (os_path_join "../bathy" "nc40x75_74x00.nc")];
       VList [VInt 4; VInt 1; VInt 6; VFloat (days2seconds (-0.45));
              VFloat (days2seconds 0.46);
              VStr (os_path_join "../bathy" "nc40x50_74x00.nc")];
       VList [VInt 4; VInt 1; VInt 6; VFloat (days2seconds (-0.45));
              VFloat (days2seconds 0.46);
              VStr (os_path_join "../bathy" "nc40x75_73x75.nc")]]) /\
  the_attr "qinit_data" "qinitfiles" w' = Some (VList []) /\
  the_attr "fixed_grid_data" "fixedgrids" w' = Some (VList []).
Proof.
  unfold setgeo. intros H.
  do 18 (let Hs := fresh "Hs" in apply bind_inv in H as (? & ? & Hs & H); clear Hs).
  apply bind_inv in H as ([] & wb & Ht & H). apply set_topo_data_inv in Ht.
  split; [|split].
  - rewrite <- Ht. apply (preserved (the_attr "topo_data" "topofiles") _ _ _ _) in H;
      [exact H | framed].
  - clear Ht. apply bind_inv in H as ([] & ? & _ & H).
    apply bind_inv in H as ([] & wq & Hs & H).
    apply setattr_inv in Hs as (ob & _ & ->).
    apply (preserved (the_attr "qinit_data" "qinitfiles") _ _ _ _) in H; [|framed].
    rewrite H. unfold the_attr, attr. cbn [rundata set_rundata].
    rewrite lookup_insert_eq. cbn [mbind option_bind]. now rewrite lookup_insert_eq.
  - clear Ht. do 2 apply bind_inv in H as ([] & ? & _ & H).
    apply bind_inv in H as ([] & wq & Hs & H).
    apply setattr_inv in Hs as (ob & _ & ->).
    apply (preserved (the_attr "fixed_grid_data" "fixedgrids") _ _ _ _) in H; [|framed].
    rewrite H. unfold the_attr, attr. cbn [rundata set_rundata].
    rewrite lookup_insert_eq. cbn [mbind option_bind]. now rewrite lookup_insert_eq.
Qed.

Lemma setrun_regions claw_pkg w w' rd :
  setrun claw_pkg w = (inr rd, w') ->
  exists old,
    attr (ClawRunData claw_pkg 2) "regiondata" "regions" = Some (VList old) /\
    attr rd "regiondata" "regions"
    = Some (VList (old ++
        [VList [VInt 1; VInt 6; VFloat (days2seconds (-0.45));
                VFloat (days2seconds 0.10);
                VFloat (-74.1); VFloat (-73.7); VFloat 40.55; VFloat 48.5];
         VList [VInt 1; VInt 5; VFloat (days2seconds 0.10); VFloat (days2seconds 1);
                VFloat (-74.2); VFloat (-73.7); VFloat 40.55; VFloat 48.5]])%list).
Proof.
  intros H.
  apply setrun_stages in H as (w1 & w2 & w3 & w4 & H1 & H2 & H3 & H4 & Hg & ->).
  apply set_regions_inv in H3 as (rg & old & Hrg & Hold & Hnew).
  apply (preserved (the_object "regiondata")) in H1; [|framed].
  apply (preserved (the_object "regiondata")) in H2; [|framed].
  apply (preserved (the_object "regiondata")) in H4; [|framed].
  apply (preserved (the_object "regiondata")) in Hg; [|framed].
  exists old. split.
  - unfold the_object in H1, H2. cbn [rundata set_rundata] in H1.
    unfold attr. rewrite <- H1, <- H2, Hrg. exact Hold.
  - rewrite <- Hnew. change (attr (rundata w') "regiondata" "regions")
      with (the_attr "regiondata" "regions" w').
    apply the_attr_of_object. now rewrite Hg, H4.
Qed.

Lemma setrun_files claw_pkg w w' rd :
  setrun claw_pkg w = (inr rd, w') ->
  attr rd "topo_data" "topofiles"
  = Some (VList
      [VList [VInt 3; VInt 1; VInt 3; VFloat (days2seconds (-2)); VFloat (days2seconds 1);
              VStr "../bathy/atlantic_1min.tt3"];
       VList [VInt 3; VInt 1; VInt 3; VFloat (days2seconds (-2)); VFloat (days2seconds 1);
              VStr "../bathy/newyork_3s.tt3"];
       VList [VInt 4; VInt 1; VInt 6; VFloat (days2seconds (-0.45));
              VFloat (days2seconds 0.46); VStr "../bathy/nc41x00_74x00.nc"];
       VList [VInt 4; VInt 1; VInt 6; VFloat (days2seconds (-0.45));
              VFloat (days2seconds 0.46); VStr "../bathy/nc40x75_74x00.nc"];
       VList [VInt 4; VInt 1; VInt 6; VFloat (days2seconds (-0.45));
              VFloat (days2seconds 0.46); VStr "../bathy/nc40x50_74x00.nc"];
       VList [VInt 4; VInt 1; VInt 6; VFloat (days2seconds (-0.45));
              VFloat (days2seconds 0.46); VStr "../bathy/nc40x75_73x75.nc"]]) /\
  attr rd "qinit_data" "qinitfiles" = Some (VList []) /\
  attr rd "fixed_grid_data" "fixedgrids" = Some (VList []).
Proof.
  intros H.
  apply setrun_stages in H as (w1 & w2 & w3 & w4 & H1 & H2 & H3 & H4 & Hg & ->).
  exact (setgeo_files _ _ Hg).
Qed.

(** X6. Regions are appended, file lists are replaced: after a successful
    [setrun] the refinement regions are the ones the constructor held
    followed by the script's two, whereas the topography files are exactly
    the script's six and the initial-condition files and fixed grids are
    empty, whatever the constructor held. *)
Theorem regions_appended_files_replaced
        (claw_pkg : string) (w w' : World) (rd : aggregate) :
  setrun claw_pkg w = (inr rd, w') ->
  (exists old,
      attr (ClawRunData claw_pkg 2) "regiondata" "regions" = Some (VList old) /\
      attr rd "regiondata" "regions"
      = Some (VList (old ++
          [VList [VInt 1; VInt 6; VFloat (days2seconds (-0.45));
                  VFloat (days2seconds 0.10);
                  VFloat (-74.1); VFloat (-73.7); VFloat 40.55; VFloat 48.5];
           VList [VInt 1; VInt 5; VFloat (days2seconds 0.10); VFloat (days2seconds 1);
                  VFloat (-74.2); VFloat (-73.7); VFloat 40.55; VFloat 48.5]])%list)) /\
  attr rd "topo_data" "topofiles"
  = Some (VList
      [VList [VInt 3; VInt 1; VInt 3; VFloat (days2seconds (-2)); VFloat (days2seconds 1);
              VStr "../bathy/atlantic_1min.tt3"];
       VList [VInt 3; VInt 1; VInt 3; VFloat (days2seconds (-2)); VFloat (days2seconds 1);
              VStr "../bathy/newyork_3s.tt3"];
       VList [VInt 4; VInt 1; VInt 6; VFloat (days2seconds (-0.45));
              VFloat (days2seconds 0.46); VStr "../bathy/nc41x00_74x00.nc"];
       VList [VInt 4; VInt 1; VInt 6; VFloat (days2seconds (-0.45));
              VFloat (days2seconds 0.46); VStr "../bathy/nc40x75_74x00.nc"];
       VList [VInt 4; VInt 1; VInt 6; VFloat (days2seconds (-0.45));
              VFloat (days2seconds 0.46); VStr "../bathy/nc40x50_74x00.nc"];
       VList [VInt 4; VInt 1; VInt 6; VFloat (days2seconds (-0.45));
              VFloat (days2seconds 0.46); VStr "../bathy/nc40x75_73x75.nc"]]) /\
  attr rd "qinit_data" "qinitfiles" = Some (VList []) /\
  attr rd "fixed_grid_data" "fixedgrids" = Some (VList []).
Proof.
  intros H.
  split; [exact (setrun_regions _ _ _ _ H) | exact (setrun_files _ _ _ _ H)].
Qed.

(** X7. The friction region is the computational domain: after a successful
    [setrun] the domain runs from [(-88, 15)] to [(-55, 45)], and the
    friction regions are the constructor's followed by one whose corners
    are [clawdata.lower] and [clawdata.upper] themselves, with the depth
    classes and Manning coefficients of the script. *)
Theorem friction_region_spans_domain
        (claw_pkg : string) (w w' : World) (rd : aggregate) :
  setrun claw_pkg w = (inr rd, w') ->
  exists lo up old,
    attr rd "clawdata" "lower" = Some (VList lo) /\
    lo !! 0%nat = Some (VFloat (-88.0)) /\ lo !! 1%nat = Some (VFloat 15.0) /\
    attr rd "clawdata" "upper" = Some (VList up) /\
    up !! 0%nat = Some (VFloat (-55.0)) /\ up !! 1%nat = Some (VFloat 45.0) /\
    attr (ClawRunData claw_pkg 2) "friction_data" "friction_regions" = Some (VList old) /\
    attr rd "friction_data" "friction_regions"
    = Some (VList (old ++ [VList [VList lo; VList up;
                                  VList [VInfty false; VFloat 0.0; VInfty true];
                                  VList [VFloat 0.050; VFloat 0.025]]])) /\
    attr rd "friction_data" "variable_friction" = Some (VBool true).
Proof.
  intros H.
  apply setrun_stages in H as (w1 & w2 & w3 & w4 & H1 & H2 & H3 & H4 & Hg & ->).
  pose (f := fun w => (the_object "friction_data" w, the_object "clawdata" w)).
  destruct (set_clawdata_more _ _ H1)
    as (lo & up & Hlo & Hlo0 & Hlo1 & Hup & Hup0 & Hup1 & _).
  pose proof H1 as F1.
  apply (preserved (the_object "friction_data")) in F1; [|framed].
  apply (preserved f) in H2; [|unfold f; apply preserves_pair; framed].
  apply (preserved f) in H3; [|unfold f; apply preserves_pair; framed].
  apply (preserved f) in H4; [|unfold f; apply preserves_pair; framed].
  pose proof (preserved (the_object "clawdata") _ _ _ _ setgeo_keeps_clawdata Hg) as Hcd.
  apply (setgeo_inv_frame f) in Hg as (w5 & w6 & H5 & H6 & H7);
    [|intros o a v Ho; cbn [In] in Ho; unfold f; apply preserves_pair;
      apply preserves_setattr_object; intuition (subst; discriminate)].
  apply (preserved f) in H6; [|unfold f; apply preserves_pair; framed].
  assert (Hf : f w6 = (the_object "friction_data" (set_rundata (ClawRunData claw_pkg 2) w),
                       the_object "clawdata" w1)).
  { rewrite H6, H5, H4, H3, H2. unfold f. now rewrite F1. }
  apply set_friction_data_inv in H7
    as (fd & cd & lower & upper & old & Hfd & Hcd6 & Hlower & Hupper & Hold & Hnew).
  unfold f, the_object in Hf. cbn [rundata set_rundata] in Hf.
  rewrite Hfd, Hcd6 in Hf. injection Hf as Hf1 Hf2.
  unfold the_attr, attr in Hlo, Hup. rewrite <- Hf2 in Hlo, Hup.
  cbn [mbind option_bind] in Hlo, Hup.
  rewrite Hlower in Hlo. rewrite Hupper in Hup.
  injection Hlo as ->. injection Hup as ->.
  exists lo, up, old.
  unfold the_object in Hcd.
  assert (Hfinal : rundata w' !! "clawdata" = Some cd).
  { rewrite Hcd. unfold f in H4, H3, H2.
    injection H4 as _ E4. injection H3 as _ E3. injection H2 as _ E2.
    unfold the_object in *. now rewrite E4, E3, E2. }
  unfold attr. rewrite Hfinal, Hnew, <- Hf1. cbn [mbind option_bind].
  repeat split; try assumption; norm_lookup; reflexivity.
Qed.

Lemma setrun_keeps_clawdata_and_amrdata claw_pkg w w' rd :
  setrun claw_pkg w = (inr rd, w') ->
  exists w1 w2,
    set_clawdata 2 (set_rundata (ClawRunData claw_pkg 2) w) = (inr tt, w1) /\
    set_amrdata w1 = (inr tt, w2) /\
    rd !! "clawdata" = the_object "clawdata" w1 /\
    rd !! "amrdata" = the_object "amrdata" w2.
Proof.
  intros H.
  apply setrun_stages in H as (w1 & w2 & w3 & w4 & H1 & H2 & H3 & H4 & Hg & ->).
  exists w1, w2. split; [exact H1|]. split; [exact H2|].
  pose (f := fun w => (the_object "clawdata" w, the_object "amrdata" w)).
  pose proof (preserved (the_object "clawdata") _ _ _ _
                (proj1 after_clawdata_keeps_clawdata) H2) as C2.
  apply (preserved f) in H3; [|unfold f; apply preserves_pair; framed].
  apply (preserved f) in H4; [|unfold f; apply preserves_pair; framed].
  apply (preserved f) in Hg; [|unfold f; apply preserves_pair; framed].
  rewrite H4, H3 in Hg. unfold f in Hg. injection Hg as Hc Ha.
  unfold the_object in *. split; congruence.
Qed.

(** X8. The lengths the solver requires agree: in the aggregate a
    successful [setrun] returns there is one limiter per wave family
    ([len(limiter) == num_waves]), and each of the three refinement-ratio
    lists has one entry per level below the finest
    ([amr_levels_max - 1]). *)
Theorem limiters_and_ratios_match_their_counts
        (claw_pkg : string) (w w' : World) (rd : aggregate) :
  setrun claw_pkg w = (inr rd, w') ->
  exists limiter rx ry rt,
    attr rd "clawdata" "limiter" = Some (VList limiter) /\
    attr rd "clawdata" "num_waves" = Some (VInt (Z.of_nat (length limiter))) /\
    attr rd "amrdata" "refinement_ratios_x" = Some (VList rx) /\
    attr rd "amrdata" "refinement_ratios_y" = Some (VList ry) /\
    attr rd "amrdata" "refinement_ratios_t" = Some (VList rt) /\
    attr rd "amrdata" "amr_levels_max" = Some (VInt (Z.of_nat (length rx) + 1)) /\
    length ry = length rx /\ length rt = length rx.
Proof.
  intros H.
  apply setrun_keeps_clawdata_and_amrdata in H as (w1 & w2 & H1 & H2 & Hc & Ha).
  apply set_clawdata_more in H1 as (lo & up & _ & _ & _ & _ & _ & _ & Hw & Hl & _).
  apply set_amrdata_spec in H2 as (Hmax & Hx & Hy & Ht & _).
  unfold the_attr, attr, the_object in *. rewrite Hc, Ha.
  eexists _, _, _, _. repeat split; eassumption.
Qed.

(** X9. The auxiliary-variable types do not match the declared count: the
    script sets [num_aux] to [3 + 1 + 3 = 7] but gives [aux_type] nine
    entries, although it notes that the list must have length maux. *)
Theorem aux_type_longer_than_num_aux
        (claw_pkg : string) (w w' : World) (rd : aggregate) :
  setrun claw_pkg w = (inr rd, w') ->
  exists aux_type num_aux,
    attr rd "amrdata" "aux_type" = Some (VList aux_type) /\
    attr rd "clawdata" "num_aux" = Some (VInt num_aux) /\
    num_aux = 7 /\
    Z.of_nat (length aux_type) = num_aux + 2.
Proof.
  intros H.
  apply setrun_keeps_clawdata_and_amrdata in H as (w1 & w2 & H1 & H2 & Hc & Ha).
  apply set_clawdata_more in H1 as (lo & up & _ & _ & _ & _ & _ & _ & _ & _ & Hn & _).
  apply set_amrdata_spec in H2 as (_ & _ & _ & _ & Haux).
  unfold the_attr, attr, the_object in *. rewrite Hc, Ha.
  eexists _, _. repeat split; try eassumption; reflexivity.
Qed.

(** X10. The branches not taken assign nothing: with [output_style = 1] and
    [checkpt_style = 0] a successful [setrun] leaves [output_times],
    [output_step_interval], [total_steps], [checkpt_times] and
    [checkpt_interval] as the constructor made them, absent if it made
    none. *)
Theorem untaken_branches_assign_nothing
        (claw_pkg : string) (w w' : World) (rd : aggregate) (a : string) :
  setrun claw_pkg w = (inr rd, w') ->
  In a ["output_times"; "output_step_interval"; "total_steps";
        "checkpt_times"; "checkpt_interval"] ->
  attr rd "clawdata" a = attr (ClawRunData claw_pkg 2) "clawdata" a.
Proof.
  intros H Ha.
  apply setrun_keeps_clawdata_and_amrdata in H as (w1 & w2 & H1 & H2 & Hc & _).
  apply set_clawdata_more in H1 as (lo & up & _ & _ & _ & _ & _ & _ & _ & _ & _ & Hkeep).
  specialize (Hkeep a Ha). unfold the_attr, attr, the_object in *.
  now rewrite Hc.
Qed.

(** X11. [setrun] assigns to eleven data objects and to no other: whatever
    else the constructor put into the aggregate is returned as it was. *)
Theorem other_objects_untouched
        (claw_pkg : string) (w w' : World) (rd : aggregate) (o : string) :
  setrun claw_pkg w = (inr rd, w') ->
  ~ In o ["clawdata"; "amrdata"; "regiondata"; "gaugedata"; "geo_data";
          "refinement_data"; "topo_data"; "qinit_data"; "fixed_grid_data";
          "surge_data"; "friction_data"] ->
  rd !! o = ClawRunData claw_pkg 2 !! o.
Proof.
  intros H Ho.
  assert (Hset : forall o' a v,
             In o' ["clawdata"; "amrdata"; "regiondata"; "gaugedata"; "geo_data";
                    "refinement_data"; "topo_data"; "qinit_data"; "fixed_grid_data";
                    "surge_data"; "friction_data"] ->
             preserves (the_object o) (setattr o' a v)).
  { intros o' a v Ho'. apply preserves_setattr_object. now intros ->. }
  apply setrun_stages in H as (w1 & w2 & w3 & w4 & H1 & H2 & H3 & H4 & Hg & ->).
  assert (Hframe : forall A (m : M A) wa wb r,
             m wa = (r, wb) -> preserves (the_object o) m ->
             the_object o wb = the_object o wa).
  { intros A m wa wb r Hm Hp. exact (preserved _ _ _ _ _ Hp Hm). }
  apply Hframe in H1, H2, H3, H4, Hg;
    try solve [ unfold_setrun_blocks;
                repeat first [ apply Hset; cbn [In]; tauto | frame_step ] ].
  unfold the_object in *. cbn [rundata set_rundata] in H1. congruence.
Qed.

(** X12. Every time window the script gives lies within the run: the two
    ocean-scale topography files are active from [t0] to [tfinal], the four
    regional ones strictly inside; the first new region starts after [t0]
    and ends where the second begins, which ends at [tfinal]. *)
Theorem time_windows_within_run (claw_pkg : string) (w w' : World) (rd : aggregate) :
  setrun claw_pkg w = (inr rd, w') ->
  exists t0 tfinal old r1 r2 f1 f2 regional,
    attr rd "clawdata" "t0" = Some (VFloat t0) /\
    attr rd "clawdata" "tfinal" = Some (VFloat tfinal) /\
    attr rd "topo_data" "topofiles" = Some (VList (f1 :: f2 :: regional)) /\
    (exists a b, window 3 f1 = Some (a, b) /\ a == t0 /\ b == tfinal)%Q /\
    (exists a b, window 3 f2 = Some (a, b) /\ a == t0 /\ b == tfinal)%Q /\
    Forall (fun f => exists a b, window 3 f = Some (a, b) /\
                                 t0 < a /\ a < b /\ b < tfinal)%Q regional /\
    attr rd "regiondata" "regions" = Some (VList (old ++ [r1; r2])) /\
    (exists a b c, window 2 r1 = Some (a, b) /\ window 2 r2 = Some (b, c) /\
                   t0 < a /\ a < b /\ b < c /\ c == tfinal)%Q.
Proof.
  intros H.
  destruct (setrun_clawdata _ _ _ _ H) as (Ht0 & Htf & _).
  destruct (setrun_regions _ _ _ _ H) as (old & _ & Hreg).
  destruct (setrun_files _ _ _ _ H) as (Htopo & _).
  eexists _, _, old, _, _, _, _, _.
  split; [exact Ht0|]. split; [exact Htf|]. split; [exact Htopo|].
  split; [|split; [|split; [|split; [exact Hreg|]]]].
  - eexists _, _. split; [reflexivity|]. split; vm_compute; reflexivity.
  - eexists _, _. split; [reflexivity|]. split; vm_compute; reflexivity.
  - repeat constructor;
      (eexists _, _; split; [reflexivity|]; repeat split; vm_compute; reflexivity).
  - eexists _, _, _. split; [reflexivity|]. split; [reflexivity|].
    repeat split; vm_compute; reflexivity.
Qed.

(** X13. What [__main__] serialises names a storm file that exists: when the
    script ends normally, the aggregate it wrote is the last one serialised,
    its [surge_data.storm_file] is present on disk, and so are the
    best-track archive and its unpacked copy. *)
Theorem main_leaves_storm_file (argv : list string) (w w' : World) :
  main argv w = (inr tt, w') ->
  exists rd,
    written w' = (written w ++ [rd])%list /\
    attr rd "surge_data" "storm_file" = Some (VStr storm_path) /\
    is_Some (files w' !! storm_path) /\
    is_Some (files w' !! atcf_path) /\
    is_Some (files w' !! best_track_archive).
Proof.
  rewrite main_setrun. intros H.
  apply bind_inv in H as (rd & w1 & Hrun & H).
  unfold rundata_write, modify in H. injection H as <-.
  destruct (setrun_io _ _ _ _ Hrun)
    as (fs1 & urls & archive & text & trk & _ & Ha & _ & _ & Hsf & Hfiles & _ & _ & Hw).
  assert (Hrd : rd = rundata w1) by (now apply setrun_inv in Hrun as (_ & ? & _ & _ & ->)).
  exists rd. unfold add_written. cbn [written files]. rewrite Hw, Hfiles, <- Hrd.
  split; [reflexivity|]. split; [exact Hsf|].
  rewrite !lookup_insert_is_Some. repeat split.
  - now left.
  - destruct (decide (storm_path = atcf_path)); [now left|right; split; [done|now left]].
  - destruct (decide (storm_path = best_track_archive)); [now left|].
    right. split; [done|].
    destruct (decide (atcf_path = best_track_archive)); [now left|].
    right. split; [done|]. now rewrite Ha.
Qed.

(** ** The populated aggregate *)

Lemma carries_of_object rd o ob assigned :
  rd !! o = Some ob ->
  Forall (fun av => ob !! fst av = Some (snd av)) assigned ->
  carries rd o assigned.
Proof.
  intros Ho H. unfold carries, attr. rewrite Ho. exact H.
Qed.

Ltac read_chain :=
  repeat constructor; cbv beta; cbn [fst snd]; norm_lookup; reflexivity.

Lemma set_clawdata_assigned w w' :
  set_clawdata 2 w = (inr tt, w') ->
  exists cd,
    rundata w' !! "clawdata" = Some cd /\
    Forall (fun av => cd !! fst av = Some (snd av)) clawdata_assigned /\
    Forall (fun e => exists l, cd !! fst (fst e) = Some (VList l) /\
                               l !! snd (fst e) = Some (snd e))
           clawdata_entries.
Proof.
  unfold set_clawdata. intros H.
  apply bind_inv in H as (ob & ? & Ho & H). apply getobj_inv in Ho as [-> Ho].
  do 5 exec H Ho.
  match goal with
  | H1 : ob !! "lower" = Some (VList ?lo), H2 : ob !! "upper" = Some (VList ?up) |- _ =>
      rename lo into lower0; rename up into upper0
  end.
  assert (Hl0 : <[1%nat := VFloat 15.0]> (<[0%nat := VFloat (-88.0)]> lower0) !! 0%nat
                = Some (VFloat (-88.0))).
  { rewrite list_lookup_insert_ne by lia. now apply list_lookup_insert_eq. }
  assert (Hl1 : <[1%nat := VFloat 15.0]> (<[0%nat := VFloat (-88.0)]> lower0) !! 1%nat
                = Some (VFloat 15.0)) by now apply list_lookup_insert_eq.
  assert (Hu0 : <[1%nat := VFloat 45.0]> (<[0%nat := VFloat (-55.0)]> upper0) !! 0%nat
                = Some (VFloat (-55.0))).
  { rewrite list_lookup_insert_ne by lia. now apply list_lookup_insert_eq. }
  assert (Hu1 : <[1%nat := VFloat 45.0]> (<[0%nat := VFloat (-55.0)]> upper0) !! 1%nat
                = Some (VFloat 45.0)) by now apply list_lookup_insert_eq.
  unfold set_num_cells in H. apply bind_inv in H as ([] & ? & Hnc & H).
  apply bind_inv in Hnc as ([] & ? & Hnc0 & Hnc1).
  edestruct (set_num_cells_axis_obj 0) as (c0 & Hc0 & Hlen0 & Ho0);
    [ exact Ho | norm_lookup; reflexivity | norm_lookup; reflexivity
    | exact Hl0 | exact Hu0 | exact num_cells_west_east | exact Hnc0 | ].
  edestruct (set_num_cells_axis_obj 1) as (c1 & Hc1 & Hlen1 & Ho1);
    [ exact Ho0 | norm_lookup; reflexivity | norm_lookup; reflexivity
    | exact Hl1 | exact Hu1 | exact num_cells_south_north | exact Hnc1 | ].
  norm_lookup_in Hc1. clean_eqs. clear Ho Ho0 Hnc0 Hnc1. rename Ho1 into Ho.
  do 7 exec H Ho.
  apply bind_inv in H as ([] & ? & Hout & H).
  eapply set_output_times_obj in Hout;
    [ | exact Ho | norm_lookup; reflexivity | norm_lookup; reflexivity
      | exact num_output_times_three_days ].
  clear Ho. rename Hout into Ho.
  repeat exec H Ho.
  cbn in H. inversion H; subst.
  eexists. split; [exact Ho|]. split; [read_chain|].
  repeat constructor; cbv beta; cbn [fst snd]; eexists;
    (split; [norm_lookup; reflexivity|]);
    rewrite ?list_lookup_insert_ne by lia;
    apply list_lookup_insert_eq; rewrite ?length_insert in *; lia.
Qed.
Lemma set_amrdata_assigned w w' :
  set_amrdata w = (inr tt, w') ->
  exists ad,
    rundata w' !! "amrdata" = Some ad /\
    Forall (fun av => ad !! fst av = Some (snd av)) amrdata_assigned.
Proof.
  unfold set_amrdata. intros H.
  apply bind_inv in H as (ob & ? & Ho & H). apply getobj_inv in Ho as [-> Ho].
  do 20 exec H Ho.
  apply (setattr_obj _ _ _ _ _ _ _ Ho) in H.
  eexists. split; [exact H|]. read_chain.
Qed.

Lemma set_surge_data_assigned w w' :
  set_surge_data w = (inr tt, w') ->
  exists sd,
    rundata w' !! "surge_data" = Some sd /\
    Forall (fun av => sd !! fst av = Some (snd av)) surge_data_assigned.
Proof.
  unfold set_surge_data. intros H.
  apply bind_inv in H as (ob & ? & Ho & H). apply getobj_inv in Ho as [-> Ho].
  do 8 exec H Ho.
  apply (preserved (the_object "surge_data")) in H; [|framed].
  unfold the_object in H. rewrite Ho in H.
  eexists. split; [exact H|]. read_chain.
Qed.

Lemma setgeo_assigned w w' :
  setgeo w = (inr tt, w') ->
  exists geo ref,
    rundata w' !! "geo_data" = Some geo /\
    Forall (fun av => geo !! fst av = Some (snd av)) geo_data_assigned /\
    rundata w' !! "refinement_data" = Some ref /\
    Forall (fun av => ref !! fst av = Some (snd av)) refinement_data_assigned /\
    the_attr "qinit_data" "qinit_type" w' = Some (VInt 0).
Proof.
  unfold setgeo. intros H.
  apply bind_inv in H as (ob & ? & Ho & H). apply get_geo_data_inv in Ho as [-> Ho].
  do 11 exec H Ho.
  pose proof H as Hgeo.
  apply (preserved (the_object "geo_data")) in Hgeo; [|framed].
  unfold the_object in Hgeo. rewrite Ho in Hgeo. clear Ho.
  apply bind_inv in H as (ob' & ? & Ho & H). apply getobj_inv in Ho as [-> Ho].
  do 5 exec H Ho.
  pose proof H as Href.
  apply (preserved (the_object "refinement_data")) in Href; [|framed].
  unfold the_object in Href. rewrite Ho in Href. clear Ho.
  apply bind_inv in H as ([] & ? & _ & H).
  apply bind_inv in H as ([] & wq & Hs & H).
  apply setattr_inv in Hs as (qi & _ & ->).
  apply (preserved (the_attr "qinit_data" "qinit_type")) in H; [|framed].
  eexists _, _. split; [exact Hgeo|]. split; [read_chain|].
  split; [exact Href|]. split; [read_chain|].
  rewrite H. unfold the_attr, attr. cbn [rundata set_rundata].
  rewrite lookup_insert_eq. cbn [mbind option_bind]. now rewrite lookup_insert_eq.
Qed.

Lemma setrun_gauges claw_pkg w rd w' :
  setrun claw_pkg w = (inr rd, w') ->
  extends (ClawRunData claw_pkg 2) rd "gaugedata" "gauges" appended_gauges.
Proof.
  intros H. pose proof (setrun_clawdata _ _ _ _ H) as (Ht0 & Htf & _).
  apply setrun_inv in H as (_ & w4 & Hstd & Hgeo & ->).
  apply set_clawpack_parameters_inv in Hstd as (w1 & w2 & w3 & H1 & H2 & H3 & H4).
  destruct before_gauges_keeps_gaugedata as (Pc & Pa & Pr).
  apply (preserved _ _ _ _ _ Pc) in H1.
  apply (preserved _ _ _ _ _ Pa) in H2.
  apply (preserved _ _ _ _ _ Pr) in H3.
  pose proof (preserved _ _ _ _ _ setgeo_keeps_gaugedata Hgeo) as Hg.
  pose proof (preserved _ _ _ _ _ setgeo_keeps_clawdata Hgeo) as Hc.
  unfold the_object in *. cbn in H1.
  apply set_gauges_inv in H4
    as (cd & gd & t0 & tfinal & l & Hcd & Hgd & Hcdt0 & Hcdtf & Hl & Hcd4 & Hg4).
  unfold attr in Ht0, Htf. rewrite Hc, Hcd4 in Ht0, Htf. cbn in Ht0, Htf.
  rewrite Hcdt0 in Ht0. rewrite Hcdtf in Htf. clean_eqs.
  exists l. unfold attr. split.
  - rewrite <- H1, <- H2, <- H3, Hgd. exact Hl.
  - unfold the_attr, attr in Hg4. now rewrite Hg.
Qed.

Lemma setrun_friction claw_pkg w rd w' :
  setrun claw_pkg w = (inr rd, w') ->
  attr rd "friction_data" "variable_friction" = Some (VBool true) /\
  exists lower upper,
    attr rd "clawdata" "lower" = Some lower /\
    attr rd "clawdata" "upper" = Some upper /\
    extends (ClawRunData claw_pkg 2) rd "friction_data" "friction_regions"
            [friction_region lower upper].
Proof.
  intros H.
  apply setrun_stages in H as (w1 & w2 & w3 & w4 & H1 & H2 & H3 & H4 & Hg & ->).
  pose (f := fun w => (the_object "friction_data" w, the_object "clawdata" w)).
  pose proof H1 as F1.
  apply (preserved (the_object "friction_data")) in F1; [|framed].
  apply (preserved f) in H2; [|unfold f; apply preserves_pair; framed].
  apply (preserved f) in H3; [|unfold f; apply preserves_pair; framed].
  apply (preserved f) in H4; [|unfold f; apply preserves_pair; framed].
  apply (setgeo_inv_frame f) in Hg as (w5 & w6 & H5 & H6 & H7);
    [|intros o a v Ho; cbn [In] in Ho; unfold f; apply preserves_pair;
      apply preserves_setattr_object; intuition (subst; discriminate)].
  apply (preserved f) in H6; [|unfold f; apply preserves_pair; framed].
  assert (Hf : f w6 = (the_object "friction_data" (set_rundata (ClawRunData claw_pkg 2) w),
                       the_object "clawdata" w1)).
  { rewrite H6, H5, H4, H3, H2. unfold f. now rewrite F1. }
  pose proof H7 as Hcd.
  apply (preserved (the_object "clawdata")) in Hcd; [|framed].
  apply set_friction_data_inv in H7
    as (fd & cd & lower & upper & old & Hfd & Hcd6 & Hlower & Hupper & Hold & Hnew).
  unfold f, the_object in Hf. cbn [rundata set_rundata] in Hf.
  rewrite Hfd, Hcd6 in Hf. injection Hf as Hf1 Hf2.
  unfold the_object in Hcd. rewrite Hcd6 in Hcd.
  unfold extends, attr. rewrite Hcd, Hnew, <- Hf1. cbn [mbind option_bind].
  split; [norm_lookup; reflexivity|].
  exists lower, upper. split; [exact Hlower|]. split; [exact Hupper|].
  exists old. split; [exact Hold|]. norm_lookup. reflexivity.
Qed.

(** Every aggregate [setrun] returns is populated. *)
Lemma setrun_populates claw_pkg w rd w' :
  setrun claw_pkg w = (inr rd, w') ->
  populated (ClawRunData claw_pkg 2) rd.
Proof.
  intros H.
  pose proof (setrun_regions _ _ _ _ H) as Hregions.
  pose proof (setrun_gauges _ _ _ _ H) as Hgauges.
  pose proof (setrun_files _ _ _ _ H) as (Htopo & Hqf & Hfg).
  pose proof (setrun_friction _ _ _ _ H) as (Hvf & Hfr).
  destruct (setrun_keeps_clawdata_and_amrdata _ _ _ _ H)
    as (w1 & w2 & H1 & H2 & Hcd & Had).
  apply set_clawdata_assigned in H1 as (cd & Ocd & Acd & Ecd).
  apply set_amrdata_assigned in H2 as (ad & Oad & Aad).
  unfold the_object in Hcd, Had. rewrite Ocd in Hcd. rewrite Oad in Had.
  apply setrun_stages in H as (_ & _ & _ & w4 & _ & _ & _ & _ & Hg & ->).
  destruct (setgeo_assigned _ _ Hg) as (geo & ref & Ogeo & Ageo & Oref & Aref & Hqt).
  apply setgeo_inv in Hg as (w5 & w6 & _ & Hsurge & Hfric).
  apply set_surge_data_assigned in Hsurge as (sd & Osd & Asd).
  apply (preserved _ _ _ _ _ (proj2 set_friction_data_frames)) in Hfric.
  unfold the_object in Hfric. rewrite Osd in Hfric.
  unfold populated.
  split; [exact (carries_of_object _ _ _ _ Hcd Acd)|].
  split.
  { unfold attr. rewrite Hcd. exact Ecd. }
  split; [exact (carries_of_object _ _ _ _ Had Aad)|].
  split; [exact Hregions|].
  split; [exact Hgauges|].
  split; [exact (carries_of_object _ _ _ _ Ogeo Ageo)|].
  split; [exact (carries_of_object _ _ _ _ Oref Aref)|].
  split; [repeat constructor; exact Htopo|].
  split; [repeat constructor; [exact Hqt | exact Hqf]|].
  split; [repeat constructor; exact Hfg|].
  split; [exact (carries_of_object _ _ _ _ Hfric Asd)|].
  split; [repeat constructor; exact Hvf|].
  exact Hfr.
Qed.

(** C8. [__main__] serialises exactly once, after [setrun] has returned:
    while [setrun] runs nothing is written; the aggregate [setrun] returns
    is populated - its eleven objects carry every attribute, indexed entry
    and appended row the script assigns; the one [rundata.write()] records
    that aggregate; and the aggregate held when the script ends is the
    recorded value.  When [setrun] raises, nothing is written at all. *)
Theorem write_once_then_serialize (argv : list string) (w : World) :
  (forall w',
      main argv w = (inr tt, w') ->
      exists rd w1,
        setrun (claw_pkg_of argv) w = (inr rd, w1) /\
        rd = rundata w1 /\
        populated (ClawRunData (claw_pkg_of argv) 2) rd /\
        written w1 = written w /\
        w' = add_written rd w1 /\
        written w' = (written w ++ [rd])%list /\
        rundata w' = rd) /\
  (forall e w', main argv w = (inl e, w') -> written w' = written w).
Proof.
  rewrite main_setrun. pose proof (setrun_keeps_written (claw_pkg_of argv) w) as Hw.
  unfold bind. destruct (setrun (claw_pkg_of argv) w) as [[e|rd] w1] eqn:E;
    cbn in Hw; split; intros; try discriminate.
  - now inversion H; subst.
  - unfold rundata_write, modify in H. inversion H; subst. clear H.
    pose proof (setrun_populates _ _ _ _ E) as Hpop.
    apply setrun_inv in E as (_ & w2 & _ & _ & ->).
    exists (rundata w1), w1. cbn. rewrite Hw. auto 10.
Qed.

End AggregateProperties.

(** * Further properties of [setplot.py] *)

(** ** Colour-bar ticks (lines 66-70) *)

Lemma has_key_set_colorbar_ticks key ticks it :
  has_key key (set_colorbar_ticks ticks it) = has_key key it.
Proof. reflexivity. Qed.

Lemma existsb_map_if {A} (p : A -> bool) (f : A -> A) (l : list A) :
  (forall x, p (f x) = p x) ->
  existsb p (map (fun x => if p x then f x else x) l) = existsb p l.
Proof.
  intros Hf. induction l as [|x l IH]; [reflexivity|]. cbn [map existsb].
  rewrite IH. destruct (p x) eqn:E; [now rewrite Hf, E | now rewrite E].
Qed.

(** X14. [add_custom_colorbar_ticks_to_axes] raises [KeyError] when the axes
    has no item under the name, and then changes nothing; otherwise it sets
    the ticks and the labels of that item and nothing else: the axes keeps
    its attributes, its items their order, names, types, bounds and patch
    edges, and every other item is untouched. *)
Theorem custom_ticks_only_on_named_item
        (axes : ClawPlotAxes) (name : string) (ticks : list Z) (labels : list string) :
  (existsb (has_key name) (plotitems axes) = false ->
   add_custom_colorbar_ticks_to_axes axes name ticks labels = inl (KeyError name)) /\
  (existsb (has_key name) (plotitems axes) = true ->
   exists axes',
     add_custom_colorbar_ticks_to_axes axes name ticks labels = inr axes' /\
     title axes' = title axes /\ xlimits axes' = xlimits axes /\
     ylimits axes' = ylimits axes /\ afteraxes axes' = afteraxes axes /\
     scaled axes' = scaled axes /\
     length (plotitems axes') = length (plotitems axes) /\
     forall i it,
       plotitems axes !! i = Some it ->
       exists it',
         plotitems axes' !! i = Some it' /\
         item_name it' = item_name it /\ plot_type it' = plot_type it /\
         bounds it' = bounds it /\ amr_patchedges_show it' = amr_patchedges_show it /\
         if has_key name it
         then colorbar_ticks it' = Some ticks /\ colorbar_tick_labels it' = Some labels
         else it' = it).
Proof.
  unfold add_custom_colorbar_ticks_to_axes, update_item. split; intros Hkey.
  - now rewrite Hkey.
  - rewrite Hkey. cbn [mbind exn_bind set_plotitems plotitems].
    rewrite existsb_map_if, Hkey by reflexivity.
    eexists. split; [reflexivity|]. cbn [title xlimits ylimits afteraxes scaled plotitems set_plotitems].
    repeat split.
    + now rewrite !length_map.
    + intros i it Hit. rewrite !list_lookup_fmap, Hit. cbn [fmap option_fmap option_map].
      eexists. split; [reflexivity|].
      destruct (has_key name it) eqn:E;
        rewrite ?has_key_set_colorbar_ticks, ?E; repeat split.
Qed.

(** ** The plot specification as a function of what is read *)

Lemma regions_inv_bounds clawdata regs :
  regions clawdata = inr regs ->
  exists lo up lower0 upper0 lower1 upper1,
    clawdata !! "lower" = Some (VList lo) /\ clawdata !! "upper" = Some (VList up) /\
    lo !! 0%nat = Some lower0 /\ lo !! 1%nat = Some lower1 /\
    up !! 0%nat = Some upper0 /\ up !! 1%nat = Some upper1 /\
    regs = regions_of lower0 upper0 lower1 upper1.
Proof.
  unfold regions, obj_attr, list_item. intros H.
  destruct (clawdata !! "lower") as [[| | | | | |lo]|] eqn:Hlo; try discriminate.
  cbn [mbind exn_bind] in H.
  destruct (lo !! 0%nat) as [l0|] eqn:Hl0; [|discriminate]. cbn [mbind exn_bind] in H.
  destruct (clawdata !! "upper") as [[| | | | | |up]|] eqn:Hup; try discriminate.
  cbn [mbind exn_bind] in H.
  destruct (up !! 0%nat) as [u0|] eqn:Hu0; [|discriminate]. cbn [mbind exn_bind] in H.
  destruct (lo !! 1%nat) as [l1|] eqn:Hl1; [|discriminate]. cbn [mbind exn_bind] in H.
  destruct (up !! 1%nat) as [u1|] eqn:Hu1; [|discriminate]. cbn [mbind exn_bind] in H.
  injection H as <-. exists lo, up, l0, u0, l1, u1. auto 10.
Qed.

Lemma regions_run clawdata lo up lower0 upper0 lower1 upper1 :
  clawdata !! "lower" = Some (VList lo) -> clawdata !! "upper" = Some (VList up) ->
  lo !! 0%nat = Some lower0 -> lo !! 1%nat = Some lower1 ->
  up !! 0%nat = Some upper0 -> up !! 1%nat = Some upper1 ->
  regions clawdata = inr (regions_of lower0 upper0 lower1 upper1).
Proof.
  intros Hlo Hup Hl0 Hl1 Hu0 Hu1. unfold regions, obj_attr, list_item.
  rewrite Hlo. cbn [mbind exn_bind]. rewrite Hl0. cbn [mbind exn_bind].
  rewrite Hup. cbn [mbind exn_bind]. rewrite Hu0. cbn [mbind exn_bind].
  rewrite Hl1. cbn [mbind exn_bind]. rewrite Hu1. reflexivity.
Qed.

Lemma forcing_figure_defined name axes_title flag add_field l0 u0 l1 u1 :
  forcing_figure name axes_title flag add_field (regions_of l0 u0 l1 u1)
  = inr (result_or gauge_figure
           (forcing_figure name axes_title flag add_field (regions_of l0 u0 l1 u1))).
Proof. reflexivity. Qed.

Lemma gauge_location_figure_defined sl :
  gauge_location_figure sl = inr (result_or gauge_figure (gauge_location_figure sl)).
Proof. reflexivity. Qed.

Lemma exn_bind_inr {A B} (a : A) (k : A -> exn + B) : inr a ≫= k = k a.
Proof. reflexivity. Qed.

Section PlotProperties.
Context {readers : Readers}.

(** What [setplot] computes once the reads and lookups have succeeded. *)
Lemma setplot_run plotdata clawdata physics surge friction track
      v sea lo up lower0 upper0 lower1 upper1 pressure wind :
  read_claw_data (os_path_join (outdir (given_or_new plotdata)) "claw.data") = inr clawdata ->
  read_geoclaw_data (os_path_join (outdir (given_or_new plotdata)) "geoclaw.data") = inr physics ->
  read_surge_data (os_path_join (outdir (given_or_new plotdata)) "surge.data") = inr surge ->
  read_friction_data (os_path_join (outdir (given_or_new plotdata)) "friction.data") = inr friction ->
  track_data (os_path_join (outdir (given_or_new plotdata)) "fort.track") = inr track ->
  physics !! "sea_level" = Some v -> number_of v = inr sea ->
  clawdata !! "lower" = Some (VList lo) -> clawdata !! "upper" = Some (VList up) ->
  lo !! 0%nat = Some lower0 -> lo !! 1%nat = Some lower1 ->
  up !! 0%nat = Some upper0 -> up !! 1%nat = Some upper1 ->
  surge !! "pressure_forcing" = Some pressure ->
  surge !! "wind_forcing" = Some wind ->
  setplot plotdata
  = inr (set_hardcopy
           (mkPlotData (outdir (given_or_new plotdata))
                       (figures_of lower0 upper0 lower1 upper1 sea pressure wind)
                       (<["format" := VStr "binary"]> (attrs (given_or_new plotdata))))).
Proof.
  intros Hc Hp Hs Hf Ht Hv Hsea Hlo Hup Hl0 Hl1 Hu0 Hu1 Hpf Hwf.
  unfold setplot. cbv zeta.
  change (outdir (set_plotdata_attr "format" (VStr "binary")
                    (clearfigures (given_or_new plotdata))))
    with (outdir (given_or_new plotdata)).
  rewrite Hc, exn_bind_inr, Hp, exn_bind_inr, Hs, exn_bind_inr, Hf, exn_bind_inr.
  rewrite Ht, exn_bind_inr.
  unfold obj_attr. rewrite Hv, exn_bind_inr, Hsea, exn_bind_inr.
  rewrite (regions_run _ _ _ _ _ _ _ Hlo Hup Hl0 Hl1 Hu0 Hu1), exn_bind_inr.
  rewrite for_each_region_body, exn_bind_inr.
  rewrite Hpf, exn_bind_inr.
  rewrite (forcing_figure_defined "Pressure"), exn_bind_inr.
  rewrite Hwf, exn_bind_inr.
  rewrite (forcing_figure_defined "Wind Speed"), exn_bind_inr.
  rewrite gauge_location_figure_defined, exn_bind_inr.
  unfold mret, exn_ret, register_figure, figures_of, set_plotdata_attr, clearfigures.
  cbn [figures outdir attrs app]. rewrite <- !app_assoc. reflexivity.
Qed.


Lemma setplot_inv_full plotdata pd :
  setplot plotdata = inr pd ->
  exists clawdata physics surge friction track
         v sea lo up lower0 upper0 lower1 upper1 pressure wind,
    read_claw_data (os_path_join (outdir (given_or_new plotdata)) "claw.data") = inr clawdata /\
    read_geoclaw_data (os_path_join (outdir (given_or_new plotdata)) "geoclaw.data") = inr physics /\
    read_surge_data (os_path_join (outdir (given_or_new plotdata)) "surge.data") = inr surge /\
    read_friction_data (os_path_join (outdir (given_or_new plotdata)) "friction.data") = inr friction /\
    track_data (os_path_join (outdir (given_or_new plotdata)) "fort.track") = inr track /\
    physics !! "sea_level" = Some v /\ number_of v = inr sea /\
    clawdata !! "lower" = Some (VList lo) /\ clawdata !! "upper" = Some (VList up) /\
    lo !! 0%nat = Some lower0 /\ lo !! 1%nat = Some lower1 /\
    up !! 0%nat = Some upper0 /\ up !! 1%nat = Some upper1 /\
    surge !! "pressure_forcing" = Some pressure /\
    surge !! "wind_forcing" = Some wind /\
    pd = set_hardcopy
           (mkPlotData (outdir (given_or_new plotdata))
                       (figures_of lower0 upper0 lower1 upper1 sea pressure wind)
                       (<["format" := VStr "binary"]> (attrs (given_or_new plotdata)))).
Proof.
  intros H. pose proof H as Hrun. unfold setplot in H. cbv zeta in H.
  change (outdir (set_plotdata_attr "format" (VStr "binary")
                    (clearfigures (given_or_new plotdata))))
    with (outdir (given_or_new plotdata)) in H.
  apply exn_bind_inv in H as (clawdata & Hc & H).
  apply exn_bind_inv in H as (physics & Hp & H).
  apply exn_bind_inv in H as (surge & Hs & H).
  apply exn_bind_inv in H as (friction & Hf & H).
  apply exn_bind_inv in H as (track & Ht & H).
  apply exn_bind_inv in H as (v & Hv & H).
  apply exn_bind_inv in H as (sea & Hsea & H).
  apply exn_bind_inv in H as (regs & Hregs & H).
  rewrite for_each_region_body in H. cbn [mbind exn_bind] in H.
  apply exn_bind_inv in H as (pf & Hpf & H).
  apply exn_bind_inv in H as (fp & _ & H).
  apply exn_bind_inv in H as (wf & Hwf & _).
  unfold obj_attr in Hv, Hpf, Hwf.
  destruct (physics !! "sea_level") as [v'|] eqn:Ev; inversion Hv; subst v'.
  destruct (surge !! "pressure_forcing") as [pf'|] eqn:Epf; inversion Hpf; subst pf'.
  destruct (surge !! "wind_forcing") as [wf'|] eqn:Ewf; inversion Hwf; subst wf'.
  apply regions_inv_bounds in Hregs
    as (lo & up & l0 & u0 & l1 & u1 & Hlo & Hup & Hl0 & Hl1 & Hu0 & Hu1 & _).
  exists clawdata, physics, surge, friction, track, v, sea, lo, up, l0, u0, l1, u1, pf, wf.
  repeat (split; [assumption|]).
  rewrite (setplot_run _ _ _ _ _ _ _ _ _ _ _ _ _ _ _ _
             Hc Hp Hs Hf Ht Ev Hsea Hlo Hup Hl0 Hl1 Hu0 Hu1 Epf Ewf) in Hrun.
  now injection Hrun as <-.
Qed.


Lemma attrs_set_plotdata_attr a v pd :
  attrs (set_plotdata_attr a v pd) = <[a := v]> (attrs pd).
Proof. reflexivity. Qed.

Lemma set_hardcopy_attrs pd :
  attrs (set_hardcopy pd)
  = <["parallel" := VBool true]>
      (<["latex_makepdf" := VBool false]>
         (<["latex_framesperline" := VInt 1]>
            (<["latex_figsperline" := VInt 2]>
               (<["latex" := VBool true]>
                  (<["html" := VBool true]>
                     (<["print_fignos" := VStr "all"]>
                        (<["print_gaugenos" := VList [VInt 1; VInt 2]]>
                           (<["print_framenos" := VStr "all"]>
                              (<["print_format" := VStr "png"]>
                                 (<["printfigs" := VBool true]> (attrs pd))))))))))).
Proof.
  unfold set_hardcopy. cbv zeta. now rewrite !attrs_set_plotdata_attr.
Qed.

Lemma set_hardcopy_figures pd : figures (set_hardcopy pd) = figures pd.
Proof. reflexivity. Qed.

Lemma set_hardcopy_outdir pd : outdir (set_hardcopy pd) = outdir pd.
Proof. reflexivity. Qed.

Lemma plotdata_eq (a b : ClawPlotData) :
  outdir a = outdir b -> figures a = figures b -> attrs a = attrs b -> a = b.
Proof. destruct a, b. cbn. congruence. Qed.

Lemma hardcopy_attrs_idempotent out figs (m : obj) :
  set_hardcopy
    (mkPlotData out figs
       (<["format" := VStr "binary"]>
          (attrs (set_hardcopy (mkPlotData out figs (<["format" := VStr "binary"]> m))))))
  = set_hardcopy (mkPlotData out figs (<["format" := VStr "binary"]> m)).
Proof.
  apply plotdata_eq; rewrite ?set_hardcopy_outdir, ?set_hardcopy_figures; try reflexivity.
  rewrite !set_hardcopy_attrs. cbn [attrs].
  do 12 (rewrite insert_id by (norm_lookup; reflexivity)). reflexivity.
Qed.

(** X16. [setplot] clears what it is given and reaches a fixed point: the
    figures already held by the plot data passed in do not matter, and
    running [setplot] again on the plot data it has filled in, with the
    same files, leaves that plot data as it is. *)
Theorem setplot_discards_old_figures (plotdata : option ClawPlotData)
        (pd : ClawPlotData) :
  setplot plotdata = inr pd ->
  (forall old, setplot (Some (mkPlotData (outdir pd) old (attrs pd))) = inr pd) /\
  setplot (Some pd) = inr pd.
Proof.
  intros H.
  assert (Hold : forall old,
             setplot (Some (mkPlotData (outdir pd) old (attrs pd))) = inr pd).
  { intros old.
    apply setplot_inv_full in H
      as (clawdata & physics & surge & friction & track & v & sea & lo & up
          & l0 & u0 & l1 & u1 & pf & wf
          & Hc & Hp & Hs & Hf & Ht & Hv & Hsea & Hlo & Hup & Hl0 & Hl1 & Hu0 & Hu1
          & Hpf & Hwf & ->).
    rewrite set_hardcopy_outdir. cbn [outdir].
    rewrite (setplot_run (Some (mkPlotData (outdir (given_or_new plotdata)) old _))
               clawdata physics surge friction track v sea lo up l0 u0 l1 u1 pf wf
               Hc Hp Hs Hf Ht Hv Hsea Hlo Hup Hl0 Hl1 Hu0 Hu1 Hpf Hwf).
    f_equal. cbn [given_or_new outdir attrs].
    apply hardcopy_attrs_idempotent. }
  split; [exact Hold|]. specialize (Hold (figures pd)). now destruct pd.
Qed.

(** X17. [setplot] registers twelve figures, in this order and under
    pairwise distinct names; only the per-gauge figure fixes its number
    (300) and its type, every other one leaves them to the library. *)
Theorem twelve_figures_distinct_names (plotdata : option ClawPlotData)
        (pd : ClawPlotData) :
  setplot plotdata = inr pd ->
  map fig_name (figures pd)
  = ["Surface - Coast"; "Currents - Coast";
     "Surface - Zhapo Station"; "Currents - Zhapo Station";
     "Surface - Landfall"; "Currents - Landfall";
     "Surface - Quarry Bay"; "Currents - Quarry Bay";
     "Pressure"; "Wind Speed"; "Gauge Surfaces"; "Gauge Locations"] /\
  NoDup (map fig_name (figures pd)) /\
  (forall f, In f (figures pd) ->
             if String.eqb (fig_name f) "Gauge Surfaces"
             then figno f = Some 300 /\ fig_type f = Some "each_gauge"
             else figno f = None /\ fig_type f = None).
Proof.
  intros H.
  apply setplot_inv_full in H
    as (clawdata & physics & surge & friction & track & v & sea & lo & up
        & l0 & u0 & l1 & u1 & pf & wf & _ & _ & _ & _ & _ & _ & _ & _ & _ & _ & _ & _ & _
        & _ & _ & ->).
  rewrite set_hardcopy_figures. cbn [figures].
  assert (Hnames : map fig_name (figures_of l0 u0 l1 u1 sea pf wf)
                   = ["Surface - Coast"; "Currents - Coast";
                      "Surface - Zhapo Station"; "Currents - Zhapo Station";
                      "Surface - Landfall"; "Currents - Landfall";
                      "Surface - Quarry Bay"; "Currents - Quarry Bay";
                      "Pressure"; "Wind Speed"; "Gauge Surfaces"; "Gauge Locations"])
    by reflexivity.
  split; [exact Hnames|]. split.
  - rewrite Hnames.
    repeat (apply NoDup_cons; split;
            [rewrite ?not_elem_of_cons; repeat split;
             first [discriminate | apply not_elem_of_nil]|]).
    apply NoDup_nil_2.
  - intros f Hf. unfold figures_of, regions_of in Hf. cbn [flat_map app] in Hf.
    rewrite !region_figures_eq in Hf. cbn [app In] in Hf.
    repeat (destruct Hf as [<-|Hf]; [split; reflexivity|]). destruct Hf.
Qed.

Ltac each_figure Hf :=
  unfold figures_of, regions_of in Hf; cbn [flat_map app] in Hf;
  rewrite !region_figures_eq in Hf; cbn [app In] in Hf.

(** X18. The domain read from claw.data reaches four figures: the axes of
    'Surface - Coast', 'Currents - Coast', 'Pressure' and 'Wind Speed' all
    span [lower[0] .. upper[0]] by [lower[1] .. upper[1]]. *)
Theorem coast_figures_span_domain (plotdata : option ClawPlotData)
        (pd : ClawPlotData) :
  setplot plotdata = inr pd ->
  exists clawdata lo up lower0 upper0 lower1 upper1,
    read_claw_data (os_path_join (outdir (given_or_new plotdata)) "claw.data")
    = inr clawdata /\
    clawdata !! "lower" = Some (VList lo) /\ clawdata !! "upper" = Some (VList up) /\
    lo !! 0%nat = Some lower0 /\ lo !! 1%nat = Some lower1 /\
    up !! 0%nat = Some upper0 /\ up !! 1%nat = Some upper1 /\
    forall f,
      In f (figures pd) ->
      In (fig_name f) ["Surface - Coast"; "Currents - Coast"; "Pressure"; "Wind Speed"] ->
      exists ax,
        plotaxes_list f = [ax] /\
        xlimits ax = Some (lower0, upper0) /\ ylimits ax = Some (lower1, upper1).
Proof.
  intros H.
  apply setplot_inv_full in H
    as (clawdata & physics & surge & friction & track & v & sea & lo & up
        & l0 & u0 & l1 & u1 & pf & wf
        & Hc & _ & _ & _ & _ & _ & _ & Hlo & Hup & Hl0 & Hl1 & Hu0 & Hu1 & _ & _ & ->).
  exists clawdata, lo, up, l0, u0, l1, u1. repeat (split; [assumption|]).
  rewrite set_hardcopy_figures. cbn [figures].
  intros f Hf Hname. each_figure Hf.
  repeat (destruct Hf as [<-|Hf];
          [first [ solve [eexists; repeat split; reflexivity]
                 | exfalso; cbn in Hname; intuition discriminate ]|]).
  try destruct Hf.
Qed.


(** X20. [setplot] keeps the output directory and every attribute of the
    plot data it does not assign: only [format] and the eleven hardcopy
    parameters change. *)
Theorem setplot_keeps_other_attributes (plotdata : option ClawPlotData)
        (pd : ClawPlotData) (k : string) :
  setplot plotdata = inr pd ->
  ~ In k ["format"; "printfigs"; "print_format"; "print_framenos"; "print_gaugenos";
          "print_fignos"; "html"; "latex"; "latex_figsperline"; "latex_framesperline";
          "latex_makepdf"; "parallel"] ->
  outdir pd = outdir (given_or_new plotdata) /\
  attrs pd !! k = attrs (given_or_new plotdata) !! k /\
  attrs pd !! "format" = Some (VStr "binary").
Proof.
  intros H Hk.
  apply setplot_inv_full in H
    as (clawdata & physics & surge & friction & track & v & sea & lo & up
        & l0 & u0 & l1 & u1 & pf & wf & _ & _ & _ & _ & _ & _ & _ & _ & _ & _ & _ & _ & _
        & _ & _ & ->).
  split; [now rewrite set_hardcopy_outdir|].
  rewrite set_hardcopy_attrs. cbn [attrs]. split.
  - rewrite !lookup_insert_ne; [reflexivity|..];
      intros <-; apply Hk; cbn [In]; tauto.
  - norm_lookup. reflexivity.
Qed.


(** X21. The five data files are read first and in a fixed order,
    claw.data, geoclaw.data, surge.data, friction.data, fort.track: the
    first read that fails is what [setplot] raises, whatever the later
    files and the contents of the earlier ones are. *)
Theorem first_failing_read_is_raised (plotdata : option ClawPlotData) (e : exn) :
  (read_claw_data (os_path_join (outdir (given_or_new plotdata)) "claw.data") = inl e ->
   setplot plotdata = inl e) /\
  (forall clawdata,
      read_claw_data (os_path_join (outdir (given_or_new plotdata)) "claw.data")
      = inr clawdata ->
      (read_geoclaw_data (os_path_join (outdir (given_or_new plotdata)) "geoclaw.data")
       = inl e ->
       setplot plotdata = inl e) /\
      (forall physics,
          read_geoclaw_data
            (os_path_join (outdir (given_or_new plotdata)) "geoclaw.data")
          = inr physics ->
          (read_surge_data (os_path_join (outdir (given_or_new plotdata)) "surge.data")
           = inl e ->
           setplot plotdata = inl e) /\
          (forall surge,
              read_surge_data
                (os_path_join (outdir (given_or_new plotdata)) "surge.data")
              = inr surge ->
              (read_friction_data
                 (os_path_join (outdir (given_or_new plotdata)) "friction.data")
               = inl e ->
               setplot plotdata = inl e) /\
              (forall friction,
                  read_friction_data
                    (os_path_join (outdir (given_or_new plotdata)) "friction.data")
                  = inr friction ->
                  track_data (os_path_join (outdir (given_or_new plotdata)) "fort.track")
                  = inl e ->
                  setplot plotdata = inl e)))).
Proof.
  unfold setplot. cbv zeta.
  change (outdir (set_plotdata_attr "format" (VStr "binary")
                    (clearfigures (given_or_new plotdata))))
    with (outdir (given_or_new plotdata)).
  split; [now intros ->|]. intros clawdata ->. rewrite exn_bind_inr.
  split; [now intros ->|]. intros physics ->. rewrite exn_bind_inr.
  split; [now intros ->|]. intros surge ->. rewrite exn_bind_inr.
  split; [now intros ->|]. intros friction ->. rewrite exn_bind_inr.
  now intros ->.
Qed.

(** X22. With the five files read, an attribute that the script needs and
    that the object handed back by a reader does not carry is reported in
    the order the script looks: a physics object without [sea_level] raises
    [AttributeError] before the domain is looked at; domain bounds with
    fewer than two entries raise [IndexError]; a surge object without
    [pressure_forcing], and then one without [wind_forcing], raises
    [AttributeError]. *)
Theorem missing_data_is_reported_in_order (plotdata : option ClawPlotData)
        (clawdata physics surge friction : obj) (track : list value) :
  read_claw_data (os_path_join (outdir (given_or_new plotdata)) "claw.data")
  = inr clawdata ->
  read_geoclaw_data (os_path_join (outdir (given_or_new plotdata)) "geoclaw.data")
  = inr physics ->
  read_surge_data (os_path_join (outdir (given_or_new plotdata)) "surge.data")
  = inr surge ->
  read_friction_data (os_path_join (outdir (given_or_new plotdata)) "friction.data")
  = inr friction ->
  track_data (os_path_join (outdir (given_or_new plotdata)) "fort.track") = inr track ->
  (physics !! "sea_level" = None ->
   setplot plotdata = inl (AttributeError "sea_level")) /\
  (forall v sea,
      physics !! "sea_level" = Some v -> number_of v = inr sea ->
      (forall lo up,
          clawdata !! "lower" = Some (VList lo) ->
          clawdata !! "upper" = Some (VList up) ->
          (length lo < 2 \/ length up < 2)%nat ->
          setplot plotdata = inl (IndexError "list index out of range")) /\
      (forall regs,
          regions clawdata = inr regs ->
          (surge !! "pressure_forcing" = None ->
           setplot plotdata = inl (AttributeError "pressure_forcing")) /\
          (is_Some (surge !! "pressure_forcing") ->
           surge !! "wind_forcing" = None ->
           setplot plotdata = inl (AttributeError "wind_forcing")))).
Proof.
  intros Hc Hp Hs Hf Ht. unfold setplot. cbv zeta.
  change (outdir (set_plotdata_attr "format" (VStr "binary")
                    (clearfigures (given_or_new plotdata))))
    with (outdir (given_or_new plotdata)).
  rewrite Hc, exn_bind_inr, Hp, exn_bind_inr, Hs, exn_bind_inr, Hf, exn_bind_inr.
  rewrite Ht, exn_bind_inr. unfold obj_attr.
  split; [now intros ->|].
  intros v sea -> Hsea. rewrite exn_bind_inr, Hsea, exn_bind_inr.
  split.
  - intros lo up Hlo Hup Hlen.
    assert (Hregs : regions clawdata = inl (IndexError "list index out of range")).
    { unfold regions, obj_attr, list_item. rewrite Hlo, exn_bind_inr.
      destruct lo as [|l0 [|l1 lo']], up as [|u0 [|u1 up']];
        cbn [length] in Hlen; try lia; cbn; rewrite ?Hup; reflexivity. }
    now rewrite Hregs.
  - intros regs Hregs. rewrite Hregs, exn_bind_inr.
    rewrite for_each_region_body, exn_bind_inr.
    apply regions_inv_bounds in Hregs
      as (lo & up & l0 & u0 & l1 & u1 & _ & _ & _ & _ & _ & _ & ->).
    split.
    + now intros ->.
    + intros [pf ->] Hwf. rewrite exn_bind_inr.
      rewrite (forcing_figure_defined "Pressure"), exn_bind_inr.
      now rewrite Hwf.
Qed.

End PlotProperties.

Lemma setplot_fails_at_friction {readers : Readers} plotdata clawdata physics surge e :
  read_claw_data (os_path_join (outdir (given_or_new plotdata)) "claw.data")
  = inr clawdata ->
  read_geoclaw_data (os_path_join (outdir (given_or_new plotdata)) "geoclaw.data")
  = inr physics ->
  read_surge_data (os_path_join (outdir (given_or_new plotdata)) "surge.data")
  = inr surge ->
  read_friction_data (os_path_join (outdir (given_or_new plotdata)) "friction.data")
  = inl e ->
  setplot plotdata = inl e.
Proof.
  intros Hc Hp Hs Hf. unfold setplot. cbv zeta.
  change (outdir (set_plotdata_attr "format" (VStr "binary")
                    (clearfigures (given_or_new plotdata))))
    with (outdir (given_or_new plotdata)).
  now rewrite Hc, exn_bind_inr, Hp, exn_bind_inr, Hs, exn_bind_inr, Hf.
Qed.

(** X23. friction.data is required but not used: [setplot] reads it, so a
    failing read is raised, yet no content it may have changes the
    result. *)
Theorem friction_data_required_but_unused {readers : Readers}
        (plotdata : option ClawPlotData) (pd : ClawPlotData)
        (other : string -> exn + obj) :
  setplot plotdata = inr pd ->
  let readers' := {| ClawPlotData_new := ClawPlotData_new;
                     read_claw_data := read_claw_data;
                     read_geoclaw_data := read_geoclaw_data;
                     read_surge_data := read_surge_data;
                     read_friction_data := other;
                     track_data := track_data |} in
  match other (os_path_join (outdir (given_or_new plotdata)) "friction.data") with
  | inr _ => @setplot readers' plotdata = inr pd
  | inl e => @setplot readers' plotdata = inl e
  end.
Proof.
  intros H readers'.
  apply setplot_inv_full in H
    as (clawdata & physics & surge & friction & track & v & sea & lo & up
        & l0 & u0 & l1 & u1 & pf & wf
        & Hc & Hp & Hs & Hf & Ht & Hv & Hsea & Hlo & Hup & Hl0 & Hl1 & Hu0 & Hu1
        & Hpf & Hwf & ->).
  destruct (other _) as [e|friction'] eqn:Ho.
  - apply (@setplot_fails_at_friction readers' plotdata clawdata physics surge e);
      assumption.
  - apply (@setplot_run readers' plotdata clawdata physics surge friction' track
             v sea lo up l0 u0 l1 u1 pf wf); assumption.
Qed.

(** * When [setrun] returns *)

Lemma bind_assoc {A B C} (m : M A) (f : A -> M B) (k : B -> M C) w :
  bind (bind m f) k w = bind m (fun x => bind (f x) k) w.
Proof. unfold bind. destruct (m w) as [[e|a] w1]; reflexivity. Qed.

Lemma get_geo_data_run w ob :
  rundata w !! "geo_data" = Some ob -> get_geo_data w = (inr ob, w).
Proof. intros H. unfold get_geo_data, try_except, getobj. now rewrite H. Qed.

Lemma bind_lift {A B} (r : exn + A) (a : A) (k : A -> M B) w :
  r = inr a -> bind (lift r) k w = k a w.
Proof. now intros ->. Qed.

(** Forward execution from a world written out as a record: each step
    finds the object in the aggregate, runs the statement and normalises the
    world. *)
Ltac find_object :=
  cbn [rundata]; norm_lookup; first [reflexivity | eassumption].
Ltac find_attr := norm_lookup; first [reflexivity | eassumption].
Ltac settle :=
  unfold set_rundata, set_files, add_fetched;
  cbn [rundata files fetched stdout written];
  rewrite ?insert_insert_eq.

Ltac run_step :=
  try (progress change (eq_int (VInt 1) 1) with true; cbv iota);
  try (progress change (eq_int (VInt 0) 0) with true; cbv iota);
  rewrite ?bind_assoc;
  lazymatch goal with
  | |- bind (ret _) _ _ = _ => rewrite bind_ret
  | |- bind (getobj ?o) ?k ?W = _ =>
      let Ho := fresh "Ho" in
      eassert (Ho : rundata W !! o = Some _) by find_object;
      rewrite (bind_run _ _ _ _ _ (getobj_run W o _ Ho)); clear Ho
  | |- bind (setattr ?o ?a ?v) ?k ?W = _ =>
      let Ho := fresh "Ho" in
      eassert (Ho : rundata W !! o = Some _) by find_object;
      rewrite (bind_run _ _ _ _ _ (setattr_run W o a v _ Ho)); clear Ho; settle
  | |- bind (getattr ?o ?a) ?k ?W = _ =>
      let Ho := fresh "Ho" in
      let Ha := fresh "Ha" in
      eassert (Ho : rundata W !! o = Some _) by find_object;
      match type of Ho with
      | _ = Some ?ob =>
          eassert (Ha : ob !! a = Some _) by find_attr;
          rewrite (bind_run _ _ _ _ _ (getattr_run W o a ob _ Ho Ha)); clear Ho Ha
      end
  | |- bind (getitem ?o ?a ?i) ?k ?W = _ =>
      let Ho := fresh "Ho" in
      let Ha := fresh "Ha" in
      eassert (Ho : rundata W !! o = Some _) by find_object;
      match type of Ho with
      | _ = Some ?ob =>
          eassert (Ha : ob !! a = Some (VList _)) by find_attr;
          match type of Ha with
          | _ = Some (VList ?l) =>
              rewrite (bind_run _ _ _ _ _
                         (getitem_run W o a ob l i _ Ho Ha eq_refl)); clear Ho Ha
          end
      end
  | |- bind (setitem ?o ?a ?i ?x) ?k ?W = _ =>
      let Ho := fresh "Ho" in
      let Ha := fresh "Ha" in
      let Hi := fresh "Hi" in
      eassert (Ho : rundata W !! o = Some _) by find_object;
      match type of Ho with
      | _ = Some ?ob =>
          eassert (Ha : ob !! a = Some (VList _)) by find_attr;
          match type of Ha with
          | _ = Some (VList ?l) =>
              assert (Hi : (i < length l)%nat) by (cbn [length]; lia);
              rewrite (bind_run _ _ _ _ _ (setitem_run W o a ob l i x Ho Ha Hi));
              clear Ho Ha Hi; settle;
              cbn [list_insert insert]
          end
      end
  | |- bind (append ?o ?a ?x) ?k ?W = _ =>
      let Ho := fresh "Ho" in
      let Ha := fresh "Ha" in
      eassert (Ho : rundata W !! o = Some _) by find_object;
      match type of Ho with
      | _ = Some ?ob =>
          eassert (Ha : ob !! a = Some (VList _)) by find_attr;
          match type of Ha with
          | _ = Some (VList ?l) =>
              rewrite (bind_run _ _ _ _ _ (append_run W o a ob l x Ho Ha));
              clear Ho Ha; settle
          end
      end
  | |- bind get_geo_data ?k ?W = _ =>
      let Ho := fresh "Ho" in
      eassert (Ho : rundata W !! "geo_data" = Some _) by find_object;
      rewrite (bind_run _ _ _ _ _ (get_geo_data_run W _ Ho)); clear Ho
  | |- bind (lift (num_cells_rhs (VFloat (-88.0)) (VFloat (-55.0)))) _ _ = _ =>
      rewrite (bind_lift _ _ _ _ num_cells_west_east)
  | |- bind (lift (num_cells_rhs (VFloat 15.0) (VFloat 45.0))) _ _ = _ =>
      rewrite (bind_lift _ _ _ _ num_cells_south_north)
  | |- bind (lift (num_output_times_rhs _ _ 24)) _ _ = _ =>
      rewrite (bind_lift _ _ _ _ num_output_times_three_days)
  | |- bind (as_str (VStr _)) _ _ = _ => cbn [as_str]; rewrite bind_ret
  end.


Section Totality.
Context {clawpack : Clawpack}.

Lemma fetch_remote_run url dir w fs urls :
  get_remote_file url dir (files w) = inr (fs, urls) ->
  fetch_remote url dir w = (inr tt, add_fetched urls (set_files fs w)).
Proof. intros H. unfold fetch_remote. now rewrite H. Qed.

Lemma read_file_run path w c :
  files w !! path = Some c -> read_file path w = (inr c, w).
Proof. intros H. unfold read_file. now rewrite H. Qed.

Lemma setgeo_runs w geo ref topo qinit fixed surge fr cd lower upper friction_regions
      fs1 urls archive text trk :
  rundata w !! "geo_data" = Some geo ->
  rundata w !! "refinement_data" = Some ref ->
  rundata w !! "topo_data" = Some topo ->
  rundata w !! "qinit_data" = Some qinit ->
  rundata w !! "fixed_grid_data" = Some fixed ->
  rundata w !! "surge_data" = Some surge ->
  rundata w !! "friction_data" = Some fr ->
  rundata w !! "clawdata" = Some cd ->
  cd !! "lower" = Some lower -> cd !! "upper" = Some upper ->
  fr !! "friction_regions" = Some (VList friction_regions) ->
  get_remote_file best_track_url getcwd (files w) = inr (fs1, urls) ->
  fs1 !! best_track_archive = Some archive ->
  gunzip_ascii archive = inr text ->
  read_atcf text = inr trk ->
  exists w', setgeo w = (inr tt, w').
Proof.
  intros Hgeo Href Htopo Hqinit Hfixed Hsurge Hfr Hcd Hlo Hup Hreg Hget Harch Hgz Htrk.
  destruct w as [R F N S Wr]. cbn [rundata files] in *.
  eexists.
  unfold setgeo, set_topo_data, append_topofile, set_surge_data, set_friction_data.
  cbv zeta.
  repeat run_step.
  unfold fetch_best_track. cbv zeta. rewrite ?bind_assoc.
  lazymatch goal with
  | |- bind (fetch_remote ?u ?d) ?k ?W = _ =>
      rewrite (bind_run _ _ _ _ _ (fetch_remote_run u d W fs1 urls Hget))
  end.
  settle. rewrite ?bind_assoc.
  lazymatch goal with
  | |- bind (unzip ?p) ?k ?W = _ =>
      rewrite (bind_run _ _ _ _ _ (unzip_run p W archive text Harch Hgz))
  end.
  settle. rewrite bind_ret.
  unfold Storm_init. rewrite ?bind_assoc.
  lazymatch goal with
  | |- bind (read_file ?p) ?k ?W = _ =>
      rewrite (bind_run _ _ _ _ _ (read_file_run p W text (lookup_insert_eq _ _ _)))
  end.
  rewrite ?bind_assoc. rewrite (bind_lift _ _ _ _ Htrk). rewrite bind_ret.
  cbn [track].
  repeat run_step.
  unfold Storm_write, write_file. cbn [time_offset track]. rewrite bind_modify. settle.
  repeat run_step.
  eapply append_run; [find_object | find_attr].
Qed.

Lemma set_clawpack_parameters_runs claw_pkg w cd lower upper num_cells bc_lower bc_upper
      am rg gg regions gauges :
  ClawRunData claw_pkg 2 !! "clawdata" = Some cd ->
  cd !! "lower" = Some (VList lower) -> (2 <= length lower)%nat ->
  cd !! "upper" = Some (VList upper) -> (2 <= length upper)%nat ->
  cd !! "num_cells" = Some (VList num_cells) -> (2 <= length num_cells)%nat ->
  cd !! "bc_lower" = Some (VList bc_lower) -> (2 <= length bc_lower)%nat ->
  cd !! "bc_upper" = Some (VList bc_upper) -> (2 <= length bc_upper)%nat ->
  ClawRunData claw_pkg 2 !! "amrdata" = Some am ->
  ClawRunData claw_pkg 2 !! "regiondata" = Some rg ->
  rg !! "regions" = Some (VList regions) ->
  ClawRunData claw_pkg 2 !! "gaugedata" = Some gg ->
  gg !! "gauges" = Some (VList gauges) ->
  exists w' cd',
    set_clawpack_parameters claw_pkg 2 w = (inr tt, w') /\
    outside w' = outside w /\
    rundata w' !! "clawdata" = Some cd' /\
    is_Some (cd' !! "lower") /\ is_Some (cd' !! "upper") /\
    (forall o, In o ["geo_data"; "refinement_data"; "topo_data"; "qinit_data";
                     "fixed_grid_data"; "surge_data"; "friction_data"] ->
               rundata w' !! o = ClawRunData claw_pkg 2 !! o).
Proof.
  intros Hcd Hlo Llo Hup Lup Hnc Lnc Hbl Lbl Hbu Lbu Ham Org Hrg Ogg Hgg.
  destruct lower as [|lo0 [|lo1 lower]]; cbn [length] in Llo; try lia.
  destruct upper as [|up0 [|up1 upper]]; cbn [length] in Lup; try lia.
  destruct num_cells as [|nc0 [|nc1 num_cells]]; cbn [length] in Lnc; try lia.
  destruct bc_lower as [|bl0 [|bl1 bc_lower]]; cbn [length] in Lbl; try lia.
  destruct bc_upper as [|bu0 [|bu1 bc_upper]]; cbn [length] in Lbu; try lia.
  clear Llo Lup Lnc Lbl Lbu. destruct w as [R0 F N S Wr].
  eexists _, _. split.
  - unfold set_clawpack_parameters, set_clawdata, set_num_cells, set_num_cells_axis,
      set_output_times, set_checkpoint, set_amrdata, set_regions, set_gauges,
      append_gauge.
    rewrite bind_modify. settle.
    repeat run_step.
    eapply append_run; [find_object | find_attr].
  - unfold set_rundata. cbn [rundata files fetched stdout written].
    split; [reflexivity|]. split; [find_object|].
    split; [rewrite lookup_insert_ne by discriminate; norm_lookup; eauto|].
    split; [norm_lookup; eauto|].
    intros o Ho. cbn [In] in Ho.
    repeat (destruct Ho as [<-|Ho]; [norm_lookup; reflexivity|]). destruct Ho.
Qed.

(** X24. [setrun] returns whenever the package name is accepted, the
    constructor provides the eleven data objects, with two-entry bound,
    cell-count and boundary-condition lists and with region, gauge and
    friction-region lists, and the best track can be fetched, unpacked and
    parsed; [__main__] then ends normally as well. *)
Theorem setrun_succeeds (claw_pkg : string) (w : World)
        (cd : obj) (lower upper num_cells bc_lower bc_upper : list value)
        (regions gauges friction_regions : list value)
        (fs1 : gmap string string) (urls : list string) (archive text : string)
        (trk : list StormRecord) :
  str_lower claw_pkg = "geoclaw" ->
  ClawRunData claw_pkg 2 !! "clawdata" = Some cd ->
  cd !! "lower" = Some (VList lower) -> (2 <= length lower)%nat ->
  cd !! "upper" = Some (VList upper) -> (2 <= length upper)%nat ->
  cd !! "num_cells" = Some (VList num_cells) -> (2 <= length num_cells)%nat ->
  cd !! "bc_lower" = Some (VList bc_lower) -> (2 <= length bc_lower)%nat ->
  cd !! "bc_upper" = Some (VList bc_upper) -> (2 <= length bc_upper)%nat ->
  attr (ClawRunData claw_pkg 2) "regiondata" "regions" = Some (VList regions) ->
  attr (ClawRunData claw_pkg 2) "gaugedata" "gauges" = Some (VList gauges) ->
  attr (ClawRunData claw_pkg 2) "friction_data" "friction_regions"
  = Some (VList friction_regions) ->
  Forall (fun o => is_Some (ClawRunData claw_pkg 2 !! o))
         ["amrdata"; "geo_data"; "refinement_data"; "topo_data"; "qinit_data";
          "fixed_grid_data"; "surge_data"] ->
  get_remote_file best_track_url getcwd (files w) = inr (fs1, urls) ->
  fs1 !! best_track_archive = Some archive ->
  gunzip_ascii archive = inr text ->
  read_atcf text = inr trk ->
  (exists rd w', setrun claw_pkg w = (inr rd, w')) /\
  (forall argv, claw_pkg_of argv = claw_pkg -> exists w', main argv w = (inr tt, w')).
Proof.
  intros Hpkg Hcd Hlo Llo Hup Lup Hnc Lnc Hbl Lbl Hbu Lbu Hrg Hgg Hfr Hobjs
         Hget Harch Hgz Htrk.
  assert (Hrun : exists rd w', setrun claw_pkg w = (inr rd, w')).
  { unfold attr in Hrg, Hgg, Hfr.
    destruct (ClawRunData claw_pkg 2 !! "regiondata") as [rg|] eqn:Org; [|discriminate].
    destruct (ClawRunData claw_pkg 2 !! "gaugedata") as [gg|] eqn:Ogg; [|discriminate].
    destruct (ClawRunData claw_pkg 2 !! "friction_data") as [fr|] eqn:Ofr;
      [|discriminate].
    cbn [mbind option_bind] in Hrg, Hgg, Hfr.
    repeat match goal with
           | H : Forall _ (_ :: _) |- _ =>
               let Hx := fresh "Hobj" in
               apply Forall_cons in H as [[? Hx] H]
           end.
    clear Hobjs.
    edestruct (set_clawpack_parameters_runs claw_pkg w)
      as (w1 & cd' & Hpar & Hout & Hcd' & [lo' Hlo'] & [up' Hup'] & Hsame);
      try eassumption.
    edestruct (setgeo_runs w1) as (w' & Hgeo);
      [ rewrite Hsame by (cbn [In]; tauto); eassumption ..
      | exact Hcd' | exact Hlo' | exact Hup' | exact Hfr
      | apply outside_eq in Hout as (-> & _); exact Hget
      | exact Harch | exact Hgz | exact Htrk | ].
    exists (rundata w'), w'. unfold setrun. rewrite Hpkg.
    change (String.eqb "geoclaw" "geoclaw") with true. unfold assert.
    rewrite bind_ret. cbv zeta.
    rewrite (bind_run _ _ _ _ _ Hpar), (bind_run _ _ _ _ _ Hgeo). reflexivity. }
  split; [exact Hrun|].
  intros argv <-. destruct Hrun as (rd & w' & Hrun).
  rewrite main_setrun, (bind_run _ _ _ _ _ Hrun). eexists. reflexivity.
Qed.

End Totality.

(** * The further properties on the reference framework *)

Lemma write_once_then_serialize_witness :
  exists w',
    @main reference_clawpack ["setrun.py"] initial_world = (inr tt, w') /\
    @populated reference_clawpack (reference_rundata "geoclaw" 2) reference_result /\
    written w' = [reference_result] /\
    rundata w' = reference_result.
Proof.
  destruct (@write_once_then_serialize reference_clawpack ["setrun.py"] initial_world)
    as (Hok & _).
  destruct (Hok _ reference_main_returns)
    as (rd & w1 & Hrun & _ & Hpop & _ & _ & Hwritten & Hheld).
  change (claw_pkg_of ["setrun.py"]) with "geoclaw" in Hrun, Hpop.
  change (@setrun reference_clawpack "geoclaw" initial_world) with reference_run in Hrun.
  rewrite reference_run_returns in Hrun. apply returned_inj in Hrun as [<- <-].
  exists (add_written reference_result reference_world).
  split; [exact reference_main_returns|]. split; [exact Hpop|].
  split; [exact Hwritten | exact Hheld].
Defined.

Lemma unzip_outcomes_witness :
  @unzip reference_clawpack "/run/bal182012.dat" initial_world
  = (inl (OSError "/run/bal182012.dat.gz"), initial_world) /\
  @unzip corrupt_clawpack "/run/bal182012.dat" archive_world
  = (inl (OSError "not a gzipped file"),
     set_files (<["/run/bal182012.dat" := ""]> (files archive_world)) archive_world) /\
  @unzip reference_clawpack "/run/bal182012.dat" archive_world
  = (inr tt,
     set_files (<["/run/bal182012.dat" := "AL, 18, 2012"]> (files archive_world))
               archive_world).
Proof.
  split; [|split].
  - apply (proj1 (@unzip_outcomes reference_clawpack "/run/bal182012.dat" initial_world)).
    reflexivity.
  - apply (proj1 (proj2 (@unzip_outcomes corrupt_clawpack "/run/bal182012.dat"
                           archive_world)) "AL, 18, 2012");
      [vm_compute; reflexivity | reflexivity].
  - apply (proj2 (proj2 (@unzip_outcomes reference_clawpack "/run/bal182012.dat"
                           archive_world)) "AL, 18, 2012");
      [vm_compute; reflexivity | reflexivity].
Defined.

Lemma fetch_failure_surfaces_witness :
  @fetch_best_track offline_clawpack constructed_world
  = (inl (OSError "network unreachable"),
     add_fetched [best_track_url]
       (set_files {[ "/run/bal182012.dat.gz" := "" ]} constructed_world)) /\
  exists w',
    @set_surge_data offline_clawpack constructed_world
    = (inl (OSError "network unreachable"), w') /\
    outside w' = ({[ "/run/bal182012.dat.gz" := "" ]}, [best_track_url], [], []) /\
    the_attr "surge_data" "storm_file" w' = Some (VStr "/run/sandy.storm").
Proof.
  destruct (@fetch_failure_surfaces offline_clawpack constructed_world
              (OSError "network unreachable")
              {[ "/run/bal182012.dat.gz" := "" ]} [best_track_url] eq_refl)
    as [Hfetch Hsurge].
  split; [exact Hfetch|].
  destruct (Hsurge ∅) as (w' & Hrun & Hout & Hfile & _); [vm_compute; reflexivity|].
  exists w'. split; [exact Hrun|]. split; [exact Hout | exact Hfile].
Defined.

Lemma setrun_writes_storm_file_witness :
  exists fs1 urls archive text trk content,
    @get_remote_file reference_clawpack best_track_url "/run" (files initial_world)
    = inr (fs1, urls) /\
    fs1 !! "/run/bal182012.dat.gz" = Some archive /\
    @gunzip_ascii reference_clawpack archive = inr text /\
    @read_atcf reference_clawpack text = inr trk /\
    attr reference_result "surge_data" "storm_file" = Some (VStr "/run/sandy.storm") /\
    files reference_world
    = <["/run/sandy.storm" := content]> (<["/run/bal182012.dat" := text]> fs1).
Proof.
  exact (@setrun_writes_storm_file reference_clawpack "geoclaw" initial_world
           reference_world reference_result reference_run_returns).
Defined.

Lemma setrun_is_quiet_witness :
  stdout reference_world = stdout initial_world /\
  written reference_world = written initial_world /\
  exists fs1 urls,
    @get_remote_file reference_clawpack best_track_url "/run" (files initial_world)
    = inr (fs1, urls) /\
    fetched reference_world = (fetched initial_world ++ urls)%list.
Proof.
  exact (@setrun_is_quiet reference_clawpack "geoclaw" initial_world
           reference_world reference_result reference_run_returns).
Defined.

Lemma setrun_needs_two_bounds_witness :
  exists w',
    @setrun one_dimensional_clawpack "geoclaw" initial_world
    = (inl (IndexError "list assignment index out of range"), w') /\
    outside w' = outside initial_world.
Proof.
  apply (@setrun_needs_two_bounds one_dimensional_clawpack "geoclaw" initial_world
           (list_to_map [("lower", VList [VFloat 0]); ("upper", VList [VFloat 0]);
                         ("num_cells", VList [VFloat 0]);
                         ("bc_lower", VList [VNone]); ("bc_upper", VList [VNone])])
           [VFloat 0] [VFloat 0]);
    first [ vm_compute; reflexivity | cbn [length]; lia ].
Defined.

Lemma regions_appended_files_replaced_witness :
  (exists old,
      attr (reference_rundata "geoclaw" 2) "regiondata" "regions" = Some (VList old) /\
      attr reference_result "regiondata" "regions"
      = Some (VList (old ++
          [VList [VInt 1; VInt 6; VFloat (days2seconds (-0.45));
                  VFloat (days2seconds 0.10);
                  VFloat (-74.1); VFloat (-73.7); VFloat 40.55; VFloat 48.5];
           VList [VInt 1; VInt 5; VFloat (days2seconds 0.10); VFloat (days2seconds 1);
                  VFloat (-74.2); VFloat (-73.7); VFloat 40.55; VFloat 48.5]])%list)) /\
  attr reference_result "qinit_data" "qinitfiles" = Some (VList []) /\
  attr reference_result "fixed_grid_data" "fixedgrids" = Some (VList []).
Proof.
  destruct (@regions_appended_files_replaced reference_clawpack "geoclaw" initial_world
              reference_world reference_result reference_run_returns)
    as (Hreg & _ & Hq & Hf).
  split; [exact Hreg|]. split; [exact Hq | exact Hf].
Defined.

Lemma friction_region_spans_domain_witness :
  exists lo up old,
    attr reference_result "clawdata" "lower" = Some (VList lo) /\
    lo !! 0%nat = Some (VFloat (-88.0)) /\ lo !! 1%nat = Some (VFloat 15.0) /\
    attr reference_result "clawdata" "upper" = Some (VList up) /\
    up !! 0%nat = Some (VFloat (-55.0)) /\ up !! 1%nat = Some (VFloat 45.0) /\
    attr (reference_rundata "geoclaw" 2) "friction_data" "friction_regions"
    = Some (VList old) /\
    attr reference_result "friction_data" "friction_regions"
    = Some (VList (old ++ [VList [VList lo; VList up;
                                  VList [VInfty false; VFloat 0.0; VInfty true];
                                  VList [VFloat 0.050; VFloat 0.025]]])) /\
    attr reference_result "friction_data" "variable_friction" = Some (VBool true).
Proof.
  exact (@friction_region_spans_domain reference_clawpack "geoclaw" initial_world
           reference_world reference_result reference_run_returns).
Defined.

Lemma limiters_and_ratios_match_their_counts_witness :
  exists limiter rx ry rt,
    attr reference_result "clawdata" "limiter" = Some (VList limiter) /\
    attr reference_result "clawdata" "num_waves"
    = Some (VInt (Z.of_nat (length limiter))) /\
    attr reference_result "amrdata" "refinement_ratios_x" = Some (VList rx) /\
    attr reference_result "amrdata" "refinement_ratios_y" = Some (VList ry) /\
    attr reference_result "amrdata" "refinement_ratios_t" = Some (VList rt) /\
    attr reference_result "amrdata" "amr_levels_max"
    = Some (VInt (Z.of_nat (length rx) + 1)) /\
    length ry = length rx /\ length rt = length rx.
Proof.
  exact (@limiters_and_ratios_match_their_counts reference_clawpack "geoclaw"
           initial_world reference_world reference_result reference_run_returns).
Defined.

Lemma aux_type_longer_than_num_aux_witness :
  exists aux_type num_aux,
    attr reference_result "amrdata" "aux_type" = Some (VList aux_type) /\
    attr reference_result "clawdata" "num_aux" = Some (VInt num_aux) /\
    num_aux = 7 /\
    Z.of_nat (length aux_type) = num_aux + 2.
Proof.
  exact (@aux_type_longer_than_num_aux reference_clawpack "geoclaw"
           initial_world reference_world reference_result reference_run_returns).
Defined.

Lemma untaken_branches_assign_nothing_witness :
  attr reference_result "clawdata" "checkpt_times"
  = attr (reference_rundata "geoclaw" 2) "clawdata" "checkpt_times".
Proof.
  apply (@untaken_branches_assign_nothing reference_clawpack "geoclaw"
           initial_world reference_world reference_result "checkpt_times"
           reference_run_returns).
  cbn [In]. tauto.
Defined.

Lemma other_objects_untouched_witness :
  reference_result !! "dtopo_data" = reference_rundata "geoclaw" 2 !! "dtopo_data".
Proof.
  apply (@other_objects_untouched reference_clawpack "geoclaw"
           initial_world reference_world reference_result "dtopo_data"
           reference_run_returns).
  cbn [In]. intros H. repeat (destruct H as [H|H]; [discriminate H|]). exact H.
Defined.

Lemma time_windows_within_run_witness :
  exists t0 tfinal old r1 r2 f1 f2 regional,
    attr reference_result "clawdata" "t0" = Some (VFloat t0) /\
    attr reference_result "clawdata" "tfinal" = Some (VFloat tfinal) /\
    attr reference_result "topo_data" "topofiles" = Some (VList (f1 :: f2 :: regional)) /\
    (exists a b, window 3 f1 = Some (a, b) /\ a == t0 /\ b == tfinal)%Q /\
    (exists a b, window 3 f2 = Some (a, b) /\ a == t0 /\ b == tfinal)%Q /\
    Forall (fun f => exists a b, window 3 f = Some (a, b) /\
                                 t0 < a /\ a < b /\ b < tfinal)%Q regional /\
    attr reference_result "regiondata" "regions" = Some (VList (old ++ [r1; r2])) /\
    (exists a b c, window 2 r1 = Some (a, b) /\ window 2 r2 = Some (b, c) /\
                   t0 < a /\ a < b /\ b < c /\ c == tfinal)%Q.
Proof.
  exact (@time_windows_within_run reference_clawpack "geoclaw"
           initial_world reference_world reference_result reference_run_returns).
Defined.

Lemma main_leaves_storm_file_witness :
  exists rd,
    written (add_written reference_result reference_world)
    = (written initial_world ++ [rd])%list /\
    attr rd "surge_data" "storm_file" = Some (VStr "/run/sandy.storm") /\
    is_Some (files (add_written reference_result reference_world) !! "/run/sandy.storm") /\
    is_Some (files (add_written reference_result reference_world)
               !! "/run/bal182012.dat") /\
    is_Some (files (add_written reference_result reference_world)
               !! "/run/bal182012.dat.gz").
Proof.
  exact (@main_leaves_storm_file reference_clawpack ["setrun.py"] initial_world
           (add_written reference_result reference_world) reference_main_returns).
Defined.

Lemma custom_ticks_only_on_named_item_witness :
  add_custom_colorbar_ticks_to_axes surface_axes "speed" speed_ticks speed_labels
  = inl (KeyError "speed") /\
  exists axes',
    add_custom_colorbar_ticks_to_axes surface_axes "surface" surface_ticks surface_labels
    = inr axes' /\
    length (plotitems axes') = 2%nat /\
    map colorbar_ticks (plotitems axes') = [Some surface_ticks; None].
Proof.
  destruct (custom_ticks_only_on_named_item surface_axes "speed" speed_ticks speed_labels)
    as [Hmissing _].
  destruct (custom_ticks_only_on_named_item surface_axes "surface" surface_ticks
              surface_labels) as [_ Hfound].
  split; [exact (Hmissing eq_refl)|].
  destruct (Hfound eq_refl) as (axes' & Hrun & _ & _ & _ & _ & _ & Hlen & _).
  exists axes'. split; [exact Hrun|]. split; [exact Hlen|].
  vm_compute in Hrun. injection Hrun as <-. reflexivity.
Defined.


Lemma setplot_discards_old_figures_witness :
  @setplot (reference_readers false true)
    (Some (mkPlotData (outdir reference_plot) [gauge_figure] (attrs reference_plot)))
  = inr reference_plot /\
  @setplot (reference_readers false true) (Some reference_plot) = inr reference_plot.
Proof.
  destruct (@setplot_discards_old_figures (reference_readers false true) None
              reference_plot reference_plot_returns) as [Hold Hagain].
  split; [exact (Hold [gauge_figure]) | exact Hagain].
Defined.

Lemma twelve_figures_distinct_names_witness :
  map fig_name (figures reference_plot)
  = ["Surface - Coast"; "Currents - Coast";
     "Surface - Zhapo Station"; "Currents - Zhapo Station";
     "Surface - Landfall"; "Currents - Landfall";
     "Surface - Quarry Bay"; "Currents - Quarry Bay";
     "Pressure"; "Wind Speed"; "Gauge Surfaces"; "Gauge Locations"] /\
  NoDup (map fig_name (figures reference_plot)).
Proof.
  destruct (@twelve_figures_distinct_names (reference_readers false true) None
              reference_plot reference_plot_returns) as (Hnames & Hnodup & _).
  split; [exact Hnames | exact Hnodup].
Defined.

Lemma coast_figures_span_domain_witness :
  exists lower0 upper0 lower1 upper1,
    forall f,
      In f (figures reference_plot) ->
      In (fig_name f) ["Surface - Coast"; "Currents - Coast"; "Pressure"; "Wind Speed"] ->
      exists ax,
        plotaxes_list f = [ax] /\
        xlimits ax = Some (lower0, upper0) /\ ylimits ax = Some (lower1, upper1).
Proof.
  destruct (@coast_figures_span_domain (reference_readers false true) None
              reference_plot reference_plot_returns)
    as (clawdata & lo & up & l0 & u0 & l1 & u1 & _ & _ & _ & _ & _ & _ & _ & Hall).
  exists l0, u0, l1, u1. exact Hall.
Defined.


Lemma setplot_keeps_other_attributes_witness :
  outdir reference_plot = "_output" /\
  attrs reference_plot !! "verbose" = None /\
  attrs reference_plot !! "format" = Some (VStr "binary").
Proof.
  apply (@setplot_keeps_other_attributes (reference_readers false true) None
           reference_plot "verbose" reference_plot_returns).
  cbn [In]. intros H. repeat (destruct H as [H|H]; [discriminate H|]). exact H.
Defined.

Lemma friction_data_required_but_unused_witness :
  @setplot readers_without_friction None = inl (OSError "_output/friction.data") /\
  @setplot (reference_readers false true) None = inr reference_plot.
Proof.
  split.
  - exact (@friction_data_required_but_unused (reference_readers false true) None
             reference_plot (fun path => inl (OSError path)) reference_plot_returns).
  - exact (@friction_data_required_but_unused (reference_readers false true) None
             reference_plot (fun _ => inr ∅) reference_plot_returns).
Defined.

Lemma first_failing_read_is_raised_witness :
  @setplot readers_without_surge None = inl (OSError "_output/surge.data").
Proof.
  destruct (@first_failing_read_is_raised readers_without_surge None
              (OSError "_output/surge.data")) as (_ & Hclaw).
  destruct (Hclaw ∅ eq_refl) as (_ & Hgeo).
  destruct (Hgeo ∅ eq_refl) as (Hsurge & _).
  exact (Hsurge eq_refl).
Defined.

Lemma missing_data_is_reported_in_order_witness :
  @setplot readers_without_sea_level None = inl (AttributeError "sea_level").
Proof.
  destruct (@missing_data_is_reported_in_order readers_without_sea_level None
              ∅ ∅ ∅ ∅ [] eq_refl eq_refl eq_refl eq_refl eq_refl) as (Hsea & _).
  exact (Hsea eq_refl).
Defined.

Lemma setrun_succeeds_witness :
  (exists rd w', @setrun reference_clawpack "geoclaw" initial_world = (inr rd, w')) /\
  exists w', @main reference_clawpack ["setrun.py"] initial_world = (inr tt, w').
Proof.
  destruct (@setrun_succeeds reference_clawpack "geoclaw" initial_world
              (list_to_map [("lower", VList [VFloat 0; VFloat 0]);
                            ("upper", VList [VFloat 0; VFloat 0]);
                            ("num_cells", VList [VFloat 0; VFloat 0]);
                            ("bc_lower", VList [VNone; VNone]);
                            ("bc_upper", VList [VNone; VNone])])
              [VFloat 0; VFloat 0] [VFloat 0; VFloat 0] [VFloat 0; VFloat 0]
              [VNone; VNone] [VNone; VNone] [] [] []
              {[ "/run/bal182012.dat.gz" := "AL, 18, 2012" ]}
              ["http://ftp.nhc.noaa.gov/atcf/archive/2012/bal182012.dat.gz"]
              "AL, 18, 2012" "AL, 18, 2012" reference_track) as [Hrun Hmain];
    lazymatch goal with
    | |- Forall _ _ => repeat constructor; eexists; vm_compute; reflexivity
    | |- (_ <= _)%nat => cbn [length]; lia
    | |- _ = _ => vm_compute; reflexivity
    | |- _ => idtac
    end.
  split; [exact Hrun | exact (Hmain ["setrun.py"] eq_refl)].
Defined.
